(** * ContivosCRM: the dual-provider authentication core

    A shallow embedding of the authentication and authorization code of
    the CRM server:

    - [server/auth-service.ts]   (class [AuthService]),
    - [server/microsoft-auth.ts] (class [MicrosoftAuthService]),
    - [server/auth/routes.ts] and [server/auth/session.ts]
      ([ensureCrmUser], [deserializeUser], [isAuthenticated], [isAdmin]).

    Conventions of the embedding.

    - The relational store and the process-local maps are one explicit
      [World]; every operation is a function in the state monad [M] over
      it.  Statements of the driver that raise (connection loss and the
      like) are outside the model; the one data-dependent rejection that
      matters, an enum column receiving a label it does not have, is
      modelled ([ensureCrmUser] returns an [option]).
    - [Date.now()] / [new Date()] is the argument [now] (milliseconds),
      random values ([crypto.randomBytes], [gen_random_uuid()], the bcrypt
      salt) are arguments as well.
    - Third-party code is a type class of the operations the server calls:
      bcrypt ([Bcrypt]), jsonwebtoken and jwks-rsa ([JwtLib]), the HTTP
      endpoints of the identity provider ([IdentityProvider]).
    - A string is a sequence of 8-bit characters, one [ascii] for each
      code point of ISO 8859-1 (U+0000 to U+00FF); [JS.toLowerCase] is
      JavaScript's mapping on that range, which it does not leave. *)

From Stdlib Require Import ZArith List String Ascii Bool Lia.
From stdpp Require Import base option gmap strings.
Import ListNotations.

Local Open Scope string_scope.
Local Open Scope Z_scope.

(** ** JavaScript values used by the server *)

Module JS.

(** Truthiness of a string: every string but the empty one. *)
Definition truthy (s : string) : bool := negb (String.eqb s "").

(** Truthiness of [string | null | undefined]. *)
Definition truthy_opt (o : option string) : bool :=
  match o with
  | Some s => truthy s
  | None => false
  end.

(** [a || b] on optional strings. *)
Definition or_else (a b : option string) : option string :=
  if truthy_opt a then a else b.

(** [a || "literal"]. *)
Definition or_default (a : option string) (d : string) : string :=
  match a with
  | Some s => if truthy s then s else d
  | None => d
  end.

(** [String.prototype.toLowerCase] on one character: the letters A to Z
    (65 to 90) and the letters U+00C0 to U+00DE (192 to 222), the
    multiplication sign U+00D7 (215) apart, move 32 places up; every other
    character of the range is its own lower case. *)
Definition lower_char (c : ascii) : ascii :=
  let n := nat_of_ascii c in
  if ((65 <=? n)%nat && (n <=? 90)%nat)%bool then ascii_of_nat (n + 32)
  else if ((192 <=? n)%nat && (n <=? 222)%nat && negb (n =? 215)%nat)%bool
       then ascii_of_nat (n + 32)
  else c.

Fixpoint toLowerCase (s : string) : string :=
  match s with
  | EmptyString => EmptyString
  | String c rest => String (lower_char c) (toLowerCase rest)
  end.

(** [s.split(sep)] for a one-character separator. *)
Fixpoint split (sep : ascii) (s : string) : list string :=
  match s with
  | EmptyString => [EmptyString]
  | String c rest =>
      if Ascii.eqb c sep then EmptyString :: split sep rest
      else match split sep rest with
           | [] => [String c EmptyString]
           | h :: t => String c h :: t
           end
  end.

(** [arr.includes(x)] where [x] may be [undefined]. *)
Definition includes (arr : list string) (x : option string) : bool :=
  match x with
  | Some s => existsb (String.eqb s) arr
  | None => false
  end.

(** Truthiness of an object reference ([Date | null]): set or not. *)
Definition defined {A} (o : option A) : bool :=
  match o with
  | Some _ => true
  | None => false
  end.

(** A value interpolated in a template literal. *)
Definition interpolate (x : option string) : string :=
  match x with
  | Some s => s
  | None => "undefined"
  end.

End JS.

(** ** Data model ([shared/models/auth.ts], [shared/schema.ts]) *)

Inductive AuthProvider := local | microsoft | replit.

Definition AuthProvider_eqb (a b : AuthProvider) : bool :=
  match a, b with
  | local, local | microsoft, microsoft | replit, replit => true
  | _, _ => false
  end.

Inductive UserRole := admin | manager | sales.

Definition UserRole_eqb (a b : UserRole) : bool :=
  match a, b with
  | admin, admin | manager, manager | sales, sales => true
  | _, _ => false
  end.

Definition role_label (r : UserRole) : string :=
  match r with
  | admin => "admin"
  | manager => "manager"
  | sales => "sales"
  end.

(** What the [user_role] enum column accepts. *)
Definition parse_role (s : string) : option UserRole :=
  if String.eqb s "admin" then Some admin
  else if String.eqb s "manager" then Some manager
  else if String.eqb s "sales" then Some sales
  else None.

Module User.
Record t := mk {
  id : string;
  email : option string;
  firstName : option string;
  lastName : option string;
  profileImageUrl : option string;
  authProvider : AuthProvider;
  passwordHash : option string;
  microsoftUserId : option string;
  microsoftTenantId : option string;
  isDisabled : bool;
  emailVerified : bool;
  createdAt : option Z;
  updatedAt : option Z;
  lastLoginAt : option Z
}.
End User.

Module ResetToken.
Record t := mk {
  id : string;
  userId : string;
  token : string;
  expiresAt : Z;
  usedAt : option Z;
  createdAt : option Z
}.
End ResetToken.

Module SsoSettings.
Record t := mk {
  id : string;
  microsoftClientId : option string;
  microsoftTenantId : option string;
  allowedTenantIds : option (list string);
  allowedEmailDomains : option (list string);
  defaultRoleForSso : option string;
  autoProvisionUsers : bool;
  ssoOnly : bool
}.
End SsoSettings.

Module Audit.
Record t := mk {
  userId : option string;
  email : option string;
  action : string;
  provider : option AuthProvider;
  success : bool;
  failureReason : option string;
  ipAddress : option string;
  userAgent : option string;
  metadata : option (list (string * string))
}.
End Audit.

Module CrmUser.
Record t := mk {
  id : string;
  authUserId : string;
  role : UserRole;
  firstName : option string;
  lastName : option string;
  email : option string
}.
End CrmUser.

(** An entry of [MicrosoftAuthService.pendingStates]. *)
Module Pending.
Record t := mk {
  createdAt : Z;
  redirectTo : option string
}.
End Pending.

(** What a request handler asks of the outside, in the order it does so:
    network calls and runs of the token verifier. *)
Inductive Call :=
| CallTokenEndpoint (code : string)
| CallJwks (tenant kid : string)
| CallJwtVerify (idToken : string)
| CallGraphMe (accessToken : string)
| CallGraphOrganization (accessToken : string).

Record World := mkWorld {
  users : list User.t;
  passwordResetTokens : list ResetToken.t;
  ssoSettings : list SsoSettings.t;
  authAuditLog : list Audit.t;
  crmUsers : list CrmUser.t;
  pendingStates : gmap string Pending.t;
  calls : list Call
}.

Definition with_users (us : list User.t) (w : World) : World :=
  mkWorld us (passwordResetTokens w) (ssoSettings w) (authAuditLog w)
          (crmUsers w) (pendingStates w) (calls w).

Definition with_tokens (ts : list ResetToken.t) (w : World) : World :=
  mkWorld (users w) ts (ssoSettings w) (authAuditLog w)
          (crmUsers w) (pendingStates w) (calls w).

Definition with_audit (l : list Audit.t) (w : World) : World :=
  mkWorld (users w) (passwordResetTokens w) (ssoSettings w) l
          (crmUsers w) (pendingStates w) (calls w).

Definition with_crm (l : list CrmUser.t) (w : World) : World :=
  mkWorld (users w) (passwordResetTokens w) (ssoSettings w) (authAuditLog w)
          l (pendingStates w) (calls w).

Definition with_pending (p : gmap string Pending.t) (w : World) : World :=
  mkWorld (users w) (passwordResetTokens w) (ssoSettings w) (authAuditLog w)
          (crmUsers w) p (calls w).

Definition with_calls (c : list Call) (w : World) : World :=
  mkWorld (users w) (passwordResetTokens w) (ssoSettings w) (authAuditLog w)
          (crmUsers w) (pendingStates w) c.

(** ** The state monad of the server *)

Definition M (A : Type) : Type := World -> A * World.

Definition ret {A} (a : A) : M A := fun w => (a, w).

Definition bind {A B} (m : M A) (k : A -> M B) : M B :=
  fun w => k (fst (m w)) (snd (m w)).

Declare Scope srv_scope.
Delimit Scope srv_scope with srv.
Notation "x <- m ;; k" := (bind m (fun x => k))
  (at level 100, m at next level, right associativity) : srv_scope.
Notation "m ;;; k" := (bind m (fun _ => k))
  (at level 100, right associativity) : srv_scope.
Local Open Scope srv_scope.

Definition gets {A} (f : World -> A) : M A := fun w => (f w, w).
Definition modify (f : World -> World) : M unit := fun w => (tt, f w).

(** *** Queries of the drizzle layer *)

Definition opt_eqb (a : option string) (b : string) : bool :=
  match a with
  | Some s => String.eqb s b
  | None => false
  end.

(** The conditions [eq(users.email, e)] and [eq(users.id, i)]. *)
Definition by_email (email : string) (u : User.t) : bool := opt_eqb (User.email u) email.
Definition by_id (id : string) (u : User.t) : bool := String.eqb (User.id u) id.

(** [select().from(users).where(eq(users.email, e)).limit(1)] *)
Definition select_user_by_email (e : string) : M (option User.t) :=
  gets (fun w => find (fun u => opt_eqb (User.email u) e) (users w)).

(** [select().from(users).where(eq(users.id, i)).limit(1)] *)
Definition select_user_by_id (i : string) : M (option User.t) :=
  gets (fun w => find (fun u => String.eqb (User.id u) i) (users w)).

(** [update(users).set(..).where(eq(users.id, i))] *)
Definition update_users_by_id (i : string) (f : User.t -> User.t) : M unit :=
  modify (fun w =>
    with_users (map (fun u => if String.eqb (User.id u) i then f u else u) (users w)) w).

Definition insert_user (u : User.t) : M unit :=
  modify (fun w => with_users (users w ++ [u]) w).

Definition select_token (t : string) : M (option ResetToken.t) :=
  gets (fun w => find (fun r => String.eqb (ResetToken.token r) t) (passwordResetTokens w)).

Definition update_tokens_by_id (i : string) (f : ResetToken.t -> ResetToken.t) : M unit :=
  modify (fun w =>
    with_tokens (map (fun r => if String.eqb (ResetToken.id r) i then f r else r)
                     (passwordResetTokens w)) w).

Definition select_crm_by_auth_id (i : string) : M (option CrmUser.t) :=
  gets (fun w => find (fun c => String.eqb (CrmUser.authUserId c) i) (crmUsers w)).

Definition record_call (c : Call) : M unit :=
  modify (fun w => with_calls (calls w ++ [c]) w).

(** ** [server/auth-service.ts] *)

(** The bcrypt package: [bcrypt.hash(password, rounds)] draws a salt, which
    is an argument here; [bcrypt.compare(password, hash)]. *)
Class Bcrypt := {
  bcrypt_hash : string -> string -> nat -> string;
  bcrypt_compare : string -> string -> bool
}.

Record LoginResult := mkLoginResult {
  success : bool;
  user : option User.t;
  error : option string
}.

Definition failure (msg : string) : LoginResult := mkLoginResult false None (Some msg).

(** [{ success, error? }] of [resetPassword]. *)
Record ResetResult := mkResetResult {
  reset_success : bool;
  reset_error : option string
}.

(** [MicrosoftUserProfile] (and the parameter type of
    [handleMicrosoftSsoCallback]). *)
Module Profile.
Record t := mk {
  id : string;
  displayName : option string;
  mail : option string;
  givenName : option string;
  surname : option string;
  userPrincipalName : option string;
  jobTitle : option string
}.
End Profile.

Module AuthService.

Definition SALT_ROUNDS : nat := 12.
Definition RESET_TOKEN_EXPIRY_HOURS : Z := 24.

Section WithBcrypt.
Context `{Bcrypt}.

Definition hashPassword (salt password : string) : string :=
  bcrypt_hash salt password SALT_ROUNDS.

Definition verifyPassword (password hash : string) : bool :=
  bcrypt_compare password hash.

(** [logAuditEvent]: the insert, with its failure contained. *)
Definition logAuditEvent (data : Audit.t) : M unit :=
  modify (fun w => with_audit (authAuditLog w ++ [data]) w).

Definition failed_login (userId : option string) (email reason : string)
    (ipAddress userAgent : option string) : Audit.t :=
  Audit.mk userId (Some email) "failed_login" (Some local) false (Some reason)
           ipAddress userAgent None.

Definition set_lastLoginAt (now : Z) (u : User.t) : User.t :=
  User.mk (User.id u) (User.email u) (User.firstName u) (User.lastName u)
          (User.profileImageUrl u) (User.authProvider u) (User.passwordHash u)
          (User.microsoftUserId u) (User.microsoftTenantId u) (User.isDisabled u)
          (User.emailVerified u) (User.createdAt u) (User.updatedAt u) (Some now).

Definition loginLocalUser (email password : string)
    (ipAddress userAgent : option string) (now : Z) : M LoginResult :=
  found <- select_user_by_email (JS.toLowerCase email) ;;
  match found with
  | None =>
      logAuditEvent (failed_login None email "User not found" ipAddress userAgent) ;;;
      ret (failure "Invalid email or password")
  | Some user =>
      if User.isDisabled user then
        logAuditEvent (failed_login (Some (User.id user)) email "Account disabled"
                                    ipAddress userAgent) ;;;
        ret (failure "Account is disabled. Contact your administrator.")
      else if negb (JS.truthy_opt (User.passwordHash user)) then
        logAuditEvent (failed_login (Some (User.id user)) email
                                    "No password set (SSO account)" ipAddress userAgent) ;;;
        ret (failure "This account uses Microsoft SSO. Please sign in with Microsoft.")
      else
        let isValid := verifyPassword password (default "" (User.passwordHash user)) in
        if negb isValid then
          logAuditEvent (failed_login (Some (User.id user)) email "Invalid password"
                                      ipAddress userAgent) ;;;
          ret (failure "Invalid email or password")
        else
          update_users_by_id (User.id user) (set_lastLoginAt now) ;;;
          logAuditEvent (Audit.mk (Some (User.id user)) (User.email user) "login"
                                  (Some local) true None ipAddress userAgent None) ;;;
          ret (mkLoginResult true (Some user) None)
  end.

(** *** [resetPassword] *)

Definition set_password (hash : string) (now : Z) (u : User.t) : User.t :=
  User.mk (User.id u) (User.email u) (User.firstName u) (User.lastName u)
          (User.profileImageUrl u) (User.authProvider u) (Some hash)
          (User.microsoftUserId u) (User.microsoftTenantId u) (User.isDisabled u)
          (User.emailVerified u) (User.createdAt u) (Some now) (User.lastLoginAt u).

Definition set_usedAt (now : Z) (r : ResetToken.t) : ResetToken.t :=
  ResetToken.mk (ResetToken.id r) (ResetToken.userId r) (ResetToken.token r)
                (ResetToken.expiresAt r) (Some now) (ResetToken.createdAt r).

Definition reset_failure (msg : string) : ResetResult := mkResetResult false (Some msg).
Definition reset_ok : ResetResult := mkResetResult true None.

Definition password_reset_complete (userId : string) : Audit.t :=
  Audit.mk (Some userId) None "password_reset_complete" (Some local) true None
           None None None.

Definition resetPassword (token newPassword : string) (salt : string) (now : Z)
    : M ResetResult :=
  found <- select_token token ;;
  match found with
  | None => ret (reset_failure "Invalid or expired reset token")
  | Some resetToken =>
      if JS.defined (ResetToken.usedAt resetToken) then
        ret (reset_failure "This reset token has already been used")
      else if now >? ResetToken.expiresAt resetToken then
        ret (reset_failure "This reset token has expired")
      else if (String.length newPassword <? 8)%nat then
        ret (reset_failure "Password must be at least 8 characters")
      else
        let passwordHash := hashPassword salt newPassword in
        update_users_by_id (ResetToken.userId resetToken) (set_password passwordHash now) ;;;
        update_tokens_by_id (ResetToken.id resetToken) (set_usedAt now) ;;;
        logAuditEvent (password_reset_complete (ResetToken.userId resetToken)) ;;;
        ret reset_ok
  end.

(** The same function cut at its [await]s: a request handler runs from one
    [await] to the next without interruption, and other handlers may run in
    between.  [RpSelect] is the state before the token query, [RpCheck] the
    state in which the query has resolved and the checks and the hashing
    are about to run, and so on. *)
Inductive ResetPc :=
| RpSelect (token newPassword : string)
| RpCheck (found : option ResetToken.t) (newPassword : string)
| RpUpdateUser (resetToken : ResetToken.t) (passwordHash : string)
| RpUpdateToken (resetToken : ResetToken.t)
| RpAudit (resetToken : ResetToken.t)
| RpDone (result : ResetResult).

Definition reset_step (salt : string) (now : Z) (pc : ResetPc) : M ResetPc :=
  match pc with
  | RpSelect token newPassword =>
      found <- select_token token ;; ret (RpCheck found newPassword)
  | RpCheck None _ => ret (RpDone (reset_failure "Invalid or expired reset token"))
  | RpCheck (Some resetToken) newPassword =>
      if JS.defined (ResetToken.usedAt resetToken) then
        ret (RpDone (reset_failure "This reset token has already been used"))
      else if now >? ResetToken.expiresAt resetToken then
        ret (RpDone (reset_failure "This reset token has expired"))
      else if (String.length newPassword <? 8)%nat then
        ret (RpDone (reset_failure "Password must be at least 8 characters"))
      else ret (RpUpdateUser resetToken (hashPassword salt newPassword))
  | RpUpdateUser resetToken passwordHash =>
      update_users_by_id (ResetToken.userId resetToken) (set_password passwordHash now) ;;;
      ret (RpUpdateToken resetToken)
  | RpUpdateToken resetToken =>
      update_tokens_by_id (ResetToken.id resetToken) (set_usedAt now) ;;;
      ret (RpAudit resetToken)
  | RpAudit resetToken =>
      logAuditEvent (password_reset_complete (ResetToken.userId resetToken)) ;;;
      ret (RpDone reset_ok)
  | RpDone r => ret (RpDone r)
  end.

(** Two handlers of [POST /api/auth/reset-password] in flight.  A schedule
    names, for each turn, the handler that runs ([true]: the first) and the
    clock at that turn. *)
Record TwoResets := mkTwoResets {
  first_pc : ResetPc;
  second_pc : ResetPc
}.

Fixpoint run_resets (salt1 salt2 : string) (schedule : list (bool * Z))
    (st : TwoResets) : M TwoResets :=
  match schedule with
  | [] => ret st
  | (true, now) :: rest =>
      pc <- reset_step salt1 now (first_pc st) ;;
      run_resets salt1 salt2 rest (mkTwoResets pc (second_pc st))
  | (false, now) :: rest =>
      pc <- reset_step salt2 now (second_pc st) ;;
      run_resets salt1 salt2 rest (mkTwoResets (first_pc st) pc)
  end.

Definition succeeded (pc : ResetPc) : bool :=
  match pc with
  | RpDone r => reset_success r
  | _ => false
  end.


(** *** Federation policy and account binding *)

(** [getSsoSettings]: the first row, or [null]. *)
Definition getSsoSettings : M (option SsoSettings.t) :=
  gets (fun w => head (ssoSettings w)).

(** [list && list.length > 0 && !list.includes(x)] for an allow-list column
    of a settings row that may itself be absent. *)
Definition not_allowed (allowList : option (list string)) (x : option string) : bool :=
  match allowList with
  | Some l => (0 <? length l)%nat && negb (JS.includes l x)
  | None => false
  end.

Definition failed_sso_login (userId : option string) (email reason : string)
    (ipAddress userAgent : option string) : Audit.t :=
  Audit.mk userId (Some email) "failed_sso_login" (Some microsoft) false (Some reason)
           ipAddress userAgent None.

(** The [set] clause of the update that binds a federated identity to an
    existing account; [user] is the row read before the update. *)
Definition bind_microsoft (user : User.t) (profile : Profile.t) (tenantId : string)
    (now : Z) (u : User.t) : User.t :=
  User.mk (User.id u) (User.email u)
          (JS.or_else (Profile.givenName profile) (User.firstName user))
          (JS.or_else (Profile.surname profile) (User.lastName user))
          (User.profileImageUrl u)
          (if AuthProvider_eqb (User.authProvider user) local then local else microsoft)
          (User.passwordHash u)
          (Some (Profile.id profile)) (Some tenantId)
          (User.isDisabled u) (User.emailVerified u) (User.createdAt u)
          (Some now) (Some now).

(** The row that [insert(users).values(..).returning()] creates, with the
    column defaults of the schema. *)
Definition provisioned (uuid email : string) (profile : Profile.t) (tenantId : string)
    (now : Z) : User.t :=
  User.mk uuid (Some email)
          (JS.or_else (Profile.givenName profile) None)
          (JS.or_else (Profile.surname profile) None)
          None microsoft None
          (Some (Profile.id profile)) (Some tenantId)
          false true (Some now) (Some now) None.

Definition profile_email (profile : Profile.t) : string :=
  JS.toLowerCase
    (JS.or_default (JS.or_else (Profile.mail profile) (Profile.userPrincipalName profile)) "").

Definition sso_login (user : User.t) (profile : Profile.t) (tenantId : string)
    (ipAddress userAgent : option string) : Audit.t :=
  Audit.mk (Some (User.id user)) (User.email user) "sso_login" (Some microsoft) true None
           ipAddress userAgent
           (Some [("tenantId", tenantId); ("microsoftUserId", Profile.id profile)]).

Definition handleMicrosoftSsoCallback (profile : Profile.t) (tenantId : string)
    (ipAddress userAgent : option string) (uuid : string) (now : Z) : M LoginResult :=
  let email := profile_email profile in
  if negb (JS.truthy email) then
    ret (failure "No email address found in Microsoft profile")
  else
    settings <- getSsoSettings ;;
    if not_allowed (settings ≫= SsoSettings.allowedTenantIds) (Some tenantId) then
      logAuditEvent (failed_sso_login None email
                       ("Tenant " ++ tenantId ++ " not in allowed list")
                       ipAddress userAgent) ;;;
      ret (failure "Your organization is not authorized for SSO")
    else
      let emailDomain := nth_error (JS.split "@"%char email) 1 in
      if not_allowed (settings ≫= SsoSettings.allowedEmailDomains) emailDomain then
        logAuditEvent (failed_sso_login None email
                         ("Email domain " ++ JS.interpolate emailDomain ++ " not in allowed list")
                         ipAddress userAgent) ;;;
        ret (failure "Your email domain is not authorized for access")
      else
        found <- select_user_by_email email ;;
        match found with
        | Some user =>
            if User.isDisabled user then
              logAuditEvent (failed_sso_login (Some (User.id user)) email "Account disabled"
                                              ipAddress userAgent) ;;;
              ret (failure "Account is disabled. Contact your administrator.")
            else
              update_users_by_id (User.id user) (bind_microsoft user profile tenantId now) ;;;
              reread <- select_user_by_id (User.id user) ;;
              match reread with
              | Some user =>
                  logAuditEvent (sso_login user profile tenantId ipAddress userAgent) ;;;
                  ret (mkLoginResult true (Some user) None)
              | None =>
                  (* [user.id] of [undefined] raises; the row was just
                     updated, so this branch is never taken
                     ([reread_after_bind]) *)
                  ret (mkLoginResult false None None)
              end
        | None =>
            if negb (default true (SsoSettings.autoProvisionUsers <$> settings)) then
              logAuditEvent (failed_sso_login None email
                               "Auto-provisioning disabled and user does not exist"
                               ipAddress userAgent) ;;;
              ret (failure "Account does not exist. Contact your administrator for access.")
            else
              let user := provisioned uuid email profile tenantId now in
              insert_user user ;;;
              logAuditEvent (sso_login user profile tenantId ipAddress userAgent) ;;;
              ret (mkLoginResult true (Some user) None)
        end.


(** *** Registration *)

(** [RegisterResult] has the fields of [LoginResult]. *)
Definition RegisterResult : Type := LoginResult.

(** The row that [insert(users).values(..).returning()] creates for a
    local registration, with the column defaults of the schema. *)
Definition registered (uuid email passwordHash : string)
    (firstName lastName : option string) (now : Z) : User.t :=
  User.mk uuid (Some email)
          (JS.or_else firstName None) (JS.or_else lastName None)
          None local (Some passwordHash) None None
          false false (Some now) (Some now) None.

Definition registerLocalUser (email password : string)
    (firstName lastName : option string) (salt uuid : string) (now : Z)
    : M RegisterResult :=
  existingUser <- select_user_by_email (JS.toLowerCase email) ;;
  if JS.defined existingUser then
    ret (failure "Email already registered")
  else if (String.length password <? 8)%nat then
    ret (failure "Password must be at least 8 characters")
  else
    let passwordHash := hashPassword salt password in
    let newUser := registered uuid (JS.toLowerCase email) passwordHash
                              firstName lastName now in
    insert_user newUser ;;;
    logAuditEvent (Audit.mk (Some (User.id newUser)) (User.email newUser) "register"
                            (Some local) true None None None None) ;;;
    ret (mkLoginResult true (Some newUser) None).

(** *** Requesting a password reset *)

(** [{ success, token?, error? }] *)
Record TokenResult := mkTokenResult {
  token_success : bool;
  token_value : option string;
  token_error : option string
}.

Definition insert_token (t : ResetToken.t) : M unit :=
  modify (fun w => with_tokens (passwordResetTokens w ++ [t]) w).

(** [createPasswordResetToken]; [token] is the value drawn by
    [crypto.randomBytes(32).toString("hex")], [uuid] the id of the new
    row. *)
Definition createPasswordResetToken (email : string) (token uuid : string) (now : Z)
    : M TokenResult :=
  found <- select_user_by_email (JS.toLowerCase email) ;;
  match found with
  | None => ret (mkTokenResult true None None)
  | Some user =>
      if negb (AuthProvider_eqb (User.authProvider user) local) then
        ret (mkTokenResult false None
               (Some "This account uses SSO. Password reset is not available."))
      else
        let expiresAt := now + RESET_TOKEN_EXPIRY_HOURS * 60 * 60 * 1000 in
        insert_token (ResetToken.mk uuid (User.id user) token expiresAt None (Some now)) ;;;
        logAuditEvent (Audit.mk (Some (User.id user)) (User.email user)
                                "password_reset_request" (Some local) true None
                                None None None) ;;;
        ret (mkTokenResult true (Some token) None)
  end.

(** *** Administration of accounts *)

Definition set_microsoft_link (microsoftUserId tenantId : string) (now : Z)
    (u : User.t) : User.t :=
  User.mk (User.id u) (User.email u) (User.firstName u) (User.lastName u)
          (User.profileImageUrl u) (User.authProvider u) (User.passwordHash u)
          (Some microsoftUserId) (Some tenantId) (User.isDisabled u)
          (User.emailVerified u) (User.createdAt u) (Some now) (User.lastLoginAt u).

Definition clear_microsoft_link (now : Z) (u : User.t) : User.t :=
  User.mk (User.id u) (User.email u) (User.firstName u) (User.lastName u)
          (User.profileImageUrl u) local (User.passwordHash u)
          None None (User.isDisabled u)
          (User.emailVerified u) (User.createdAt u) (Some now) (User.lastLoginAt u).

Definition set_isDisabled (b : bool) (now : Z) (u : User.t) : User.t :=
  User.mk (User.id u) (User.email u) (User.firstName u) (User.lastName u)
          (User.profileImageUrl u) (User.authProvider u) (User.passwordHash u)
          (User.microsoftUserId u) (User.microsoftTenantId u) b
          (User.emailVerified u) (User.createdAt u) (Some now) (User.lastLoginAt u).

Definition linkMicrosoftAccount (userId microsoftUserId tenantId : string) (now : Z)
    : M ResetResult :=
  found <- select_user_by_id userId ;;
  match found with
  | None => ret (reset_failure "User not found")
  | Some user =>
      update_users_by_id userId (set_microsoft_link microsoftUserId tenantId now) ;;;
      logAuditEvent (Audit.mk (Some userId) (User.email user) "microsoft_account_linked"
                              (Some microsoft) true None None None
                              (Some [("tenantId", tenantId);
                                     ("microsoftUserId", microsoftUserId)])) ;;;
      ret reset_ok
  end.

Definition unlinkMicrosoftAccount (userId : string) (now : Z) : M ResetResult :=
  found <- select_user_by_id userId ;;
  match found with
  | None => ret (reset_failure "User not found")
  | Some user =>
      if AuthProvider_eqb (User.authProvider user) microsoft
         && negb (JS.truthy_opt (User.passwordHash user))
      then
        ret (reset_failure
               "Cannot unlink Microsoft account without setting a password first")
      else
        update_users_by_id userId (clear_microsoft_link now) ;;;
        logAuditEvent (Audit.mk (Some userId) (User.email user)
                                "microsoft_account_unlinked" (Some local) true None
                                None None None) ;;;
        ret reset_ok
  end.

Definition disableUser (userId : string) (now : Z) : M ResetResult :=
  found <- select_user_by_id userId ;;
  match found with
  | None => ret (reset_failure "User not found")
  | Some user =>
      update_users_by_id userId (set_isDisabled true now) ;;;
      logAuditEvent (Audit.mk (Some userId) (User.email user) "user_disabled"
                              None true None None None None) ;;;
      ret reset_ok
  end.

Definition enableUser (userId : string) (now : Z) : M ResetResult :=
  found <- select_user_by_id userId ;;
  match found with
  | None => ret (reset_failure "User not found")
  | Some user =>
      update_users_by_id userId (set_isDisabled false now) ;;;
      logAuditEvent (Audit.mk (Some userId) (User.email user) "user_enabled"
                              None true None None None None) ;;;
      ret reset_ok
  end.

End WithBcrypt.
End AuthService.

(** ** [server/auth/session.ts] and [ensureCrmUser] of [server/auth/routes.ts] *)

Module Session.

Record AuthUser := mkAuthUser {
  id : string;
  email : option string;
  firstName : option string;
  lastName : option string;
  authProvider : AuthProvider;
  isDisabled : bool
}.

Definition authUser_of (u : User.t) : AuthUser :=
  mkAuthUser (User.id u) (User.email u) (User.firstName u) (User.lastName u)
             (User.authProvider u) (User.isDisabled u).

(** [passport.deserializeUser]: run on every request that carries a
    session, it rebuilds [req.user] from the [users] row. *)
Definition deserializeUser (id : string) : M (option AuthUser) :=
  found <- select_user_by_id id ;;
  ret (authUser_of <$> found).

(** A request as the gates see it: [req.user], set by the session
    middleware from the account id kept in the session. *)
Record Request := mkRequest {
  req_user : option AuthUser
}.

Definition with_session (sessionUserId : option string) : M Request :=
  match sessionUserId with
  | None => ret (mkRequest None)
  | Some id => u <- deserializeUser id ;; ret (mkRequest u)
  end.

(** [req.isAuthenticated()] *)
Definition req_isAuthenticated (req : Request) : bool := JS.defined (req_user req).

(** [req.logout(..)]: the session ends. *)
Definition req_logout (req : Request) : Request := mkRequest None.

Inductive Response :=
| Status (code : Z) (message : string)
| Next.

Definition isAuthenticated (req : Request) : Response * Request :=
  match req_user req with
  | None => (Status 401 "Unauthorized", req)
  | Some user =>
      if isDisabled user then (Status 403 "Account is disabled", req_logout req)
      else (Next, req)
  end.

Definition isAdmin (req : Request) : M (Response * Request) :=
  match req_user req with
  | None => ret (Status 401 "Unauthorized", req)
  | Some user =>
      crmUser <- select_crm_by_auth_id (id user) ;;
      match crmUser with
      | None => ret (Status 403 "Admin access required", req)
      | Some crmUser =>
          if negb (UserRole_eqb (CrmUser.role crmUser) admin)
          then ret (Status 403 "Admin access required", req)
          else ret (Next, req)
      end
  end.

(** [ensureCrmUser]; [None] is the database refusing the insert because
    the role is not a label of the [user_role] enum, which raises. *)
Definition ensureCrmUser (user : User.t) (uuid : string) : M (option unit) :=
  existingCrmUser <- select_crm_by_auth_id (User.id user) ;;
  match existingCrmUser with
  | Some _ => ret (Some tt)
  | None =>
      ssoSettings <- AuthService.getSsoSettings ;;
      let defaultRole := JS.or_default (ssoSettings ≫= SsoSettings.defaultRoleForSso) "sales" in
      let role := if AuthProvider_eqb (User.authProvider user) local then "sales"
                  else defaultRole in
      match parse_role role with
      | None => ret None
      | Some role =>
          modify (fun w => with_crm (crmUsers w ++
                    [CrmUser.mk uuid (User.id user) role (User.firstName user)
                                (User.lastName user) (User.email user)]) w) ;;;
          ret (Some tt)
      end
  end.

End Session.

(** ** [server/microsoft-auth.ts] *)

(** The payload of a decoded token.  The interface [IdTokenPayload] is a
    cast over whatever the token carries: a claim may be absent, and [aud]
    is a string or an array of strings (a list here, of one element for a
    string, empty when the claim is absent). *)
Record IdTokenPayload := mkIdTokenPayload {
  iss : option string;
  sub : option string;
  aud : list string;
  exp : option Z;
  iat : option Z;
  tid : option string;
  claim_email : option string;
  preferred_username : option string;
  claim_name : option string;
  oid : option string
}.

Record JwtHeader := mkJwtHeader {
  alg : string;
  kid : option string
}.

(** The options object handed to [jwt.verify]. *)
Record VerifyOptions := mkVerifyOptions {
  algorithms : list string;
  audience : string;
  issuer : list string;
  clockTolerance : Z
}.

(** jsonwebtoken and jwks-rsa.  [jwt_decode] is
    [jwt.decode(token, { complete: true })] ([None]: not a token);
    [jwt_verify token key options now] is [jwt.verify] ([None]: it
    raises); [jwks_signing_key uri kid] is the public key that the key set
    published at [uri] holds under [kid] ([None]: the lookup fails). *)
Class JwtLib := {
  jwt_decode : string -> option (JwtHeader * IdTokenPayload);
  jwt_verify : string -> string -> VerifyOptions -> Z -> option IdTokenPayload;
  jwks_signing_key : string -> string -> option string
}.

Record MicrosoftAuthConfig := mkConfig {
  clientId : string;
  clientSecret : string;
  tenantId : string;
  redirectUri : string
}.

Record MicrosoftTokenResponse := mkTokenResponse {
  access_token : string;
  token_type : string;
  expires_in : Z;
  scope : string;
  id_token : option string
}.

(** The three HTTP endpoints of the identity provider, by what a call
    yields ([None]: a non-2xx answer or a network error).
    [graph_organization] yields [data.value?.[0]?.id]. *)
Class IdentityProvider := {
  token_endpoint : MicrosoftAuthConfig -> string -> option MicrosoftTokenResponse;
  graph_me : string -> option Profile.t;
  graph_organization : string -> option string
}.

(** [process.env] *)
Record Env := mkEnv {
  MICROSOFT_CLIENT_ID : option string;
  MICROSOFT_CLIENT_SECRET : option string;
  MICROSOFT_TENANT_ID : option string;
  APP_URL : option string;
  REPL_SLUG : option string;
  REPL_OWNER : option string
}.

Module MicrosoftAuth.

Definition MICROSOFT_AUTHORITY_BASE : string := "https://login.microsoftonline.com".
Definition STATE_EXPIRY_MS : Z := 10 * 60 * 1000.

Section WithEnvironment.
Context `{JwtLib} `{IdentityProvider}.
Variable env : Env.

Definition getConfig : option MicrosoftAuthConfig :=
  let tenantId := JS.or_default (MICROSOFT_TENANT_ID env) "common" in
  let appUrl :=
    JS.or_default (APP_URL env)
      ("https://" ++ JS.interpolate (REPL_SLUG env) ++ "."
         ++ JS.interpolate (JS.toLowerCase <$> REPL_OWNER env) ++ ".repl.co") in
  let redirectUri := appUrl ++ "/api/auth/microsoft/callback" in
  if negb (JS.truthy_opt (MICROSOFT_CLIENT_ID env))
     || negb (JS.truthy_opt (MICROSOFT_CLIENT_SECRET env))
  then None
  else Some (mkConfig (default "" (MICROSOFT_CLIENT_ID env))
                      (default "" (MICROSOFT_CLIENT_SECRET env))
                      tenantId redirectUri).

(** [getJwksClient]: the client of a tenant is determined by the address of
    the tenant's key set (the table [jwksClients] only keeps the client
    from being built twice). *)
Definition jwksUri (tenantId : string) : string :=
  MICROSOFT_AUTHORITY_BASE ++ "/" ++ tenantId ++ "/discovery/v2.0/keys".

(** [getSigningKey]; [None] is the rejected promise. *)
Definition getSigningKey (tenantId kid : string) : M (option string) :=
  record_call (CallJwks tenantId kid) ;;;
  match jwks_signing_key (jwksUri tenantId) kid with
  | Some signingKey => if JS.truthy signingKey then ret (Some signingKey) else ret None
  | None => ret None
  end.

Definition verify_options (config : MicrosoftAuthConfig) (tid : string) : VerifyOptions :=
  mkVerifyOptions
    ["RS256"]
    (clientId config)
    ["https://login.microsoftonline.com/" ++ tid ++ "/v2.0";
     "https://sts.windows.net/" ++ tid ++ "/"]
    300.

Definition verifyIdToken (idToken : string) (now : Z) : M (option IdTokenPayload) :=
  match getConfig with
  | None => ret None
  | Some config =>
      match jwt_decode idToken with
      | None => ret None
      | Some (header, payload) =>
          if negb (JS.truthy_opt (kid header)) then ret None
          else
            let kid := default "" (kid header) in
            let tid := JS.or_default (tid payload) (tenantId config) in
            let tenantForJwks := if String.eqb tid "common" then tenantId config else tid in
            key <- getSigningKey tenantForJwks kid ;;
            match key with
            | None => ret None
            | Some signingKey =>
                record_call (CallJwtVerify idToken) ;;;
                ret (jwt_verify idToken signingKey (verify_options config tid) now)
            end
      end
  end.

Definition isConfigured : bool := JS.defined getConfig.

Definition expired (now : Z) (p : Pending.t) : bool :=
  now - Pending.createdAt p >? STATE_EXPIRY_MS.

Definition cleanupExpiredStates (now : Z) : M unit :=
  modify (fun w =>
    with_pending (filter (fun kv => expired now (snd kv) = false) (pendingStates w)) w).

(** [generateState]; [state] is the value drawn by [crypto.randomBytes]. *)
Definition generateState (state : string) (now : Z) : M string :=
  modify (fun w => with_pending (<[state := Pending.mk now None]> (pendingStates w)) w) ;;;
  cleanupExpiredStates now ;;;
  ret state.

Definition validateState (state : string) (now : Z) : M bool :=
  pendingState <- gets (fun w => pendingStates w !! state) ;;
  match pendingState with
  | None => ret false
  | Some pendingState =>
      if expired now pendingState then
        modify (fun w => with_pending (delete state (pendingStates w)) w) ;;;
        ret false
      else
        modify (fun w => with_pending (delete state (pendingStates w)) w) ;;;
        ret true
  end.

Definition exchangeCodeForToken (code : string) : M (option MicrosoftTokenResponse) :=
  match getConfig with
  | None => ret None
  | Some config =>
      record_call (CallTokenEndpoint code) ;;;
      ret (token_endpoint config code)
  end.

Definition getUserProfile (accessToken : string) : M (option Profile.t) :=
  record_call (CallGraphMe accessToken) ;;;
  ret (graph_me accessToken).

Definition getOrganizationTenantId (accessToken : string) : M (option string) :=
  record_call (CallGraphOrganization accessToken) ;;;
  ret (JS.or_else (graph_organization accessToken) None).

(** [verifiedClaims?.tid || await getOrganizationTenantId(..)
     || getConfig()?.tenantId || "unknown"] *)
Definition resolveTenantId (verifiedClaims : option IdTokenPayload) (accessToken : string)
    : M string :=
  if JS.truthy_opt (verifiedClaims ≫= tid) then ret (default "" (verifiedClaims ≫= tid))
  else
    org <- getOrganizationTenantId accessToken ;;
    if JS.truthy_opt org then ret (default "" org)
    else ret (JS.or_default (tenantId <$> getConfig) "unknown").

(** The cross-check of the token's e-mail claim against the mailbox of the
    profile: [true] when [handleCallback] rejects. *)
Definition email_mismatch (verifiedClaims : option IdTokenPayload) (profile : Profile.t)
    : bool :=
  match verifiedClaims with
  | Some claims =>
      if JS.truthy_opt (Profile.mail profile) then
        let idTokenEmail := JS.or_else (claim_email claims) (preferred_username claims) in
        JS.truthy_opt idTokenEmail
        && negb (String.eqb (JS.toLowerCase (default "" idTokenEmail))
                            (JS.toLowerCase (default "" (Profile.mail profile))))
      else false
  | None => false
  end.

Definition handleCallback (code state : string) (ipAddress userAgent : option string)
    (uuid : string) (now : Z) : M LoginResult :=
  valid <- validateState state now ;;
  if negb valid then
    ret (failure "Invalid or expired state parameter (possible CSRF attack)")
  else
    tokenResponse <- exchangeCodeForToken code ;;
    match tokenResponse with
    | None => ret (failure "Failed to authenticate with Microsoft")
    | Some tokenResponse =>
        verifiedClaims <-
          (if JS.truthy_opt (id_token tokenResponse)
           then verifyIdToken (default "" (id_token tokenResponse)) now
           else ret None) ;;
        if JS.truthy_opt (id_token tokenResponse) && negb (JS.defined verifiedClaims) then
          ret (failure "Invalid authentication token from Microsoft")
        else
          profile <- getUserProfile (access_token tokenResponse) ;;
          match profile with
          | None => ret (failure "Failed to fetch Microsoft profile")
          | Some profile =>
              tenantId <- resolveTenantId verifiedClaims (access_token tokenResponse) ;;
              if email_mismatch verifiedClaims profile then
                ret (failure "Authentication data mismatch")
              else
                AuthService.handleMicrosoftSsoCallback profile tenantId ipAddress userAgent
                                                       uuid now
          end
    end.


(** [new URLSearchParams({..}).toString()], the serializer of the
    platform. *)
Variable urlSearchParams : list (string * string) -> string.

(** [getAuthorizationUrl]; [state] is the value that [generateState]
    draws. *)
Definition getAuthorizationUrl (state : string) (now : Z) : M (option string) :=
  match getConfig with
  | None => ret None
  | Some config =>
      state <- generateState state now ;;
      let params := urlSearchParams
                      [("client_id", clientId config);
                       ("response_type", "code");
                       ("redirect_uri", redirectUri config);
                       ("response_mode", "query");
                       ("scope", "openid profile email User.Read");
                       ("state", state);
                       ("prompt", "select_account")] in
      ret (Some (MICROSOFT_AUTHORITY_BASE ++ "/" ++ tenantId config
                   ++ "/oauth2/v2.0/authorize?" ++ params))
  end.

End WithEnvironment.
End MicrosoftAuth.

(** ** The federation callback route of [server/auth/routes.ts] *)

Module Routes.

Section WithEnvironment.
Context `{JwtLib} `{IdentityProvider}.
Variable env : Env.

(** [encodeURIComponent] of the platform. *)
Variable encodeURIComponent : string -> string.

Inductive Reply :=
| Redirect (url : string).

(** [req.login(authUser, ..)]: the session now belongs to [authUser]. *)
Definition req_login (authUser : Session.AuthUser) (req : Session.Request)
    : Session.Request :=
  Session.mkRequest (Some authUser).

(** [GET /api/auth/microsoft/callback]; the four query parameters, the
    address and agent of the client, the ids of the rows that may be
    created, the clock. *)
Definition microsoftCallback (q_code q_state q_error q_error_description : option string)
    (ipAddress userAgent : option string) (uuid crmUuid : string) (now : Z)
    (req : Session.Request) : M (Reply * Session.Request) :=
  if JS.truthy_opt q_error then
    ret (Redirect ("/login?error="
                     ++ encodeURIComponent (JS.or_default q_error_description "SSO failed")),
         req)
  else if negb (JS.truthy_opt q_code) || negb (JS.truthy_opt q_state) then
    ret (Redirect "/login?error=Invalid%20callback%20parameters", req)
  else
    result <- MicrosoftAuth.handleCallback env (default "" q_code) (default "" q_state)
                ipAddress userAgent uuid now ;;
    match user result with
    | Some account =>
        if negb (success result) then
          ret (Redirect ("/login?error="
                           ++ encodeURIComponent (JS.or_default (error result) "SSO failed")),
               req)
        else
          ensured <- Session.ensureCrmUser account crmUuid ;;
          match ensured with
          | None => ret (Redirect "/login?error=SSO%20failed", req)
          | Some _ =>
              ret (Redirect "/", req_login (Session.authUser_of account) req)
          end
    | None =>
        ret (Redirect ("/login?error="
                         ++ encodeURIComponent (JS.or_default (error result) "SSO failed")),
             req)
    end.

End WithEnvironment.
End Routes.

(** ** Histories of the account store

    The operations of the service as requests make them, one after the
    other. *)

Inductive ServiceOp :=
| SvcRegister (email password : string) (firstName lastName : option string)
              (salt uuid : string) (now : Z)
| SvcLogin (email password : string) (ipAddress userAgent : option string) (now : Z)
| SvcForgot (email token uuid : string) (now : Z)
| SvcReset (token newPassword salt : string) (now : Z)
| SvcSso (profile : Profile.t) (tenantId : string) (ipAddress userAgent : option string)
         (uuid : string) (now : Z)
| SvcLink (userId microsoftUserId tenantId : string) (now : Z)
| SvcUnlink (userId : string) (now : Z)
| SvcDisable (userId : string) (now : Z)
| SvcEnable (userId : string) (now : Z)
| SvcEnsureCrm (account : User.t) (uuid : string)
| SvcCallback (code state : string) (ipAddress userAgent : option string)
              (uuid : string) (now : Z).

Definition is_reset (op : ServiceOp) : bool :=
  match op with
  | SvcReset _ _ _ _ => true
  | _ => false
  end.

Section Histories.
Context `{Bcrypt} `{JwtLib} `{IdentityProvider}.
Variable env : Env.

Definition run_service_op (op : ServiceOp) : M unit :=
  match op with
  | SvcRegister email password firstName lastName salt uuid now =>
      AuthService.registerLocalUser email password firstName lastName salt uuid now ;;;
      ret tt
  | SvcLogin email password ipAddress userAgent now =>
      AuthService.loginLocalUser email password ipAddress userAgent now ;;; ret tt
  | SvcForgot email token uuid now =>
      AuthService.createPasswordResetToken email token uuid now ;;; ret tt
  | SvcReset token newPassword salt now =>
      AuthService.resetPassword token newPassword salt now ;;; ret tt
  | SvcSso profile tenantId ipAddress userAgent uuid now =>
      AuthService.handleMicrosoftSsoCallback profile tenantId ipAddress userAgent uuid now ;;;
      ret tt
  | SvcLink userId microsoftUserId tenantId now =>
      AuthService.linkMicrosoftAccount userId microsoftUserId tenantId now ;;; ret tt
  | SvcUnlink userId now => AuthService.unlinkMicrosoftAccount userId now ;;; ret tt
  | SvcDisable userId now => AuthService.disableUser userId now ;;; ret tt
  | SvcEnable userId now => AuthService.enableUser userId now ;;; ret tt
  | SvcEnsureCrm account uuid => Session.ensureCrmUser account uuid ;;; ret tt
  | SvcCallback code state ipAddress userAgent uuid now =>
      MicrosoftAuth.handleCallback env code state ipAddress userAgent uuid now ;;; ret tt
  end.

Fixpoint run_service (ops : list ServiceOp) : M unit :=
  match ops with
  | [] => ret tt
  | op :: rest => run_service_op op ;;; run_service rest
  end.

End Histories.

(** The [users] table after [update(users).set(g).where(eq(users.id, userId))]. *)
Definition rewrite_account (userId : string) (g : User.t -> User.t) (l : list User.t)
    : list User.t :=
  map (fun x => if by_id userId x then g x else x) l.

(** The condition [eq(crmUsers.authUserId, userId)]. *)
Definition by_auth_id (userId : string) (c : CrmUser.t) : bool :=
  String.eqb (CrmUser.authUserId c) userId.

(** The e-mail addresses on file. *)
Definition emails (w : World) : list string := omap User.email (users w).

(** The identity of the accounts on file, in table order. *)
Definition account_keys (w : World) : list (string * option string) :=
  map (fun u => (User.id u, User.email u)) (users w).

(** One step of the [users] table: rows are rewritten in place by [f] and
    at most one row is appended, for an address not on file.  With
    [strict], the rewriting also keeps the password hash. *)
Definition users_step (strict : bool) (before after : list User.t) : Prop :=
  exists (f : User.t -> User.t) (extra : list User.t),
    after = (map f before ++ extra)%list
    /\ (forall u, User.id (f u) = User.id u
                  /\ User.email (f u) = User.email u
                  /\ (strict = true -> User.passwordHash (f u) = User.passwordHash u))
    /\ (extra = []
        \/ exists n e, extra = [n] /\ User.email n = Some e
                       /\ find (by_email e) before = None).


(** ** Histories of the pending-state table

    What other requests of the same process may do to [pendingStates]
    between two validations of one state value. *)

Inductive StateOp :=
| OpGenerate (state : string) (now : Z)
| OpValidate (state : string) (now : Z)
| OpCleanup (now : Z).

Definition run_op (op : StateOp) : M unit :=
  match op with
  | OpGenerate state now => MicrosoftAuth.generateState state now ;;; ret tt
  | OpValidate state now => MicrosoftAuth.validateState state now ;;; ret tt
  | OpCleanup now => MicrosoftAuth.cleanupExpiredStates now
  end.

Fixpoint run_ops (ops : list StateOp) : M unit :=
  match ops with
  | [] => ret tt
  | op :: rest => run_op op ;;; run_ops rest
  end.

Definition generates (state : string) (op : StateOp) : Prop :=
  match op with
  | OpGenerate state' _ => state' = state
  | _ => False
  end.

(** ** The relational store within the world *)

Definition tables (w : World)
    : list User.t * list ResetToken.t * list SsoSettings.t * list Audit.t * list CrmUser.t :=
  (users w, passwordResetTokens w, ssoSettings w, authAuditLog w, crmUsers w).

(** Runs of the token verifier and look-ups of signing keys. *)
Definition is_verification (c : Call) : bool :=
  match c with
  | CallJwks _ _ | CallJwtVerify _ => true
  | _ => false
  end.

(** Calls of the Graph API. *)
Definition is_graph (c : Call) : bool :=
  match c with
  | CallGraphMe _ | CallGraphOrganization _ => true
  | _ => false
  end.

(** One step of the account store: the [users] table makes a
    [users_step] and the audit log only grows at its end. *)
Definition store_step (strict : bool) (w w' : World) : Prop :=
  users_step strict (users w) (users w')
  /\ exists l, authAuditLog w' = (authAuditLog w ++ l)%list.

(** ** Credentials on file

    What the schema and the service keep true of the rows that hold
    credentials: [users.id] is the primary key; a row carries a password
    hash only if its origin is [local] (a hash is written by
    [registerLocalUser], which creates a [local] row, and by
    [resetPassword], for the account of a reset token); and the account
    that a row of [password_reset_tokens] references exists and is of
    origin [local] ([createPasswordResetToken] issues a token to no
    other). *)

Definition is_local (u : User.t) : bool := AuthProvider_eqb (User.authProvider u) local.

Fixpoint unique_ids (l : list User.t) : bool :=
  match l with
  | [] => true
  | u :: rest => negb (existsb (by_id (User.id u)) rest) && unique_ids rest
  end.

Definition credentials_consistent (w : World) : bool :=
  unique_ids (users w)
  && forallb (fun u => is_local u || negb (JS.defined (User.passwordHash u))) (users w)
  && forallb (fun t => existsb (fun u => by_id (ResetToken.userId t) u && is_local u)
                               (users w))
             (passwordResetTokens w).

(** The same, as a proposition about the two tables. *)
Definition consistent_rows (us : list User.t) (ts : list ResetToken.t) : Prop :=
  NoDup (map User.id us)
  /\ (forall u, In u us -> User.authProvider u <> local -> User.passwordHash u = None)
  /\ (forall t, In t ts ->
       exists u, In u us /\ User.id u = ResetToken.userId t /\ User.authProvider u = local).

(** The id drawn for a row that the operation may insert into [users]
    ([gen_random_uuid()]) is not the id of a row on file. *)
Definition inserts_fresh_id (op : ServiceOp) (w : World) : bool :=
  match op with
  | SvcRegister _ _ _ _ _ uuid _
  | SvcSso _ _ _ _ uuid _
  | SvcCallback _ _ _ _ uuid _ => negb (existsb (by_id uuid) (users w))
  | _ => true
  end.

Section FreshIds.
Context `{Bcrypt} `{JwtLib} `{IdentityProvider}.
Variable env : Env.

(** [inserts_fresh_id] at every step of a history. *)
Fixpoint fresh_ids (ops : list ServiceOp) (w : World) : bool :=
  match ops with
  | [] => true
  | op :: rest => inserts_fresh_id op w && fresh_ids rest (snd (run_service_op env op w))
  end.

End FreshIds.

(** ** Schedules of two password resets *)

(** What the update of [resetPassword] does to a row of
    [password_reset_tokens]. *)
Definition mark_used (id : string) (now : Z) (t : ResetToken.t) : ResetToken.t :=
  if String.eqb (ResetToken.id t) id then AuthService.set_usedAt now t else t.

(** The schedule in which both handlers have read the token before either
    writes: turns [a0], [b0] are the two reads, [a1..a4] carry the first
    handler to its end, [b1..b4] the second. *)
Definition both_read_first (a0 b0 a1 a2 a3 a4 b1 b2 b3 b4 : Z) : list (bool * Z) :=
  [(true, a0); (false, b0); (true, a1); (true, a2); (true, a3); (true, a4);
   (false, b1); (false, b2); (false, b3); (false, b4)].

(** ** What the server relies on from jsonwebtoken

    [jwt.verify(token, key, options)] returns the payload of [token] only
    if the algorithm of the header is one of [options.algorithms], the
    signature is valid for that algorithm under [key], [options.audience]
    (if it is not the empty string, which switches the check off) is the
    [aud] claim or one of its elements, the [iss] claim is one of
    [options.issuer], and the [exp] claim, if the token has one, lies
    ahead of the clock, [options.clockTolerance] seconds being allowed for
    (a token without [exp] is not rejected for it; the clock of the
    library is [Math.floor(Date.now() / 1000)]).  The library compares
    [iat] with nothing unless [options.maxAge] is set. *)
Class JwtLibSpec `{JwtLib} := {
  signature_valid : string -> string -> string -> Prop;
  jwt_verify_sound : forall token key options now payload,
    jwt_verify token key options now = Some payload ->
    exists header,
      jwt_decode token = Some (header, payload)
      /\ In (alg header) (algorithms options)
      /\ signature_valid (alg header) key token
      /\ (JS.truthy (audience options) = true -> In (audience options) (aud payload))
      /\ (exists issuedBy, iss payload = Some issuedBy /\ In issuedBy (issuer options))
      /\ (forall expiry, exp payload = Some expiry ->
          now / 1000 < expiry + clockTolerance options)
}.

(** A library of that kind over a table of issued tokens: the table gives,
    for the text of a token, its header, its payload and the public key
    that matches the key it was signed with. *)
Module JsonWebToken.

Record Issued := mkIssued {
  issued_header : JwtHeader;
  issued_payload : IdTokenPayload;
  issued_key : string
}.

Definition lookup {A} (table : list (string * A)) (key : string) : option A :=
  snd <$> find (fun e => String.eqb (fst e) key) table.

Definition decode (tokens : list (string * Issued)) (token : string)
    : option (JwtHeader * IdTokenPayload) :=
  (fun i => (issued_header i, issued_payload i)) <$> lookup tokens token.

Definition verify (tokens : list (string * Issued)) (token key : string)
    (options : VerifyOptions) (now : Z) : option IdTokenPayload :=
  match lookup tokens token with
  | None => None
  | Some i =>
      let payload := issued_payload i in
      if negb (existsb (String.eqb (alg (issued_header i))) (algorithms options)) then None
      else if negb (String.eqb (issued_key i) key) then None
      else if match exp payload with
              | Some expiry => now / 1000 >=? expiry + clockTolerance options
              | None => false
              end then None
      else if JS.truthy (audience options)
              && negb (existsb (String.eqb (audience options)) (aud payload)) then None
      else if negb match iss payload with
                   | Some issuedBy => existsb (String.eqb issuedBy) (issuer options)
                   | None => false
                   end then None
      else Some payload
  end.

Definition library (tokens : list (string * Issued))
    (keys : list (string * list (string * string))) : JwtLib := {|
  jwt_decode := decode tokens;
  jwt_verify := verify tokens;
  jwks_signing_key uri kid := lookup keys uri ≫= fun set => lookup set kid
|}.

End JsonWebToken.

(** ** Sample data

    Concrete libraries, tables and requests on which the statements below
    are exercised. *)

Module Fixture.

(** A stand-in for bcrypt: the "hash" is the salt, a colon and the
    password. *)
Definition demo_bcrypt : Bcrypt := {|
  bcrypt_hash salt password _ := salt ++ ":" ++ password;
  bcrypt_compare password hash :=
    match JS.split ":"%char hash with
    | [_; p] => String.eqb p password
    | _ => false
    end
|}.

Definition account (id email : string) (provider : AuthProvider)
    (hash : option string) (disabled : bool) : User.t :=
  User.mk id (Some email) None None None provider hash None None disabled false
          (Some 0) (Some 0) None.

Definition ann : User.t := account "u-ann" "ann@acme.com" local (Some "s0:correct horse") false.
Definition dan : User.t := account "u-dan" "dan@acme.com" local (Some "s0:battery staple") true.
Definition sam : User.t := account "u-sam" "sam@acme.com" microsoft None false.
Definition rae : User.t := account "u-rae" "rae@acme.com" replit (Some "s0:old password") false.

Definition empty_world : World := mkWorld [] [] [] [] [] ∅ [].

Definition staff : World := with_users [ann; dan; sam; rae] empty_world.

(** One reset token of [ann], valid until 90000. *)
Definition fresh_token : ResetToken.t :=
  ResetToken.mk "t-1" "u-ann" "feedc0de" 90000 None (Some 3600).

(** A token of [ann] that was redeemed at 5000 and ran out at 90000. *)
Definition spent_token : ResetToken.t :=
  ResetToken.mk "t-0" "u-ann" "deadbeef" 90000 (Some 5000) (Some 3600).

Definition staff_with_tokens : World := with_tokens [spent_token; fresh_token] staff.

Definition racing : list (bool * Z) :=
  both_read_first 10000 10001 10300 10310 10320 10330 10400 10410 10420 10430.

(** The pending-state table with one value issued at 1000. *)
Definition one_pending : World :=
  with_pending {["5f3a" := Pending.mk 1000 None]} empty_world.

Definition other_traffic : list StateOp :=
  [OpGenerate "77aa" 3000; OpValidate "0000" 3500; OpCleanup 700000].

(** The policy of the end-to-end scenario: one allowed e-mail domain,
    auto-provisioning on, no tenant restriction, managers by default. *)
Definition acme_policy : SsoSettings.t :=
  SsoSettings.mk "s-1" None None None (Some ["acme.com"]) (Some "manager") true false.

Definition governed : World := mkWorld [ann; dan; sam; rae] [] [acme_policy] [] [] ∅ [].

Definition graph_profile (id mail given : string) : Profile.t :=
  Profile.mk id None (Some mail) (Some given) None None None.

Definition bob : Profile.t := graph_profile "g-bob" "bob@other.com" "Bob".
Definition alice : Profile.t := graph_profile "g-alice" "alice@acme.com" "Alice".
Definition rae_at_microsoft : Profile.t := graph_profile "g-rae" "Rae@acme.com" "Rae".

(** The disabled account [dan] holding the [admin] role. *)
Definition disabled_admin : World :=
  with_crm [CrmUser.mk "c-dan" "u-dan" admin None None (Some "dan@acme.com")] staff.

(** The identity provider of the samples: tenant "contoso", one signing
    key, four ID tokens.  "jwt-alice" carries the tenant; "jwt-plain" has
    no [tid] claim; "jwt-early" has an [iat] far ahead of the clock;
    "jwt-open" has no [exp] and no [iat] claim, and an [aud] claim of two
    elements. *)
Definition demo_env : Env :=
  mkEnv (Some "client-1") (Some "secret") (Some "contoso") (Some "https://crm.acme.com")
        None None.

Definition claims_alice : IdTokenPayload :=
  mkIdTokenPayload (Some "https://login.microsoftonline.com/contoso/v2.0") (Some "sub-alice")
                   ["client-1"] (Some 3600) (Some 0)
                   (Some "contoso") (Some "alice@acme.com") None None None.

Definition claims_plain : IdTokenPayload :=
  mkIdTokenPayload (Some "https://login.microsoftonline.com/contoso/v2.0") (Some "sub-plain")
                   ["client-1"] (Some 3600) (Some 0)
                   None None (Some "plain@acme.com") None None.

Definition claims_early : IdTokenPayload :=
  mkIdTokenPayload (Some "https://sts.windows.net/contoso/") (Some "sub-early")
                   ["client-1"] (Some 103600) (Some 100000)
                   (Some "contoso") (Some "early@acme.com") None None None.

Definition claims_open : IdTokenPayload :=
  mkIdTokenPayload (Some "https://sts.windows.net/contoso/") (Some "sub-open")
                   ["api://reports"; "client-1"] None None
                   (Some "contoso") (Some "open@acme.com") None None None.

Definition demo_tokens : list (string * JsonWebToken.Issued) :=
  [("jwt-alice", JsonWebToken.mkIssued (mkJwtHeader "RS256" (Some "k1")) claims_alice "PEM-1");
   ("jwt-plain", JsonWebToken.mkIssued (mkJwtHeader "RS256" (Some "k1")) claims_plain "PEM-1");
   ("jwt-early", JsonWebToken.mkIssued (mkJwtHeader "RS256" (Some "k1")) claims_early "PEM-1");
   ("jwt-open", JsonWebToken.mkIssued (mkJwtHeader "RS256" (Some "k1")) claims_open "PEM-1")].

Definition demo_jwt : JwtLib :=
  JsonWebToken.library demo_tokens
    [("https://login.microsoftonline.com/contoso/discovery/v2.0/keys", [("k1", "PEM-1")])].

(** Three authorization codes.  "code-a" and "code-b" come with
    [jwt_alice]; the profile behind "code-a" has no mailbox, only a
    principal name, and it is Mallory's; the profile behind "code-b" has
    Mallory's mailbox.  "code-c" comes without an ID token. *)
Definition demo_idp : IdentityProvider := {|
  token_endpoint _ code :=
    if String.eqb code "code-a" then
      Some (mkTokenResponse "at-a" "Bearer" 3600 "openid" (Some "jwt-alice"))
    else if String.eqb code "code-b" then
      Some (mkTokenResponse "at-b" "Bearer" 3600 "openid" (Some "jwt-alice"))
    else if String.eqb code "code-c" then
      Some (mkTokenResponse "at-c" "Bearer" 3600 "openid" None)
    else None;
  graph_me accessToken :=
    if String.eqb accessToken "at-a" then
      Some (Profile.mk "g-mallory" None None (Some "Mallory") None
                       (Some "mallory@acme.com") None)
    else if String.eqb accessToken "at-b" then
      Some (graph_profile "g-mallory" "mallory@acme.com" "Mallory")
    else if String.eqb accessToken "at-c" then Some alice
    else None;
  graph_organization accessToken :=
    if String.eqb accessToken "at-c" then Some "contoso" else None
|}.

(** The sample staff, with one login under way (state "5f3a", issued at
    1000). *)
Definition awaiting_callback : World :=
  with_pending {["5f3a" := Pending.mk 1000 None]} staff.

End Fixture.

(** More sample data: an identity provider that answers the code
    "code-f" with an ID token nobody issued, an environment without
    federation settings, and a policy whose default role is no role of the
    CRM. *)
Module Fixture2.

Definition forging_idp : IdentityProvider := {|
  token_endpoint _ code :=
    if String.eqb code "code-f" then
      Some (mkTokenResponse "at-f" "Bearer" 3600 "openid" (Some "jwt-forged"))
    else None;
  graph_me _ := Some Fixture.alice;
  graph_organization _ := Some "contoso"
|}.

Definition bare_env : Env := mkEnv None None None None None None.

Definition owner_policy : SsoSettings.t :=
  SsoSettings.mk "s-2" None None (Some ["contoso"]) (Some ["acme.com"]) (Some "owner")
                 true false.

Definition misgoverned : World :=
  mkWorld [Fixture.ann; Fixture.dan; Fixture.sam; Fixture.rae] [] [owner_policy] [] []
          {["5f3a" := Pending.mk 1000 None]} [].

Definition awaiting_governed : World :=
  with_pending {["5f3a" := Pending.mk 1000 None]} Fixture.governed.

(** A stand-in for [encodeURIComponent] that leaves its argument as it
    is. *)
Definition verbatim (s : string) : string := s.

(** An account of origin [replit], which has no password, on an otherwise
    empty store, and the first week of the service on it: [ann] registers,
    asks for a reset token and redeems it, and a federated login creates
    the account of [sam]. *)
Definition rob : User.t := Fixture.account "u-rob" "rob@acme.com" replit None false.

Definition imported : World := with_users [rob] Fixture.empty_world.

Definition first_week : list ServiceOp :=
  [SvcRegister "Ann@acme.com" "correct horse" None None "s0" "u-ann" 1000;
   SvcForgot "ann@acme.com" "feedc0de" "t-1" 2000;
   SvcReset "feedc0de" "battery staple" "s1" 3000;
   SvcSso (Fixture.graph_profile "g-sam" "sam@acme.com" "Sam") "tenant-1" None None
          "u-sam" 4000].

(** A day of requests against the sample staff. *)
Definition busy_day : list ServiceOp :=
  [SvcRegister "Zoe@acme.com" "open sesame" None None "s9" "u-zoe" 100;
   SvcLogin "zoe@acme.com" "open sesame" None None 200;
   SvcRegister "ZOE@acme.com" "another password" None None "s8" "u-zoe2" 250;
   SvcDisable "u-ann" 300;
   SvcSso Fixture.alice "tenant-1" None None "u-alice" 400;
   SvcSso Fixture.rae_at_microsoft "tenant-1" None None "u-rae2" 450;
   SvcCallback "code-c" "5f3a" None None "u-alice2" 2000;
   SvcLink "u-sam" "g-sam" "contoso" 2500;
   SvcEnsureCrm Fixture.sam "c-sam"].

End Fixture2.

(* ================================================================= *)
(** * Properties *)

(** ** The pending-state table *)

Section PendingStates.
Implicit Types (w : World) (state : string) (now : Z).

Lemma validateState_pending state now w :
  pendingStates (snd (MicrosoftAuth.validateState state now w))
  = delete state (pendingStates w).
Proof.
  unfold MicrosoftAuth.validateState, bind, gets; simpl.
  destruct (pendingStates w !! state) as [p|] eqn:E; simpl.
  - destruct (MicrosoftAuth.expired now p); reflexivity.
  - symmetry. by apply delete_id.
Qed.

Lemma validateState_absent state now w :
  pendingStates w !! state = None ->
  fst (MicrosoftAuth.validateState state now w) = false.
Proof.
  intros E. unfold MicrosoftAuth.validateState, bind, gets; simpl.
  by rewrite E.
Qed.

Lemma validateState_true state now w :
  fst (MicrosoftAuth.validateState state now w) = true <->
  exists p, pendingStates w !! state = Some p
            /\ now - Pending.createdAt p <= 600000.
Proof.
  unfold MicrosoftAuth.validateState, bind, gets; simpl.
  destruct (pendingStates w !! state) as [p|] eqn:E; simpl.
  - unfold MicrosoftAuth.expired, MicrosoftAuth.STATE_EXPIRY_MS.
    destruct (Z.gtb_spec (now - Pending.createdAt p) (10 * 60 * 1000)); simpl.
    + split; [discriminate|]. intros (q & [= <-] & Hq). lia.
    + split; [|done]. intros _. exists p. split; [done|lia].
  - split; [discriminate|]. intros (q & Hq & _). discriminate.
Qed.

Lemma cleanup_keeps_absent state now w :
  pendingStates w !! state = None ->
  pendingStates (snd (MicrosoftAuth.cleanupExpiredStates now w)) !! state = None.
Proof.
  intros E. unfold MicrosoftAuth.cleanupExpiredStates, modify; simpl.
  apply map_lookup_filter_None. left. exact E.
Qed.

Lemma run_op_keeps_absent state op w :
  ~ generates state op ->
  pendingStates w !! state = None ->
  pendingStates (snd (run_op op w)) !! state = None.
Proof.
  intros Hg E. destruct op as [s n|s n|n]; simpl in *.
  - unfold bind; simpl. apply map_lookup_filter_None. left.
    rewrite lookup_insert_ne; [exact E|exact Hg].
  - unfold bind, ret; simpl. rewrite validateState_pending.
    destruct (decide (s = state)) as [->|Hne].
    + apply lookup_delete_eq.
    + rewrite lookup_delete_ne; [exact E|exact Hne].
  - by apply cleanup_keeps_absent.
Qed.

Lemma run_ops_keeps_absent state ops : forall w,
  Forall (fun op => ~ generates state op) ops ->
  pendingStates w !! state = None ->
  pendingStates (snd (run_ops ops w)) !! state = None.
Proof.
  induction ops as [|op rest IH]; intros w Hall E; simpl.
  - exact E.
  - inversion Hall as [|? ? Hop Hrest]; subst.
    unfold bind. apply IH; [exact Hrest|].
    by apply run_op_keeps_absent.
Qed.

(** C6.  [validateState] removes the entry of the value it is asked about
    whenever it finds one, whether the entry is still fresh or has expired;
    it answers [true] exactly when an entry exists that is at most ten
    minutes old; and a second validation of the same value answers
    [false], whatever other requests did in between short of generating
    that very value again.  So the same value validates at most once. *)
Theorem validateState_single_use state now1 now2 (ops : list StateOp) w :
  Forall (fun op => ~ generates state op) ops ->
  let r1 := MicrosoftAuth.validateState state now1 w in
  let r2 := MicrosoftAuth.validateState state now2 (snd (run_ops ops (snd r1))) in
  pendingStates (snd r1) = delete state (pendingStates w)
  /\ (fst r1 = true <->
      exists p, pendingStates w !! state = Some p
                /\ now1 - Pending.createdAt p <= 10 * 60 * 1000)
  /\ fst r2 = false
  /\ (fst r1 && fst r2 = false).
Proof.
  intros Hops r1 r2.
  assert (H2 : fst r2 = false).
  { apply validateState_absent, run_ops_keeps_absent; [exact Hops|].
    subst r1. rewrite validateState_pending. apply lookup_delete_eq. }
  split; [apply validateState_pending|].
  split; [apply validateState_true|].
  split; [exact H2|]. rewrite H2. apply andb_false_r.
Qed.

End PendingStates.

Lemma validateState_single_use_witness :
  Forall (fun op => ~ generates "5f3a" op) Fixture.other_traffic
  /\ fst (MicrosoftAuth.validateState "5f3a" 2000 Fixture.one_pending) = true
  /\ fst (MicrosoftAuth.validateState "5f3a" 5000
            (snd (run_ops Fixture.other_traffic
                    (snd (MicrosoftAuth.validateState "5f3a" 2000 Fixture.one_pending)))))
     = false.
Proof.
  assert (Hops : Forall (fun op => ~ generates "5f3a" op) Fixture.other_traffic).
  { repeat constructor; simpl; intros E; discriminate E || exact E. }
  split; [exact Hops|].
  destruct (validateState_single_use "5f3a" 2000 5000 Fixture.other_traffic
              Fixture.one_pending Hops) as (_ & _ & H2 & _).
  split; [vm_compute; reflexivity | exact H2].
Defined.

(** ** Local credentials *)

(** Unfolds the monadic plumbing of a handler applied to a world. *)
Ltac run_handler :=
  unfold bind, gets, modify, ret, select_user_by_email, select_user_by_id,
    select_token, select_crm_by_auth_id, update_users_by_id, update_tokens_by_id,
    insert_user, record_call, AuthService.logAuditEvent, AuthService.getSsoSettings;
  simpl.

(** The same, without touching anything but the plumbing. *)
Ltac step_handler :=
  cbv beta iota delta
    [bind gets modify ret fst snd negb select_user_by_email select_user_by_id
     select_token select_crm_by_auth_id update_users_by_id update_tokens_by_id
     insert_user record_call AuthService.logAuditEvent AuthService.getSsoSettings];
  cbn [users passwordResetTokens ssoSettings authAuditLog crmUsers pendingStates calls
       with_users with_tokens with_audit with_crm with_pending with_calls].

Section LocalLogin.
Context `{Bcrypt}.
Implicit Types (w : World) (u : User.t).

(** C7.  Each of the four ways a local login fails appends one
    [failed_login] event carrying its own reason ("User not found",
    "Account disabled", "No password set (SSO account)", "Invalid
    password"; pairwise different) and leaves the accounts as they were.
    The caller sees the same message, "Invalid email or password", for an
    unknown address and for a wrong password, and a message of its own for
    a disabled account and for an account without a password. *)
Theorem loginLocalUser_failure_paths (email password : string)
    (ipAddress userAgent : option string) (now : Z) w :
  let r := AuthService.loginLocalUser email password ipAddress userAgent now w in
  let found := find (fun u => opt_eqb (User.email u) (JS.toLowerCase email)) (users w) in
  let logged reason userId :=
    authAuditLog (snd r)
    = (authAuditLog w ++ [Audit.mk userId (Some email) "failed_login" (Some local) false
                                   (Some reason) ipAddress userAgent None])%list
    /\ users (snd r) = users w in
  (found = None ->
     fst r = failure "Invalid email or password"
     /\ logged "User not found" None)
  /\ (forall u, found = Some u -> User.isDisabled u = true ->
     fst r = failure "Account is disabled. Contact your administrator."
     /\ logged "Account disabled" (Some (User.id u)))
  /\ (forall u, found = Some u -> User.isDisabled u = false ->
     JS.truthy_opt (User.passwordHash u) = false ->
     fst r = failure "This account uses Microsoft SSO. Please sign in with Microsoft."
     /\ logged "No password set (SSO account)" (Some (User.id u)))
  /\ (forall u hash, found = Some u -> User.isDisabled u = false ->
     User.passwordHash u = Some hash -> hash <> "" ->
     AuthService.verifyPassword password hash = false ->
     fst r = failure "Invalid email or password"
     /\ logged "Invalid password" (Some (User.id u)))
  /\ NoDup ["User not found"; "Account disabled"; "No password set (SSO account)";
            "Invalid password"]
  /\ NoDup ["Invalid email or password";
            "Account is disabled. Contact your administrator.";
            "This account uses Microsoft SSO. Please sign in with Microsoft."].
Proof.
  intros r found logged. subst r logged. unfold AuthService.loginLocalUser.
  run_handler. fold found.
  split; [|split; [|split; [|split; [|split]]]].
  - intros ->. simpl. auto.
  - intros u -> Hd. rewrite Hd. simpl. auto.
  - intros u -> Hd Hp. rewrite Hd, Hp. simpl. auto.
  - intros u hash -> Hd Hp Hne Hv. rewrite Hd, Hp. simpl.
    assert (Ht : JS.truthy hash = true).
    { unfold JS.truthy. apply negb_true_iff, String.eqb_neq, Hne. }
    rewrite Ht, Hv. simpl. auto.
  - compute_done.
  - compute_done.
Qed.

End LocalLogin.

Lemma loginLocalUser_failure_paths_witness :
  let login email password :=
    fst (@AuthService.loginLocalUser Fixture.demo_bcrypt email password None None 7000
           Fixture.staff) in
  login "nobody@acme.com" "correct horse" = failure "Invalid email or password"
  /\ login "dan@acme.com" "battery staple"
     = failure "Account is disabled. Contact your administrator."
  /\ login "sam@acme.com" "correct horse"
     = failure "This account uses Microsoft SSO. Please sign in with Microsoft."
  /\ login "Ann@Acme.com" "incorrect horse" = failure "Invalid email or password".
Proof.
  intros login. subst login. simpl.
  pose proof (@loginLocalUser_failure_paths Fixture.demo_bcrypt "nobody@acme.com"
                "correct horse" None None 7000 Fixture.staff) as (H1 & _).
  pose proof (@loginLocalUser_failure_paths Fixture.demo_bcrypt "dan@acme.com"
                "battery staple" None None 7000 Fixture.staff) as (_ & H2 & _).
  pose proof (@loginLocalUser_failure_paths Fixture.demo_bcrypt "sam@acme.com"
                "correct horse" None None 7000 Fixture.staff) as (_ & _ & H3 & _).
  pose proof (@loginLocalUser_failure_paths Fixture.demo_bcrypt "Ann@Acme.com"
                "incorrect horse" None None 7000 Fixture.staff) as (_ & _ & _ & H4 & _).
  split; [exact (proj1 (H1 eq_refl))|].
  split; [exact (proj1 (H2 Fixture.dan eq_refl eq_refl))|].
  split; [exact (proj1 (H3 Fixture.sam eq_refl eq_refl eq_refl))|].
  refine (proj1 (H4 Fixture.ann "s0:correct horse" eq_refl eq_refl eq_refl _ eq_refl)).
  discriminate.
Defined.

(** ** Password reset *)

Section PasswordReset.
Context `{Bcrypt}.
Implicit Types (w : World) (t : ResetToken.t).

(** C5, as the code has it.  [resetPassword] looks the token up and then
    checks, in this order: no such token ("Invalid or expired reset
    token"); token already used ("This reset token has already been used",
    also when the token has run out as well); token past its expiry ("This
    reset token has expired"); new password shorter than 8 ("Password must
    be at least 8 characters").  Each failure leaves the store untouched.
    Otherwise the hash of the new password is stored on the owner's row,
    the token is marked used and one [password_reset_complete] event is
    appended. *)
Theorem resetPassword_outcomes (token newPassword salt : string) (now : Z) w :
  let r := AuthService.resetPassword token newPassword salt now w in
  let found := find (fun t => String.eqb (ResetToken.token t) token)
                    (passwordResetTokens w) in
  (found = None -> r = (AuthService.reset_failure "Invalid or expired reset token", w))
  /\ (forall t, found = Some t -> is_Some (ResetToken.usedAt t) ->
        r = (AuthService.reset_failure "This reset token has already been used", w))
  /\ (forall t, found = Some t -> ResetToken.usedAt t = None ->
        ResetToken.expiresAt t < now ->
        r = (AuthService.reset_failure "This reset token has expired", w))
  /\ (forall t, found = Some t -> ResetToken.usedAt t = None ->
        now <= ResetToken.expiresAt t ->
        (String.length newPassword < 8)%nat ->
        r = (AuthService.reset_failure "Password must be at least 8 characters", w))
  /\ (forall t, found = Some t -> ResetToken.usedAt t = None ->
        now <= ResetToken.expiresAt t ->
        (8 <= String.length newPassword)%nat ->
        fst r = AuthService.reset_ok
        /\ users (snd r)
           = map (fun u => if String.eqb (User.id u) (ResetToken.userId t)
                           then AuthService.set_password
                                  (AuthService.hashPassword salt newPassword) now u
                           else u) (users w)
        /\ passwordResetTokens (snd r)
           = map (fun t' => if String.eqb (ResetToken.id t') (ResetToken.id t)
                            then AuthService.set_usedAt now t' else t')
                 (passwordResetTokens w)
        /\ authAuditLog (snd r)
           = (authAuditLog w
              ++ [Audit.mk (Some (ResetToken.userId t)) None "password_reset_complete"
                           (Some local) true None None None None])%list
        /\ ssoSettings (snd r) = ssoSettings w
        /\ crmUsers (snd r) = crmUsers w
        /\ pendingStates (snd r) = pendingStates w).
Proof.
  intros r found. subst r. unfold AuthService.resetPassword.
  run_handler. fold found.
  split; [|split; [|split; [|split]]].
  - intros ->. reflexivity.
  - intros t -> [x Hx]. rewrite Hx. reflexivity.
  - intros t -> Hu Hexp. rewrite Hu. simpl.
    destruct (Z.gtb_spec now (ResetToken.expiresAt t)); [reflexivity|lia].
  - intros t -> Hu Hexp Hlen. rewrite Hu. simpl.
    destruct (Z.gtb_spec now (ResetToken.expiresAt t)); [lia|].
    destruct (Nat.ltb_spec (String.length newPassword) 8); [reflexivity|lia].
  - intros t -> Hu Hexp Hlen. rewrite Hu. simpl.
    destruct (Z.gtb_spec now (ResetToken.expiresAt t)); [lia|].
    destruct (Nat.ltb_spec (String.length newPassword) 8); [lia|].
    simpl. repeat (split; [reflexivity|]). reflexivity.
Qed.

End PasswordReset.

(** C5, the input on which the claim as written fails: a token that was
    redeemed and has since run out is past its expiry, yet the failure is
    the already-used one, not the invalid-or-expired one. *)
Lemma resetPassword_spent_token_after_expiry :
  let r := @AuthService.resetPassword Fixture.demo_bcrypt "deadbeef" "a new password" "s1"
             200000 Fixture.staff_with_tokens in
  find (fun t => String.eqb (ResetToken.token t) "deadbeef")
       (passwordResetTokens Fixture.staff_with_tokens) = Some Fixture.spent_token
  /\ ResetToken.expiresAt Fixture.spent_token < 200000
  /\ fst r = AuthService.reset_failure "This reset token has already been used"
  /\ fst r <> AuthService.reset_failure "This reset token has expired"
  /\ fst r <> AuthService.reset_failure "Invalid or expired reset token".
Proof.
  simpl. split; [reflexivity|]. split; [reflexivity|]. split; [reflexivity|].
  split; discriminate.
Qed.

Lemma resetPassword_outcomes_witness :
  let reset token password now :=
    @AuthService.resetPassword Fixture.demo_bcrypt token password "s1" now
      Fixture.staff_with_tokens in
  fst (reset "0badf00d" "a new password" 20000)
    = AuthService.reset_failure "Invalid or expired reset token"
  /\ fst (reset "deadbeef" "a new password" 20000)
    = AuthService.reset_failure "This reset token has already been used"
  /\ fst (reset "feedc0de" "a new password" 90001)
    = AuthService.reset_failure "This reset token has expired"
  /\ fst (reset "feedc0de" "short" 20000)
    = AuthService.reset_failure "Password must be at least 8 characters"
  /\ fst (reset "feedc0de" "a new password" 20000) = AuthService.reset_ok.
Proof.
  intros reset. subst reset. simpl.
  pose proof (@resetPassword_outcomes Fixture.demo_bcrypt "0badf00d" "a new password" "s1"
                20000 Fixture.staff_with_tokens) as (H1 & _).
  pose proof (@resetPassword_outcomes Fixture.demo_bcrypt "deadbeef" "a new password" "s1"
                20000 Fixture.staff_with_tokens) as (_ & H2 & _).
  pose proof (@resetPassword_outcomes Fixture.demo_bcrypt "feedc0de" "a new password" "s1"
                90001 Fixture.staff_with_tokens) as (_ & _ & H3 & _).
  pose proof (@resetPassword_outcomes Fixture.demo_bcrypt "feedc0de" "short" "s1"
                20000 Fixture.staff_with_tokens) as (_ & _ & _ & H4 & _).
  pose proof (@resetPassword_outcomes Fixture.demo_bcrypt "feedc0de" "a new password" "s1"
                20000 Fixture.staff_with_tokens) as (_ & _ & _ & _ & H5).
  split; [exact (f_equal fst (H1 eq_refl))|].
  split; [refine (f_equal fst (H2 Fixture.spent_token eq_refl _)); by eexists|].
  split; [refine (f_equal fst (H3 Fixture.fresh_token eq_refl eq_refl _)); simpl; lia|].
  split; [refine (f_equal fst (H4 Fixture.fresh_token eq_refl eq_refl _ _)); simpl; lia|].
  refine (proj1 (H5 Fixture.fresh_token eq_refl eq_refl _ _)); simpl; lia.
Defined.

(** ** Two redemptions of one reset token *)

Section ResetRace.
Context `{Bcrypt}.
Implicit Types (w : World) (t : ResetToken.t).

Lemma find_token_after_mark (token : string) (now : Z) t (l : list ResetToken.t) :
  find (fun t' => String.eqb (ResetToken.token t') token) l = Some t ->
  find (fun t' => String.eqb (ResetToken.token t') token)
       (map (mark_used (ResetToken.id t) now) l)
  = Some (AuthService.set_usedAt now t).
Proof.
  induction l as [|a l IH]; simpl; [discriminate|].
  assert (Htok : ResetToken.token (mark_used (ResetToken.id t) now a) = ResetToken.token a).
  { unfold mark_used. destruct (String.eqb _ _); reflexivity. }
  rewrite Htok. destruct (String.eqb (ResetToken.token a) token) eqn:E.
  - intros [= ->]. unfold mark_used. by rewrite String.eqb_refl.
  - exact IH.
Qed.

Lemma resetPassword_ok_inv (token newPassword salt : string) (now : Z) w :
  fst (AuthService.resetPassword token newPassword salt now w) = AuthService.reset_ok ->
  exists t,
    find (fun t' => String.eqb (ResetToken.token t') token) (passwordResetTokens w) = Some t
    /\ passwordResetTokens (snd (AuthService.resetPassword token newPassword salt now w))
       = map (mark_used (ResetToken.id t) now) (passwordResetTokens w).
Proof.
  unfold AuthService.resetPassword. run_handler.
  destruct (find _ (passwordResetTokens w)) as [t|]; simpl; [|discriminate].
  destruct (JS.defined (ResetToken.usedAt t)); simpl; [discriminate|].
  destruct (now >? ResetToken.expiresAt t); simpl; [discriminate|].
  destruct (String.length newPassword <? 8)%nat; simpl; [discriminate|].
  intros _. exists t. split; reflexivity.
Qed.

Lemma resetPassword_used (token newPassword salt : string) (now : Z) w t :
  find (fun t' => String.eqb (ResetToken.token t') token) (passwordResetTokens w) = Some t ->
  is_Some (ResetToken.usedAt t) ->
  fst (AuthService.resetPassword token newPassword salt now w)
  = AuthService.reset_failure "This reset token has already been used".
Proof.
  intros Hf [x Hx]. unfold AuthService.resetPassword. run_handler.
  rewrite Hf. simpl. rewrite Hx. reflexivity.
Qed.

(** One handler running its five turns with no other handler in between
    is [resetPassword]. *)
Lemma run_resets_alone (token newPassword salt salt' : string) (now : Z)
    (other : AuthService.ResetPc) w :
  AuthService.run_resets salt salt' (repeat (true, now) 5)
    (AuthService.mkTwoResets (AuthService.RpSelect token newPassword) other) w
  = (AuthService.mkTwoResets
       (AuthService.RpDone (fst (AuthService.resetPassword token newPassword salt now w)))
       other,
     snd (AuthService.resetPassword token newPassword salt now w)).
Proof.
  unfold AuthService.resetPassword. simpl. run_handler.
  destruct (find _ (passwordResetTokens w)) as [t|]; simpl; [|by destruct w].
  destruct (JS.defined (ResetToken.usedAt t)); simpl; [by destruct w|].
  destruct (now >? ResetToken.expiresAt t); simpl; [by destruct w|].
  destruct (String.length newPassword <? 8)%nat; simpl; [by destruct w|].
  reflexivity.
Qed.

(** C4, as the code has it.  In sequence the token is single-use: once a
    [resetPassword] call has succeeded, a call with the same token that
    starts afterwards fails with "This reset token has already been used".
    But the token is marked by an update that is keyed on the token id
    alone and is issued after a separate read; there is no check-and-set.
    When two handlers both read a valid token before either marks it, both
    pass the checks and both succeed, and the password stored last wins. *)
Theorem resetPassword_read_then_write (token pw1 pw2 salt1 salt2 : string) w :
  (forall now1 now2,
     fst (AuthService.resetPassword token pw1 salt1 now1 w) = AuthService.reset_ok ->
     fst (AuthService.resetPassword token pw2 salt2 now2
            (snd (AuthService.resetPassword token pw1 salt1 now1 w)))
     = AuthService.reset_failure "This reset token has already been used")
  /\ (forall t a0 b0 a1 a2 a3 a4 b1 b2 b3 b4,
     find (fun t' => String.eqb (ResetToken.token t') token) (passwordResetTokens w)
       = Some t ->
     ResetToken.usedAt t = None ->
     a1 <= ResetToken.expiresAt t -> b1 <= ResetToken.expiresAt t ->
     (8 <= String.length pw1)%nat -> (8 <= String.length pw2)%nat ->
     let end_ := AuthService.run_resets salt1 salt2
                   (both_read_first a0 b0 a1 a2 a3 a4 b1 b2 b3 b4)
                   (AuthService.mkTwoResets (AuthService.RpSelect token pw1)
                                            (AuthService.RpSelect token pw2)) w in
     AuthService.first_pc (fst end_) = AuthService.RpDone AuthService.reset_ok
     /\ AuthService.second_pc (fst end_) = AuthService.RpDone AuthService.reset_ok
     /\ length (authAuditLog (snd end_)) = S (S (length (authAuditLog w)))).
Proof.
  split.
  - intros now1 now2 Hok.
    destruct (resetPassword_ok_inv _ _ _ _ _ Hok) as (t & Hfind & Htok).
    apply resetPassword_used with (t := AuthService.set_usedAt now1 t).
    + rewrite Htok. by apply find_token_after_mark.
    + by eexists.
  - intros t a0 b0 a1 a2 a3 a4 b1 b2 b3 b4 Hfind Hu Ha Hb Hl1 Hl2 end_.
    subst end_. unfold both_read_first. simpl. run_handler.
    rewrite Hfind. simpl. rewrite Hu. simpl.
    destruct (Z.gtb_spec a1 (ResetToken.expiresAt t)); [lia|].
    destruct (Z.gtb_spec b1 (ResetToken.expiresAt t)); [lia|].
    destruct (Nat.ltb_spec (String.length pw1) 8); [lia|].
    destruct (Nat.ltb_spec (String.length pw2) 8); [lia|].
    simpl. split; [reflexivity|]. split; [reflexivity|].
    rewrite !length_app. simpl. lia.
Qed.

End ResetRace.

(** C4, the run on which the claim as written fails: two handlers redeem
    the fresh token of the sample store, both read it before either marks
    it, and both report success. *)
Lemma resetPassword_double_redemption :
  let end_ := @AuthService.run_resets Fixture.demo_bcrypt "s1" "s2" Fixture.racing
                (AuthService.mkTwoResets
                   (AuthService.RpSelect "feedc0de" "first new password")
                   (AuthService.RpSelect "feedc0de" "second new password"))
                Fixture.staff_with_tokens in
  AuthService.succeeded (AuthService.first_pc (fst end_)) = true
  /\ AuthService.succeeded (AuthService.second_pc (fst end_)) = true
  /\ (User.passwordHash <$> head (users (snd end_))) = Some (Some "s2:second new password").
Proof. vm_compute. repeat split. Qed.

Lemma resetPassword_read_then_write_witness :
  let w1 := snd (@AuthService.resetPassword Fixture.demo_bcrypt "feedc0de"
                   "first new password" "s1" 10000 Fixture.staff_with_tokens) in
  fst (@AuthService.resetPassword Fixture.demo_bcrypt "feedc0de" "first new password"
         "s1" 10000 Fixture.staff_with_tokens) = AuthService.reset_ok
  /\ fst (@AuthService.resetPassword Fixture.demo_bcrypt "feedc0de" "second new password"
            "s2" 10500 w1)
     = AuthService.reset_failure "This reset token has already been used"
  /\ AuthService.second_pc
       (fst (@AuthService.run_resets Fixture.demo_bcrypt "s1" "s2" Fixture.racing
               (AuthService.mkTwoResets
                  (AuthService.RpSelect "feedc0de" "first new password")
                  (AuthService.RpSelect "feedc0de" "second new password"))
               Fixture.staff_with_tokens))
     = AuthService.RpDone AuthService.reset_ok.
Proof.
  intros w1. subst w1.
  pose proof (@resetPassword_read_then_write Fixture.demo_bcrypt "feedc0de"
                "first new password" "second new password" "s1" "s2"
                Fixture.staff_with_tokens) as (Hseq & Hrace).
  assert (Hok : fst (@AuthService.resetPassword Fixture.demo_bcrypt "feedc0de"
                       "first new password" "s1" 10000 Fixture.staff_with_tokens)
                = AuthService.reset_ok) by reflexivity.
  split; [exact Hok|].
  split; [exact (Hseq 10000 10500 Hok)|].
  refine (proj1 (proj2 (Hrace Fixture.fresh_token 10000 10001 10300 10310 10320 10330
                          10400 10410 10420 10430 eq_refl eq_refl _ _ _ _)));
    simpl; lia.
Defined.

(** ** Federated accounts *)

Section Binding.
Implicit Types (w : World) (u user : User.t) (profile : Profile.t).

Lemma find_by_id_map (id : string) (f : User.t -> User.t) (l : list User.t) :
  (forall u, User.id (f u) = User.id u) ->
  find (by_id id) (map (fun u => if by_id id u then f u else u) l)
  = f <$> find (by_id id) l.
Proof.
  intros Hid. induction l as [|a l IH]; simpl; [reflexivity|].
  destruct (by_id id a) eqn:E.
  - unfold by_id in *. rewrite Hid, E. reflexivity.
  - rewrite E. exact IH.
Qed.

Lemma find_by_id_present (user : User.t) (l : list User.t) :
  In user l -> is_Some (find (by_id (User.id user)) l).
Proof.
  intros Hin. destruct (find (by_id (User.id user)) l) eqn:E; [by eexists|].
  exfalso. pose proof (find_none _ _ E _ Hin) as Hn.
  unfold by_id in Hn. by rewrite String.eqb_refl in Hn.
Qed.

(** The row read back after the binding update exists: the [None] branch
    of [handleMicrosoftSsoCallback] is dead. *)
Lemma reread_after_bind user profile (tenantId : string) (now : Z) (l : list User.t) :
  In user l ->
  exists u0, find (by_id (User.id user)) l = Some u0
    /\ find (by_id (User.id user))
            (map (fun u => if by_id (User.id user) u
                           then AuthService.bind_microsoft user profile tenantId now u
                           else u) l)
       = Some (AuthService.bind_microsoft user profile tenantId now u0).
Proof.
  intros Hin. destruct (find_by_id_present user l Hin) as [u0 Hu0].
  exists u0. split; [exact Hu0|].
  rewrite find_by_id_map; [|reflexivity]. by rewrite Hu0.
Qed.

(** What [handleMicrosoftSsoCallback] does once the policy has admitted the
    login and an enabled account with the e-mail address exists. *)
Lemma bind_existing profile (tenantId : string) (ipAddress userAgent : option string)
    (uuid : string) (now : Z) w user :
  JS.truthy (AuthService.profile_email profile) = true ->
  AuthService.not_allowed (head (ssoSettings w) ≫= SsoSettings.allowedTenantIds)
                          (Some tenantId) = false ->
  AuthService.not_allowed (head (ssoSettings w) ≫= SsoSettings.allowedEmailDomains)
                          (nth_error (JS.split "@"%char (AuthService.profile_email profile)) 1)
    = false ->
  find (by_email (AuthService.profile_email profile)) (users w) = Some user ->
  User.isDisabled user = false ->
  exists u0,
    find (by_id (User.id user)) (users w) = Some u0
    /\ AuthService.handleMicrosoftSsoCallback profile tenantId ipAddress userAgent uuid now w
       = (mkLoginResult true
            (Some (AuthService.bind_microsoft user profile tenantId now u0)) None,
          with_audit
            (authAuditLog w ++
               [AuthService.sso_login (AuthService.bind_microsoft user profile tenantId now u0)
                                      profile tenantId ipAddress userAgent])
            (with_users
               (map (fun u => if by_id (User.id user) u
                              then AuthService.bind_microsoft user profile tenantId now u
                              else u) (users w)) w)).
Proof.
  intros Hem Hten Hdom Hfind Hen.
  destruct (reread_after_bind user profile tenantId now (users w)) as (u0 & Hu0 & Hre).
  { exact (proj1 (find_some _ _ Hfind)). }
  exists u0. split; [exact Hu0|].
  unfold AuthService.handleMicrosoftSsoCallback. rewrite Hem.
  step_handler. rewrite Hten, Hdom.
  unfold by_email in Hfind. rewrite Hfind. step_handler. rewrite Hen.
  unfold by_id in Hre. rewrite Hre. reflexivity.
Qed.

(** The rows after a federated login has bound to an existing enabled
    account: the update reads the origin the account had, so that an
    account of origin [local] stays [local] and an account of any other
    origin is written as [microsoft]; no row's password hash changes, and
    the rows of other ids are as they were. *)
Lemma bind_existing_rows profile (tenantId : string)
    (ipAddress userAgent : option string) (uuid : string) (now : Z) w (account : User.t) :
  JS.truthy (AuthService.profile_email profile) = true ->
  AuthService.not_allowed (head (ssoSettings w) ≫= SsoSettings.allowedTenantIds)
                          (Some tenantId) = false ->
  AuthService.not_allowed (head (ssoSettings w) ≫= SsoSettings.allowedEmailDomains)
                          (nth_error (JS.split "@"%char (AuthService.profile_email profile)) 1)
    = false ->
  find (by_email (AuthService.profile_email profile)) (users w) = Some account ->
  User.isDisabled account = false ->
  let r := AuthService.handleMicrosoftSsoCallback profile tenantId ipAddress userAgent
             uuid now w in
  success (fst r) = true
  /\ exists bound,
       user (fst r) = Some bound
       /\ In bound (users (snd r))
       /\ User.id bound = User.id account
       /\ User.authProvider bound
          = match User.authProvider account with local => local | _ => microsoft end
       /\ Forall2 (fun before after =>
                     User.passwordHash after = User.passwordHash before
                     /\ (User.id before = User.id account ->
                         User.authProvider after
                         = match User.authProvider account with
                           | local => local
                           | _ => microsoft
                           end)
                     /\ (User.id before <> User.id account -> after = before))
                  (users w) (users (snd r)).
Proof.
  intros Hem Hten Hdom Hfind Hen r.
  destruct (bind_existing profile tenantId ipAddress userAgent uuid now w account
              Hem Hten Hdom Hfind Hen) as (u0 & Hu0 & Hr).
  subst r. rewrite Hr. simpl. split; [reflexivity|].
  exists (AuthService.bind_microsoft account profile tenantId now u0).
  split; [reflexivity|].
  pose proof (find_some _ _ Hu0) as [Hin0 Hid0].
  unfold by_id in Hid0. apply String.eqb_eq in Hid0.
  split.
  { apply in_map_iff. exists u0. split; [|exact Hin0].
    unfold by_id. rewrite Hid0, String.eqb_refl. reflexivity. }
  split; [exact Hid0|].
  split; [simpl; by destruct (User.authProvider account)|].
  clear. induction (users w) as [|a l IH]; simpl; constructor; [|exact IH].
  unfold by_id. destruct (String.eqb_spec (User.id a) (User.id account)) as [E|E]; simpl.
  - split; [reflexivity|]. split; [|done]. intros _. by destruct (User.authProvider account).
  - split; [reflexivity|]. split; [done|reflexivity].
Qed.

End Binding.

(** The update reads the origin column alone.  On a store that holds a
    row of origin [replit] with a password hash (the service writes no
    such row: see [service_op_consistent]), the row is written as
    [microsoft] and keeps its hash. *)
Example bind_reads_origin_column :
  let r := AuthService.handleMicrosoftSsoCallback Fixture.rae_at_microsoft "tenant-1"
             None None "fresh" 7000 Fixture.staff in
  credentials_consistent Fixture.staff = false
  /\ User.authProvider Fixture.rae = replit
  /\ JS.truthy_opt (User.passwordHash Fixture.rae) = true
  /\ success (fst r) = true
  /\ (User.id <$> user (fst r)) = Some (User.id Fixture.rae)
  /\ (User.authProvider <$> user (fst r)) = Some microsoft
  /\ (User.passwordHash <$> user (fst r)) = Some (User.passwordHash Fixture.rae).
Proof. vm_compute. repeat split. Qed.

(** ** The end-to-end scenario of the domain allow-list *)

Section DomainPolicy.
Implicit Types (w : World) (settings : SsoSettings.t).

Lemma role_label_parses (role : UserRole) : parse_role (role_label role) = Some role.
Proof. by destruct role. Qed.

Lemma role_label_truthy (role : UserRole) : JS.truthy (role_label role) = true.
Proof. by destruct role. Qed.

(** A login that the policy admits and that finds no account creates
    one, unless auto-provisioning is switched off. *)
Lemma provision_new (profile : Profile.t) (tenantId : string)
    (ipAddress userAgent : option string) (uuid : string) (now : Z) w :
  JS.truthy (AuthService.profile_email profile) = true ->
  AuthService.not_allowed (head (ssoSettings w) ≫= SsoSettings.allowedTenantIds)
                          (Some tenantId) = false ->
  AuthService.not_allowed (head (ssoSettings w) ≫= SsoSettings.allowedEmailDomains)
                          (nth_error (JS.split "@"%char (AuthService.profile_email profile)) 1)
    = false ->
  find (by_email (AuthService.profile_email profile)) (users w) = None ->
  default true (SsoSettings.autoProvisionUsers <$> head (ssoSettings w)) = true ->
  let created := AuthService.provisioned uuid (AuthService.profile_email profile)
                   profile tenantId now in
  AuthService.handleMicrosoftSsoCallback profile tenantId ipAddress userAgent uuid now w
  = (mkLoginResult true (Some created) None,
     with_audit (authAuditLog w ++
                   [AuthService.sso_login created profile tenantId ipAddress userAgent])
                (with_users (users w ++ [created]) w)).
Proof.
  intros Hem Hten Hdom Hnone Hauto created.
  unfold AuthService.handleMicrosoftSsoCallback. rewrite Hem.
  step_handler. rewrite Hten, Hdom.
  unfold by_email in Hnone. rewrite Hnone, Hauto. reflexivity.
Qed.

(** A login that the e-mail domain allow-list turns away. *)
Lemma domain_rejected (profile : Profile.t) (tenantId : string)
    (ipAddress userAgent : option string) (uuid : string) (now : Z) w :
  JS.truthy (AuthService.profile_email profile) = true ->
  AuthService.not_allowed (head (ssoSettings w) ≫= SsoSettings.allowedTenantIds)
                          (Some tenantId) = false ->
  AuthService.not_allowed (head (ssoSettings w) ≫= SsoSettings.allowedEmailDomains)
                          (nth_error (JS.split "@"%char (AuthService.profile_email profile)) 1)
    = true ->
  AuthService.handleMicrosoftSsoCallback profile tenantId ipAddress userAgent uuid now w
  = (failure "Your email domain is not authorized for access",
     with_audit
       (authAuditLog w ++
          [AuthService.failed_sso_login None (AuthService.profile_email profile)
             ("Email domain "
                ++ JS.interpolate
                     (nth_error (JS.split "@"%char (AuthService.profile_email profile)) 1)
                ++ " not in allowed list")
             ipAddress userAgent]) w).
Proof.
  intros Hem Hten Hdom.
  unfold AuthService.handleMicrosoftSsoCallback. rewrite Hem.
  step_handler. rewrite Hten, Hdom. reflexivity.
Qed.

(** The CRM profile that [ensureCrmUser] creates for a federated account
    without one. *)
Lemma ensureCrmUser_federated (account : User.t) (crmUuid : string) (role : UserRole) w :
  find (fun c => String.eqb (CrmUser.authUserId c) (User.id account)) (crmUsers w) = None ->
  User.authProvider account <> local ->
  (head (ssoSettings w) ≫= SsoSettings.defaultRoleForSso) = Some (role_label role) ->
  Session.ensureCrmUser account crmUuid w
  = (Some tt,
     with_crm (crmUsers w ++
                 [CrmUser.mk crmUuid (User.id account) role (User.firstName account)
                             (User.lastName account) (User.email account)]) w).
Proof.
  intros Hcrm Hprov Hrole. unfold Session.ensureCrmUser. step_handler.
  rewrite Hcrm, Hrole.
  replace (AuthProvider_eqb (User.authProvider account) local) with false
    by (by destruct (User.authProvider account)).
  unfold JS.or_default. rewrite role_label_truthy, role_label_parses. reflexivity.
Qed.

(** C9.  Under a policy whose [allowedEmailDomains] is [["acme.com"]] and
    whose [autoProvisionUsers] is on (and whose tenant allow-list admits
    the tenant of the login): a federated login of bob@other.com fails with
    "Your email domain is not authorized for access", creates no account
    and is recorded as one [failed_sso_login] event; a federated login of
    alice@acme.com, for whom no account exists, succeeds and appends an
    account of origin [microsoft] with [emailVerified] set, for which
    [ensureCrmUser] then creates the CRM profile with the policy's
    [defaultRoleForSso] as its role. *)
Theorem domain_allow_list_scenario w settings (rest : list SsoSettings.t)
    (bob alice : Profile.t) (tenantId : string) (ipAddress userAgent : option string)
    (uuid crmUuid : string) (now : Z) (role : UserRole) :
  ssoSettings w = settings :: rest ->
  SsoSettings.allowedEmailDomains settings = Some ["acme.com"] ->
  SsoSettings.autoProvisionUsers settings = true ->
  AuthService.not_allowed (SsoSettings.allowedTenantIds settings) (Some tenantId) = false ->
  SsoSettings.defaultRoleForSso settings = Some (role_label role) ->
  AuthService.profile_email bob = "bob@other.com" ->
  AuthService.profile_email alice = "alice@acme.com" ->
  find (by_email "alice@acme.com") (users w) = None ->
  find (fun c => String.eqb (CrmUser.authUserId c) uuid) (crmUsers w) = None ->
  let rb := AuthService.handleMicrosoftSsoCallback bob tenantId ipAddress userAgent
              uuid now w in
  let ra := AuthService.handleMicrosoftSsoCallback alice tenantId ipAddress userAgent
              uuid now w in
  (fst rb = failure "Your email domain is not authorized for access"
   /\ users (snd rb) = users w
   /\ crmUsers (snd rb) = crmUsers w
   /\ authAuditLog (snd rb)
      = (authAuditLog w
         ++ [Audit.mk None (Some "bob@other.com") "failed_sso_login" (Some microsoft) false
                      (Some "Email domain other.com not in allowed list")
                      ipAddress userAgent None])%list)
  /\ exists created,
       fst ra = mkLoginResult true (Some created) None
       /\ users (snd ra) = (users w ++ [created])%list
       /\ User.id created = uuid
       /\ User.email created = Some "alice@acme.com"
       /\ User.authProvider created = microsoft
       /\ User.emailVerified created = true
       /\ User.isDisabled created = false
       /\ User.passwordHash created = None
       /\ User.microsoftUserId created = Some (Profile.id alice)
       /\ User.microsoftTenantId created = Some tenantId
       /\ (exists event, authAuditLog (snd ra) = (authAuditLog w ++ [event])%list
                         /\ Audit.action event = "sso_login"
                         /\ Audit.success event = true)
       /\ let rc := Session.ensureCrmUser created crmUuid (snd ra) in
          fst rc = Some tt
          /\ crmUsers (snd rc)
             = (crmUsers w
                ++ [CrmUser.mk crmUuid uuid role (User.firstName created)
                               (User.lastName created) (Some "alice@acme.com")])%list.
Proof.
  intros Hset Hdom Hauto Hten Hrole Hbob Halice Hnone Hcrm rb ra.
  subst rb ra. split.
  - rewrite domain_rejected.
    + rewrite Hbob. cbn. auto.
    + by rewrite Hbob.
    + by rewrite Hset.
    + rewrite Hset, Hbob. cbn [head mbind option_bind]. by rewrite Hdom.
  - rewrite provision_new.
    + rewrite Halice.
      eexists. split; [reflexivity|]. split; [reflexivity|].
      do 8 (split; [reflexivity|]).
      split; [eexists; split; [reflexivity|split; reflexivity]|].
      cbn [snd]. rewrite ensureCrmUser_federated with (role := role).
      * split; reflexivity.
      * exact Hcrm.
      * discriminate.
      * cbn. rewrite Hset. cbn. exact Hrole.
    + by rewrite Halice.
    + by rewrite Hset.
    + rewrite Hset, Halice. cbn [head mbind option_bind]. by rewrite Hdom.
    + by rewrite Halice.
    + rewrite Hset. cbn. exact Hauto.
Qed.

End DomainPolicy.

Lemma domain_allow_list_scenario_witness :
  let rb := AuthService.handleMicrosoftSsoCallback Fixture.bob "tenant-1" None None
              "u-new" 7000 Fixture.governed in
  let ra := AuthService.handleMicrosoftSsoCallback Fixture.alice "tenant-1" None None
              "u-new" 7000 Fixture.governed in
  fst rb = failure "Your email domain is not authorized for access"
  /\ (User.authProvider <$> user (fst ra)) = Some microsoft
  /\ (CrmUser.role <$>
        last (crmUsers (snd (Session.ensureCrmUser
                               (default Fixture.ann (user (fst ra))) "c-new" (snd ra)))))
     = Some manager.
Proof.
  intros rb ra.
  destruct (domain_allow_list_scenario Fixture.governed Fixture.acme_policy []
              Fixture.bob Fixture.alice "tenant-1" None None "u-new" "c-new" 7000 manager
              eq_refl eq_refl eq_refl eq_refl eq_refl eq_refl eq_refl eq_refl eq_refl)
    as ((Hb & _) & created & Ha & _ & _ & _ & Hp & _ & _ & _ & _ & _ & _ & Hc1 & Hc2).
  split; [exact Hb|]. subst ra. rewrite Ha. cbn [user default fmap option_fmap option_map].
  split; [by rewrite Hp|].
  cbv zeta in Hc2. unfold id. rewrite Hc2. reflexivity.
Defined.

(** ** The authorization gates *)

Section Gates.
Implicit Types (w : World) (req : Session.Request).

(** [isAdmin] lets a request through exactly when it carries a user whose
    CRM profile has the role [admin]; the [isDisabled] flag of the user is
    not looked at. *)
Lemma isAdmin_passes req w :
  fst (fst (Session.isAdmin req w)) = Session.Next <->
  exists user crmUser,
    Session.req_user req = Some user
    /\ find (fun c => String.eqb (CrmUser.authUserId c) (Session.id user)) (crmUsers w)
       = Some crmUser
    /\ CrmUser.role crmUser = admin.
Proof.
  unfold Session.isAdmin. destruct (Session.req_user req) as [user|]; step_handler.
  - destruct (find _ (crmUsers w)) as [c|] eqn:Hf; cbn.
    + destruct (CrmUser.role c) eqn:E; cbn.
      * split; [|done]. intros _. exists user, c. auto.
      * split; [done|]. intros (? & ? & [= <-] & ? & ?). congruence.
      * split; [done|]. intros (? & ? & [= <-] & ? & ?). congruence.
    + split; [done|]. intros (? & ? & [= <-] & ? & _). congruence.
  - cbn. split; [done|]. intros (? & ? & ? & _). done.
Qed.

Lemma isAuthenticated_passes req :
  fst (Session.isAuthenticated req) = Session.Next <->
  exists user, Session.req_user req = Some user /\ Session.isDisabled user = false.
Proof.
  unfold Session.isAuthenticated. destruct (Session.req_user req) as [user|]; cbn.
  - destruct (Session.isDisabled user) eqn:E; cbn.
    + split; [done|]. intros (? & [= <-] & ?). congruence.
    + split; [|done]. intros _. by exists user.
  - split; [done|]. intros (? & ? & _). done.
Qed.

End Gates.

(** C1, the request on which the code departs from the claim: the session
    of the disabled account [dan], whose CRM profile is an administrator's.
    [isAuthenticated] answers 403 and ends the session; [isAdmin] lets the
    same request through and leaves the session in place. *)
Theorem isAdmin_admits_disabled_admin :
  let w := Fixture.disabled_admin in
  let req := fst (Session.with_session (Some "u-dan") w) in
  (Session.isDisabled <$> Session.req_user req) = Some true
  /\ Session.isAuthenticated req
     = (Session.Status 403 "Account is disabled", Session.mkRequest None)
  /\ fst (Session.isAdmin req w) = (Session.Next, req).
Proof. vm_compute. repeat split. Qed.

(** ** ID tokens *)

Section IdTokens.
Context `{JwtLibSpec}.
Variable env : Env.

(** C10, as the code has it.  An ID token that [verifyIdToken] accepts has
    a header with a key id; the library verified it against the key that
    the key set of the tenant holds under that key id, with "RS256" as the
    only algorithm allowed, so the header's algorithm is "RS256" and the
    signature is valid under that key; the configured client id is its
    audience or one of its audiences; its issuer is one of the two issuer
    addresses written with the tenant, where the tenant is the [tid] claim
    of the token or, for a token without one, the configured tenant id
    (and the key set is the configured tenant's when the tenant is
    "common"); and its [exp] claim, if it has one, lies ahead of the clock,
    300 seconds being allowed for.  Nothing is required of the [iat]
    claim, and a token without [exp] is not turned away for that. *)
Theorem verifyIdToken_accepts_only (idToken : string) (now : Z) (w w' : World)
    (payload : IdTokenPayload) :
  MicrosoftAuth.verifyIdToken env idToken now w = (Some payload, w') ->
  exists config header keyId signingKey,
    MicrosoftAuth.getConfig env = Some config
    /\ jwt_decode idToken = Some (header, payload)
    /\ kid header = Some keyId
    /\ let tenant := JS.or_default (tid payload) (tenantId config) in
       jwks_signing_key
         (MicrosoftAuth.jwksUri
            (if String.eqb tenant "common" then tenantId config else tenant)) keyId
       = Some signingKey
       /\ alg header = "RS256"
       /\ signature_valid "RS256" signingKey idToken
       /\ In (clientId config) (aud payload)
       /\ (iss payload = Some ("https://login.microsoftonline.com/" ++ tenant ++ "/v2.0")
           \/ iss payload = Some ("https://sts.windows.net/" ++ tenant ++ "/"))
       /\ (forall expiry, exp payload = Some expiry -> now / 1000 < expiry + 300).
Proof.
  unfold MicrosoftAuth.verifyIdToken.
  destruct (MicrosoftAuth.getConfig env) as [config|] eqn:Hcfg; [|discriminate].
  assert (Hclient : JS.truthy (clientId config) = true).
  { revert Hcfg. unfold MicrosoftAuth.getConfig.
    destruct (MICROSOFT_CLIENT_ID env) as [c|]; cbn [JS.truthy_opt negb orb];
      [|discriminate].
    destruct (JS.truthy c) eqn:Hc; cbn [negb orb]; [|discriminate].
    destruct (negb _); [discriminate|]. by intros [= <-]. }
  destruct (jwt_decode idToken) as [[header decoded]|] eqn:Hdec; [|discriminate].
  destruct (kid header) as [keyId|] eqn:Hkid; [|discriminate].
  cbn [JS.truthy_opt default]. destruct (JS.truthy keyId); [|discriminate].
  unfold MicrosoftAuth.getSigningKey. step_handler.
  set (tenant := JS.or_default (tid decoded) (tenantId config)).
  unfold id. destruct (jwks_signing_key _ keyId) as [signingKey|] eqn:Hkey; [|discriminate].
  destruct (JS.truthy signingKey); [|discriminate].
  intros [= Hver _].
  destruct (jwt_verify_sound _ _ _ _ _ Hver)
    as (header' & Hdec' & Halg & Hsig & Haud & Hiss & Hexp).
  rewrite Hdec in Hdec'. injection Hdec' as <- <-.
  exists config, header, keyId, signingKey.
  split; [reflexivity|]. split; [reflexivity|]. split; [exact Hkid|].
  fold tenant. cbn [MicrosoftAuth.verify_options algorithms audience issuer clockTolerance]
    in Halg, Haud, Hiss, Hexp.
  assert (Hrs : alg header = "RS256").
  { destruct Halg as [E|[]]. by symmetry. }
  split; [exact Hkey|]. split; [exact Hrs|].
  split; [by rewrite <- Hrs|]. split; [exact (Haud Hclient)|].
  split; [|exact Hexp].
  destruct Hiss as (issuedBy & -> & [E|[E|[]]]); [left|right]; by rewrite E.
Qed.

End IdTokens.

(** The table-driven library meets its description. *)
Definition library_spec (tokens : list (string * JsonWebToken.Issued))
    (keys : list (string * list (string * string)))
    : @JwtLibSpec (JsonWebToken.library tokens keys).
Proof.
  refine {| signature_valid _ key token :=
              exists i, JsonWebToken.lookup tokens token = Some i
                        /\ JsonWebToken.issued_key i = key |}.
  intros token key options now payload. cbn. unfold JsonWebToken.verify, JsonWebToken.decode.
  destruct (JsonWebToken.lookup tokens token) as [i|]; [|discriminate].
  destruct (existsb _ (algorithms options)) eqn:Ealg; cbn; [|discriminate].
  destruct (String.eqb_spec (JsonWebToken.issued_key i) key) as [Ekey|]; cbn; [|discriminate].
  destruct (match exp (JsonWebToken.issued_payload i) with
            | Some expiry => now / 1000 >=? expiry + clockTolerance options
            | None => false
            end) eqn:Eexp; [discriminate|].
  destruct (JS.truthy (audience options)
            && negb (existsb (String.eqb (audience options))
                       (aud (JsonWebToken.issued_payload i)))) eqn:Eaud; [discriminate|].
  destruct (iss (JsonWebToken.issued_payload i)) as [issuedBy|] eqn:Eby; cbn;
    [|discriminate].
  destruct (existsb _ (issuer options)) eqn:Eiss; cbn; [|discriminate].
  intros [= <-]. exists (JsonWebToken.issued_header i).
  split; [reflexivity|].
  apply existsb_exists in Ealg as (a & Ha & Ea). apply String.eqb_eq in Ea. subst a.
  apply existsb_exists in Eiss as (b & Hb & Eb). apply String.eqb_eq in Eb. subst b.
  split; [exact Ha|]. split; [by exists i|]. split.
  { intros Ht. rewrite Ht in Eaud. cbn in Eaud. apply negb_false_iff in Eaud.
    apply existsb_exists in Eaud as (c & Hc & Ec). apply String.eqb_eq in Ec. by subst c. }
  split; [by exists issuedBy; rewrite Eby|].
  intros expiry Hexp. rewrite Hexp in Eexp. lia.
Defined.

(** C10, the tokens on which the claim as written fails.  "jwt-plain" is
    accepted although it carries no tenant claim of its own: its issuer is
    matched against the addresses written with the configured tenant.
    "jwt-early" is accepted although its [iat] lies beyond the clock (2
    seconds) plus the 300 seconds of tolerance.  "jwt-open" is accepted
    although it has no [exp] and no [iat] claim to compare with the clock,
    and its audience is a list that contains the client id, not the client
    id itself. *)
Lemma verifyIdToken_accepts_token_without_tid :
  (fst (@MicrosoftAuth.verifyIdToken Fixture.demo_jwt Fixture.demo_env "jwt-plain" 2000
          Fixture.awaiting_callback)
   = Some Fixture.claims_plain
   /\ tid Fixture.claims_plain = None
   /\ (tenantId <$> MicrosoftAuth.getConfig Fixture.demo_env) = Some "contoso"
   /\ iss Fixture.claims_plain = Some "https://login.microsoftonline.com/contoso/v2.0")
  /\ (fst (@MicrosoftAuth.verifyIdToken Fixture.demo_jwt Fixture.demo_env "jwt-early" 2000
             Fixture.awaiting_callback)
      = Some Fixture.claims_early
      /\ exists issuedAt, iat Fixture.claims_early = Some issuedAt
                          /\ 2000 / 1000 + 300 < issuedAt)
  /\ (fst (@MicrosoftAuth.verifyIdToken Fixture.demo_jwt Fixture.demo_env "jwt-open" 2000
             Fixture.awaiting_callback)
      = Some Fixture.claims_open
      /\ exp Fixture.claims_open = None
      /\ iat Fixture.claims_open = None
      /\ aud Fixture.claims_open = ["api://reports"; "client-1"]).
Proof.
  split; [by vm_compute|]. split.
  - split; [by vm_compute|]. exists 100000. by vm_compute.
  - by vm_compute.
Qed.

Lemma verifyIdToken_accepts_only_witness :
  fst (@MicrosoftAuth.verifyIdToken Fixture.demo_jwt Fixture.demo_env "jwt-alice" 2000
         Fixture.awaiting_callback)
  = Some Fixture.claims_alice
  /\ In "client-1" (aud Fixture.claims_alice)
  /\ 2000 / 1000 < 3600 + 300.
Proof.
  split; [reflexivity|].
  destruct (@verifyIdToken_accepts_only Fixture.demo_jwt (library_spec _ _) Fixture.demo_env
              "jwt-alice" 2000 Fixture.awaiting_callback
              (snd (@MicrosoftAuth.verifyIdToken Fixture.demo_jwt Fixture.demo_env
                      "jwt-alice" 2000 Fixture.awaiting_callback))
              Fixture.claims_alice eq_refl)
    as (config & header & keyId & signingKey & Hc & _ & _ & _ & _ & _ & Haud & _ & Hexp).
  injection Hc as <-. split; [exact Haud|exact (Hexp 3600 eq_refl)].
Defined.

(** ** The federation callback *)

Section Callback.
Context `{JwtLib} `{IdentityProvider}.
Variable env : Env.
Implicit Types (w : World) (profile : Profile.t).

Lemma validateState_tables (state : string) (now : Z) w :
  tables (snd (MicrosoftAuth.validateState state now w)) = tables w
  /\ calls (snd (MicrosoftAuth.validateState state now w)) = calls w.
Proof.
  unfold MicrosoftAuth.validateState. step_handler.
  destruct (pendingStates w !! state) as [p|]; [|done].
  by destruct (MicrosoftAuth.expired now p).
Qed.

Lemma exchangeCodeForToken_inv (code : string) w w' (tokenResponse : MicrosoftTokenResponse) :
  MicrosoftAuth.exchangeCodeForToken env code w = (Some tokenResponse, w') ->
  w' = with_calls (calls w ++ [CallTokenEndpoint code]) w.
Proof.
  unfold MicrosoftAuth.exchangeCodeForToken.
  destruct (MicrosoftAuth.getConfig env); [|discriminate].
  step_handler. by intros [= _ <-].
Qed.

Lemma verifyIdToken_tables (idToken : string) (now : Z) w :
  tables (snd (MicrosoftAuth.verifyIdToken env idToken now w)) = tables w.
Proof.
  unfold MicrosoftAuth.verifyIdToken.
  destruct (MicrosoftAuth.getConfig env); [|done].
  destruct (jwt_decode idToken) as [[header payload]|]; [|done].
  destruct (negb _); [done|].
  unfold MicrosoftAuth.getSigningKey. step_handler.
  destruct (jwks_signing_key _ _) as [k|]; [|done].
  by destruct (JS.truthy k).
Qed.

Lemma resolveTenantId_tables (claims : option IdTokenPayload) (accessToken : string) w :
  tables (snd (MicrosoftAuth.resolveTenantId env claims accessToken w)) = tables w.
Proof.
  unfold MicrosoftAuth.resolveTenantId.
  destruct (JS.truthy_opt (claims ≫= tid)); [done|].
  unfold MicrosoftAuth.getOrganizationTenantId. step_handler.
  by destruct (JS.truthy_opt _).
Qed.

Lemma handleMicrosoftSsoCallback_calls profile (tenantId : string)
    (ipAddress userAgent : option string) (uuid : string) (now : Z) w :
  calls (snd (AuthService.handleMicrosoftSsoCallback profile tenantId ipAddress userAgent
                uuid now w)) = calls w.
Proof.
  unfold AuthService.handleMicrosoftSsoCallback.
  destruct (negb (JS.truthy _)); [done|]. step_handler.
  destruct (AuthService.not_allowed _ (Some tenantId)); [done|].
  destruct (AuthService.not_allowed _ _); [done|].
  destruct (find _ (users w)) as [u|].
  - destruct (User.isDisabled u); [done|]. step_handler.
    by destruct (find _ _).
  - by destruct (default true _).
Qed.

(** C2.  When the answer of the token endpoint has no [id_token] (or an
    empty one), [handleCallback] neither looks up a signing key nor runs
    the token verifier, and the e-mail cross-check does not apply: after
    the state check and the code exchange it fetches the Graph profile and,
    if there is one, hands it to [handleMicrosoftSsoCallback] with a tenant
    taken from the organization look-up, else from the configuration, else
    "unknown"; what the login does to the accounts is what
    [handleMicrosoftSsoCallback] does with that profile. *)
Theorem handleCallback_without_id_token (code state : string)
    (ipAddress userAgent : option string) (uuid : string) (now : Z)
    (w w0 w1 : World) (tokenResponse : MicrosoftTokenResponse) :
  MicrosoftAuth.validateState state now w = (true, w0) ->
  MicrosoftAuth.exchangeCodeForToken env code w0 = (Some tokenResponse, w1) ->
  JS.truthy_opt (id_token tokenResponse) = false ->
  let accessToken := access_token tokenResponse in
  let organization := JS.or_else (graph_organization accessToken) None in
  let tenant :=
    if JS.truthy_opt organization then default "" organization
    else JS.or_default (tenantId <$> MicrosoftAuth.getConfig env) "unknown" in
  let r := MicrosoftAuth.handleCallback env code state ipAddress userAgent uuid now w in
  r = match graph_me accessToken with
      | None =>
          (failure "Failed to fetch Microsoft profile",
           with_calls (calls w1 ++ [CallGraphMe accessToken]) w1)
      | Some profile =>
          AuthService.handleMicrosoftSsoCallback profile tenant ipAddress userAgent uuid now
            (with_calls (calls w1 ++ [CallGraphMe accessToken;
                                      CallGraphOrganization accessToken]) w1)
      end
  /\ calls (snd r)
     = (calls w ++ CallTokenEndpoint code :: CallGraphMe accessToken
          :: match graph_me accessToken with
             | Some _ => [CallGraphOrganization accessToken]
             | None => []
             end)%list
  /\ (forall c, In c (calls (snd r)) -> is_verification c = true -> In c (calls w)).
Proof.
  intros Hv Hex Hid accessToken organization tenant r.
  assert (Hr : r = match graph_me accessToken with
      | None =>
          (failure "Failed to fetch Microsoft profile",
           with_calls (calls w1 ++ [CallGraphMe accessToken]) w1)
      | Some profile =>
          AuthService.handleMicrosoftSsoCallback profile tenant ipAddress userAgent uuid now
            (with_calls (calls w1 ++ [CallGraphMe accessToken;
                                      CallGraphOrganization accessToken]) w1)
      end).
  { subst r. unfold MicrosoftAuth.handleCallback.
    unfold bind at 1. rewrite Hv. cbn [fst snd negb].
    unfold bind at 1. rewrite Hex. cbn [fst snd]. rewrite Hid.
    unfold bind at 1. cbn [andb fst snd ret].
    unfold MicrosoftAuth.getUserProfile. step_handler. fold accessToken.
    destruct (graph_me accessToken) as [profile|]; [|reflexivity].
    unfold MicrosoftAuth.resolveTenantId, MicrosoftAuth.getOrganizationTenantId.
    cbn [mbind option_bind JS.truthy_opt MicrosoftAuth.email_mismatch]. step_handler.
    fold accessToken. fold organization.
    rewrite <- app_assoc. cbn [app].
    subst tenant. by destruct (JS.truthy_opt organization). }
  assert (Hcalls : calls w1 = (calls w ++ [CallTokenEndpoint code])%list).
  { rewrite (exchangeCodeForToken_inv _ _ _ _ Hex). cbn.
    pose proof (validateState_tables state now w) as [_ Hc].
    rewrite Hv in Hc. cbn in Hc. by rewrite Hc. }
  assert (Hc : calls (snd r)
     = (calls w ++ CallTokenEndpoint code :: CallGraphMe accessToken
          :: match graph_me accessToken with
             | Some _ => [CallGraphOrganization accessToken]
             | None => []
             end)%list).
  { rewrite Hr. destruct (graph_me accessToken) as [profile|].
    - rewrite handleMicrosoftSsoCallback_calls. cbn. rewrite Hcalls.
      by rewrite <- app_assoc.
    - cbn. rewrite Hcalls. by rewrite <- app_assoc. }
  split; [exact Hr|]. split; [exact Hc|].
  intros c Hin Hverif. rewrite Hc in Hin.
  apply in_app_or in Hin as [Hin|Hin]; [exact Hin|].
  exfalso. destruct (graph_me accessToken); cbn in Hin;
    repeat (destruct Hin as [<-|Hin]; [discriminate Hverif|]); exact Hin.
Qed.

(** C3, as the code has it.  When the ID token was verified, its e-mail
    claim (or, if that is missing or empty, its [preferred_username]) is
    not empty, the fetched profile has a non-empty [mail] field, and the
    two differ after lower-casing, the login fails with "Authentication
    data mismatch" before the account binder is called: no account, token,
    policy, audit or CRM row is created or changed.  Profiles without a
    [mail] field are not cross-checked. *)
Theorem handleCallback_email_mismatch (code state : string)
    (ipAddress userAgent : option string) (uuid : string) (now : Z)
    (w w0 w1 w2 : World) (tokenResponse : MicrosoftTokenResponse)
    (idToken tokenEmail mail : string) (claims : IdTokenPayload) profile :
  MicrosoftAuth.validateState state now w = (true, w0) ->
  MicrosoftAuth.exchangeCodeForToken env code w0 = (Some tokenResponse, w1) ->
  id_token tokenResponse = Some idToken -> idToken <> "" ->
  MicrosoftAuth.verifyIdToken env idToken now w1 = (Some claims, w2) ->
  graph_me (access_token tokenResponse) = Some profile ->
  Profile.mail profile = Some mail -> mail <> "" ->
  JS.or_else (claim_email claims) (preferred_username claims) = Some tokenEmail ->
  tokenEmail <> "" ->
  JS.toLowerCase tokenEmail <> JS.toLowerCase mail ->
  let r := MicrosoftAuth.handleCallback env code state ipAddress userAgent uuid now w in
  fst r = failure "Authentication data mismatch"
  /\ tables (snd r) = tables w.
Proof.
  intros Hv Hex Hid Hne Hver Hme Hmail Hmne Hte Htne Hdiff r.
  assert (Ht : forall s, s <> "" -> JS.truthy s = true).
  { intros s Hs. unfold JS.truthy. by apply negb_true_iff, String.eqb_neq. }
  assert (Hmis : MicrosoftAuth.email_mismatch (Some claims) profile = true).
  { unfold MicrosoftAuth.email_mismatch. rewrite Hmail, Hte. cbn.
    rewrite (Ht _ Hmne), (Ht _ Htne). cbn.
    apply negb_true_iff, String.eqb_neq, Hdiff. }
  set (w3 := with_calls (calls w2 ++ [CallGraphMe (access_token tokenResponse)]) w2).
  assert (Hr : r = (failure "Authentication data mismatch",
                    snd (MicrosoftAuth.resolveTenantId env (Some claims)
                           (access_token tokenResponse) w3))).
  { subst r. unfold MicrosoftAuth.handleCallback.
    unfold bind at 1. rewrite Hv. cbn [fst snd negb].
    unfold bind at 1. rewrite Hex. cbn [fst snd]. rewrite Hid.
    cbn [JS.truthy_opt default]. unfold id. rewrite (Ht _ Hne).
    unfold bind at 1. rewrite Hver. cbn [fst snd JS.defined negb andb].
    unfold MicrosoftAuth.getUserProfile.
    cbv beta iota delta [bind ret modify record_call fst snd].
    rewrite Hme. cbv beta iota. rewrite Hmis. reflexivity. }
  rewrite Hr. cbn [fst snd]. split; [reflexivity|].
  rewrite resolveTenantId_tables.
  pose proof (verifyIdToken_tables idToken now w1) as Hvt. rewrite Hver in Hvt.
  pose proof (validateState_tables state now w) as [Hst _]. rewrite Hv in Hst.
  rewrite (exchangeCodeForToken_inv _ _ _ _ Hex) in Hvt.
  subst w3. unfold tables in *. cbn in *. congruence.
Qed.

End Callback.

Lemma handleCallback_without_id_token_witness :
  let r := @MicrosoftAuth.handleCallback Fixture.demo_jwt Fixture.demo_idp Fixture.demo_env
             "code-c" "5f3a" None None "u-new" 2000 Fixture.awaiting_callback in
  r = AuthService.handleMicrosoftSsoCallback Fixture.alice "contoso" None None "u-new" 2000
        (with_calls [CallTokenEndpoint "code-c"; CallGraphMe "at-c";
                     CallGraphOrganization "at-c"]
           (with_pending ∅ Fixture.awaiting_callback))
  /\ success (fst r) = true
  /\ calls (snd r)
     = [CallTokenEndpoint "code-c"; CallGraphMe "at-c"; CallGraphOrganization "at-c"].
Proof.
  intros r.
  destruct (@handleCallback_without_id_token Fixture.demo_jwt Fixture.demo_idp
              Fixture.demo_env "code-c" "5f3a" None None "u-new" 2000
              Fixture.awaiting_callback
              (with_pending ∅ Fixture.awaiting_callback)
              (with_calls [CallTokenEndpoint "code-c"]
                 (with_pending ∅ Fixture.awaiting_callback))
              (mkTokenResponse "at-c" "Bearer" 3600 "openid" None)
              eq_refl eq_refl eq_refl) as (Hr & Hc & _).
  split; [exact Hr|]. split; [|exact Hc].
  subst r. rewrite Hr. reflexivity.
Defined.

(** C3, the login on which the claim as written fails: the verified ID
    token names alice@acme.com, the profile fetched with the access token
    has no mailbox and the principal name mallory@acme.com; the login
    succeeds and creates an account for mallory@acme.com. *)
Lemma handleCallback_unchecked_principal_name :
  let w := Fixture.awaiting_callback in
  let r := @MicrosoftAuth.handleCallback Fixture.demo_jwt Fixture.demo_idp Fixture.demo_env
             "code-a" "5f3a" None None "u-new" 2000 w in
  fst (@MicrosoftAuth.verifyIdToken Fixture.demo_jwt Fixture.demo_env "jwt-alice" 2000 w)
    = Some Fixture.claims_alice
  /\ claim_email Fixture.claims_alice = Some "alice@acme.com"
  /\ (AuthService.profile_email <$> @graph_me Fixture.demo_idp "at-a")
     = Some "mallory@acme.com"
  /\ success (fst r) = true
  /\ (User.email <$> user (fst r)) = Some (Some "mallory@acme.com")
  /\ (User.email <$> last (users (snd r))) = Some (Some "mallory@acme.com")
  /\ length (users (snd r)) = S (length (users w)).
Proof. vm_compute. repeat split. Qed.

Lemma handleCallback_email_mismatch_witness :
  let w := Fixture.awaiting_callback in
  let r := @MicrosoftAuth.handleCallback Fixture.demo_jwt Fixture.demo_idp Fixture.demo_env
             "code-b" "5f3a" None None "u-new" 2000 w in
  JS.toLowerCase "alice@acme.com" <> JS.toLowerCase "mallory@acme.com"
  /\ fst r = failure "Authentication data mismatch"
  /\ users (snd r) = users w.
Proof.
  intros w r.
  assert (Hdiff : JS.toLowerCase "alice@acme.com" <> JS.toLowerCase "mallory@acme.com")
    by discriminate.
  split; [exact Hdiff|].
  destruct (@handleCallback_email_mismatch Fixture.demo_jwt Fixture.demo_idp
              Fixture.demo_env "code-b" "5f3a" None None "u-new" 2000
              Fixture.awaiting_callback
              (with_pending ∅ Fixture.awaiting_callback)
              (with_calls [CallTokenEndpoint "code-b"]
                 (with_pending ∅ Fixture.awaiting_callback))
              (snd (@MicrosoftAuth.verifyIdToken Fixture.demo_jwt Fixture.demo_env
                      "jwt-alice" 2000
                      (with_calls [CallTokenEndpoint "code-b"]
                         (with_pending ∅ Fixture.awaiting_callback))))
              (mkTokenResponse "at-b" "Bearer" 3600 "openid" (Some "jwt-alice"))
              "jwt-alice" "alice@acme.com" "mallory@acme.com" Fixture.claims_alice
              (Fixture.graph_profile "g-mallory" "mallory@acme.com" "Mallory")
              eq_refl eq_refl eq_refl ltac:(discriminate) eq_refl eq_refl eq_refl
              ltac:(discriminate) eq_refl ltac:(discriminate) Hdiff) as (Hf & Ht).
  split; [exact Hf|]. exact (f_equal (fun t => fst (fst (fst (fst t)))) Ht).
Defined.

(* ================================================================= *)
(** * Further properties of the service *)

(** ** Look-ups in the [users] table *)

Section Lookups.
Implicit Types (l : list User.t) (u n : User.t) (e : string).

Lemma find_by_email_new l n e :
  find (by_email e) l = None -> User.email n = Some e ->
  find (by_email e) (l ++ [n]) = Some n.
Proof.
  intros Hnone Hn. induction l as [|a l IH]; simpl in *.
  - unfold by_email, opt_eqb. by rewrite Hn, String.eqb_refl.
  - destruct (by_email e a); [discriminate|]. by apply IH.
Qed.

Lemma find_by_email_map (g : User.t -> User.t) l e :
  (forall u, User.email (g u) = User.email u) ->
  find (by_email e) (map g l) = g <$> find (by_email e) l.
Proof.
  intros Hg. induction l as [|a l IH]; simpl; [reflexivity|].
  unfold by_email at 1. rewrite Hg. fold (by_email e a).
  destruct (by_email e a); [reflexivity|exact IH].
Qed.

Lemma find_by_id_map_any (g : User.t -> User.t) l (i : string) :
  (forall u, User.id (g u) = User.id u) ->
  find (by_id i) (map g l) = g <$> find (by_id i) l.
Proof.
  intros Hg. induction l as [|a l IH]; simpl; [reflexivity|].
  unfold by_id at 1. rewrite Hg. fold (by_id i a).
  destruct (by_id i a); [reflexivity|exact IH].
Qed.

Lemma find_by_id_eq l (i : string) u : find (by_id i) l = Some u -> User.id u = i.
Proof.
  intros Hf. apply find_some in Hf as [_ Hi]. by apply String.eqb_eq in Hi.
Qed.

(** Lower-casing is idempotent, and exact on the upper half of the
    character range: U+00C9 (201) goes to U+00E9 (233), while the
    multiplication sign (215), the sharp s (223) and U+00FF stay. *)
Lemma lower_char_idem (c : ascii) : JS.lower_char (JS.lower_char c) = JS.lower_char c.
Proof. by destruct c as [[] [] [] [] [] [] [] []]. Qed.

Lemma toLowerCase_idem (s : string) : JS.toLowerCase (JS.toLowerCase s) = JS.toLowerCase s.
Proof. induction s as [|c s IH]; cbn; [done|]. by rewrite lower_char_idem, IH. Qed.

Example lower_char_upper_half :
  map (fun code : nat => nat_of_ascii (JS.lower_char (ascii_of_nat code)))
      [65; 90; 201; 215; 222; 223; 255]%nat
  = [97; 122; 233; 215; 254; 223; 255]%nat.
Proof. reflexivity. Qed.

Lemma truthy_nonempty (s : string) : s <> "" -> JS.truthy s = true.
Proof. intros Hs. unfold JS.truthy. by apply negb_true_iff, String.eqb_neq. Qed.

End Lookups.

(** ** Registration and password reset *)

Section Registration.
Context `{Bcrypt}.
Implicit Types (w : World) (u : User.t).

(** X1.  A registration succeeds exactly when no account has the
    lower-cased address and the password has at least 8 characters; an
    address already on file is reported even when the password is too
    short as well; a refused registration writes nothing. *)
Theorem registerLocalUser_outcomes (email password : string)
    (firstName lastName : option string) (salt uuid : string) (now : Z) w :
  let r := AuthService.registerLocalUser email password firstName lastName salt uuid now w in
  (success (fst r) = true <->
     find (by_email (JS.toLowerCase email)) (users w) = None
     /\ (8 <= String.length password)%nat)
  /\ (is_Some (find (by_email (JS.toLowerCase email)) (users w)) ->
      fst r = failure "Email already registered")
  /\ (success (fst r) = false -> snd r = w).
Proof.
  intros r. subst r. unfold AuthService.registerLocalUser. step_handler.
  fold (by_email (JS.toLowerCase email)).
  destruct (find (by_email (JS.toLowerCase email)) (users w)) as [u|]; cbn [JS.defined].
  - cbn. split; [split; [discriminate|intros [? _]; discriminate]|]. split; [done|done].
  - destruct (Nat.ltb_spec (String.length password) 8); cbn.
    + split; [split; [discriminate|intros [_ ?]; lia]|].
      split; [intros [? ?]; discriminate|done].
    + split; [split; [done|done]|]. split; [intros [? ?]; discriminate|discriminate].
Qed.

(** X2.  Whoever registered can log in: after a successful registration,
    a login with the same password and an address that lower-cases to the
    registered one succeeds and returns the registered account. *)
Theorem register_then_login (email email' password : string)
    (firstName lastName ipAddress userAgent : option string) (salt uuid : string)
    (now now' : Z) w :
  find (by_email (JS.toLowerCase email)) (users w) = None ->
  (8 <= String.length password)%nat ->
  AuthService.verifyPassword password (AuthService.hashPassword salt password) = true ->
  AuthService.hashPassword salt password <> "" ->
  JS.toLowerCase email' = JS.toLowerCase email ->
  let r := AuthService.registerLocalUser email password firstName lastName salt uuid now w in
  let r' := AuthService.loginLocalUser email' password ipAddress userAgent now' (snd r) in
  success (fst r) = true
  /\ success (fst r') = true
  /\ user (fst r') = user (fst r)
  /\ (User.email <$> user (fst r')) = Some (Some (JS.toLowerCase email)).
Proof.
  intros Hnone Hlen Hok Hne Hcase r r'.
  set (n := AuthService.registered uuid (JS.toLowerCase email)
              (AuthService.hashPassword salt password) firstName lastName now).
  assert (Hr : r = (mkLoginResult true (Some n) None,
                    with_audit (authAuditLog w ++
                                  [Audit.mk (Some uuid) (Some (JS.toLowerCase email))
                                            "register" (Some local) true None None None
                                            None])
                               (with_users (users w ++ [n]) w))).
  { subst r. unfold AuthService.registerLocalUser. step_handler.
    fold (by_email (JS.toLowerCase email)). rewrite Hnone. cbn [JS.defined].
    destruct (Nat.ltb_spec (String.length password) 8); [lia|reflexivity]. }
  subst r'. rewrite Hr. cbn [fst snd success user]. split; [reflexivity|].
  unfold AuthService.loginLocalUser. step_handler. rewrite Hcase.
  fold (by_email (JS.toLowerCase email)).
  rewrite (find_by_email_new (users w) n (JS.toLowerCase email) Hnone eq_refl).
  cbn [n AuthService.registered User.isDisabled User.passwordHash JS.truthy_opt negb
       default from_option].
  unfold id. rewrite (truthy_nonempty _ Hne), Hok. cbn. auto.
Qed.

(** X3.  A reset token is handed out exactly when an account of origin
    [local] has the address; for an unknown address the call reports
    success without a token, for an account of another origin it fails,
    and in both cases nothing is written. *)
Theorem createPasswordResetToken_issues_iff_local (email token uuid : string) (now : Z) w :
  let r := AuthService.createPasswordResetToken email token uuid now w in
  let found := find (by_email (JS.toLowerCase email)) (users w) in
  (AuthService.token_value (fst r) = Some token <->
     exists u, found = Some u /\ User.authProvider u = local)
  /\ (found = None -> r = (AuthService.mkTokenResult true None None, w))
  /\ (forall u, found = Some u -> User.authProvider u <> local ->
        r = (AuthService.mkTokenResult false None
               (Some "This account uses SSO. Password reset is not available."), w))
  /\ (forall u, found = Some u -> User.authProvider u = local ->
        passwordResetTokens (snd r)
        = (passwordResetTokens w
           ++ [ResetToken.mk uuid (User.id u) token (now + 86400000) None (Some now)])%list
        /\ users (snd r) = users w).
Proof.
  intros r found. subst r. unfold AuthService.createPasswordResetToken.
  unfold AuthService.insert_token. step_handler.
  fold (by_email (JS.toLowerCase email)). fold found.
  destruct found as [u|]; cbn.
  - destruct (User.authProvider u) eqn:E; cbn.
    + split; [split; [intros _; by exists u|done]|].
      split; [discriminate|]. split; [intros ? [= <-] ?; congruence|].
      intros ? [= <-] _. done.
    + split; [split; [discriminate|intros (? & [= <-] & ?); congruence]|].
      split; [discriminate|]. split; [done|]. intros ? [= <-] ?. congruence.
    + split; [split; [discriminate|intros (? & [= <-] & ?); congruence]|].
      split; [discriminate|]. split; [done|]. intros ? [= <-] ?. congruence.
  - split; [split; [discriminate|intros (? & ? & _); discriminate]|].
    split; [done|]. split; intros; discriminate.
Qed.

End Registration.

Lemma register_then_login_witness :
  let r := @AuthService.registerLocalUser Fixture.demo_bcrypt "Zoe@Acme.com" "open sesame"
             (Some "Zoe") None "s9" "u-zoe" 7000 Fixture.staff in
  let r' := @AuthService.loginLocalUser Fixture.demo_bcrypt "zoe@ACME.com" "open sesame"
              None None 8000 (snd r) in
  success (fst r') = true
  /\ (User.email <$> user (fst r')) = Some (Some "zoe@acme.com").
Proof.
  intros r r'.
  destruct (@register_then_login Fixture.demo_bcrypt "Zoe@Acme.com" "zoe@ACME.com"
              "open sesame" (Some "Zoe") None None None "s9" "u-zoe" 7000 8000
              Fixture.staff eq_refl) as (_ & Hl & _ & He).
  - simpl. lia.
  - reflexivity.
  - discriminate.
  - reflexivity.
  - split; [exact Hl|exact He].
Defined.

Section ResetFlow.
Context `{Bcrypt}.
Implicit Types (w : World) (u : User.t).

Lemma find_token_new (l : list ResetToken.t) (t : ResetToken.t) :
  find (fun t' => String.eqb (ResetToken.token t') (ResetToken.token t)) l = None ->
  find (fun t' => String.eqb (ResetToken.token t') (ResetToken.token t)) (l ++ [t]) = Some t.
Proof.
  intros Hnone. induction l as [|a l IH]; simpl in *.
  - by rewrite String.eqb_refl.
  - destruct (String.eqb (ResetToken.token a) (ResetToken.token t)); [discriminate|].
    by apply IH.
Qed.

(** What [createPasswordResetToken] leaves behind for a local account. *)
Lemma createPasswordResetToken_local (email token uuid : string) (now : Z) w u :
  find (by_email (JS.toLowerCase email)) (users w) = Some u ->
  User.authProvider u = local ->
  AuthService.createPasswordResetToken email token uuid now w
  = (AuthService.mkTokenResult true (Some token) None,
     with_audit (authAuditLog w ++
                   [Audit.mk (Some (User.id u)) (User.email u) "password_reset_request"
                             (Some local) true None None None None])
       (with_tokens (passwordResetTokens w ++
                       [ResetToken.mk uuid (User.id u) token (now + 86400000) None
                                      (Some now)]) w)).
Proof.
  intros Hf Hl. unfold AuthService.createPasswordResetToken, AuthService.insert_token.
  step_handler. fold (by_email (JS.toLowerCase email)). rewrite Hf, Hl. reflexivity.
Qed.

(** A redemption that passes every check. *)
Lemma resetPassword_ok (token newPassword salt : string) (now : Z) w (t : ResetToken.t) :
  find (fun t' => String.eqb (ResetToken.token t') token) (passwordResetTokens w) = Some t ->
  ResetToken.usedAt t = None ->
  now <= ResetToken.expiresAt t ->
  (8 <= String.length newPassword)%nat ->
  AuthService.resetPassword token newPassword salt now w
  = (AuthService.reset_ok,
     with_audit (authAuditLog w ++ [AuthService.password_reset_complete (ResetToken.userId t)])
       (with_tokens (map (mark_used (ResetToken.id t) now) (passwordResetTokens w))
          (with_users
             (map (fun x => if by_id (ResetToken.userId t) x
                            then AuthService.set_password
                                   (AuthService.hashPassword salt newPassword) now x
                            else x) (users w)) w))).
Proof.
  intros Hf Hu Hexp Hlen. unfold AuthService.resetPassword. step_handler.
  rewrite Hf, Hu. cbn [JS.defined].
  destruct (Z.gtb_spec now (ResetToken.expiresAt t)); [lia|].
  destruct (Nat.ltb_spec (String.length newPassword) 8); [lia|reflexivity].
Qed.

(** A login that passes every check. *)
Lemma loginLocalUser_ok (email password hash : string)
    (ipAddress userAgent : option string) (now : Z) w u :
  find (by_email (JS.toLowerCase email)) (users w) = Some u ->
  User.isDisabled u = false ->
  User.passwordHash u = Some hash -> hash <> "" ->
  AuthService.verifyPassword password hash = true ->
  AuthService.loginLocalUser email password ipAddress userAgent now w
  = (mkLoginResult true (Some u) None,
     with_audit (authAuditLog w ++
                   [Audit.mk (Some (User.id u)) (User.email u) "login" (Some local) true
                             None ipAddress userAgent None])
       (with_users (map (fun x => if by_id (User.id u) x
                                  then AuthService.set_lastLoginAt now x else x)
                        (users w)) w)).
Proof.
  intros Hf Hen Hp Hne Hok. unfold AuthService.loginLocalUser. step_handler.
  fold (by_email (JS.toLowerCase email)). rewrite Hf, Hen, Hp.
  cbn [JS.truthy_opt default from_option]. unfold id.
  rewrite (truthy_nonempty _ Hne), Hok. reflexivity.
Qed.

(** X4.  The forgotten-password flow ends in a working login: for an
    enabled local account, a token requested at [t0] and redeemed no later
    than 24 hours afterwards with a password of at least 8 characters
    makes a login with the new password succeed, as the same account. *)
Theorem forgot_reset_login (email token uuid newPassword salt : string)
    (ipAddress userAgent : option string) (t0 t1 t2 : Z) w u :
  find (by_email (JS.toLowerCase email)) (users w) = Some u ->
  User.authProvider u = local ->
  User.isDisabled u = false ->
  find (fun t => String.eqb (ResetToken.token t) token) (passwordResetTokens w) = None ->
  t1 <= t0 + 24 * 60 * 60 * 1000 ->
  (8 <= String.length newPassword)%nat ->
  AuthService.verifyPassword newPassword (AuthService.hashPassword salt newPassword)
    = true ->
  AuthService.hashPassword salt newPassword <> "" ->
  let r0 := AuthService.createPasswordResetToken email token uuid t0 w in
  let r1 := AuthService.resetPassword token newPassword salt t1 (snd r0) in
  let r2 := AuthService.loginLocalUser email newPassword ipAddress userAgent t2 (snd r1) in
  AuthService.token_value (fst r0) = Some token
  /\ fst r1 = AuthService.reset_ok
  /\ success (fst r2) = true
  /\ (User.id <$> user (fst r2)) = Some (User.id u)
  /\ (User.passwordHash <$> user (fst r2))
     = Some (Some (AuthService.hashPassword salt newPassword)).
Proof.
  intros Hf Hl Hen Hfresh Ht Hlen Hok Hne r0 r1 r2.
  set (t := ResetToken.mk uuid (User.id u) token (t0 + 86400000) None (Some t0)).
  assert (H0 : r0 = (AuthService.mkTokenResult true (Some token) None,
                     with_audit (authAuditLog w ++
                        [Audit.mk (Some (User.id u)) (User.email u) "password_reset_request"
                                  (Some local) true None None None None])
                       (with_tokens (passwordResetTokens w ++ [t]) w)))
    by exact (createPasswordResetToken_local _ _ _ _ _ _ Hf Hl).
  assert (Hft : find (fun t' => String.eqb (ResetToken.token t') token)
                     (passwordResetTokens (snd r0)) = Some t).
  { rewrite H0. exact (find_token_new (passwordResetTokens w) t Hfresh). }
  assert (Hexp : t1 <= ResetToken.expiresAt t) by (cbn; lia).
  pose proof (resetPassword_ok token newPassword salt t1 (snd r0) t Hft eq_refl Hexp Hlen)
    as H1. fold r1 in H1.
  set (u' := AuthService.set_password (AuthService.hashPassword salt newPassword) t1 u).
  assert (Hfu : find (by_email (JS.toLowerCase email)) (users (snd r1)) = Some u').
  { rewrite H1, H0. cbn [fst snd users with_audit with_tokens with_users].
    rewrite find_by_email_map by (intros x; by destruct (by_id _ x)).
    rewrite Hf. cbn [fmap option_fmap option_map t ResetToken.userId].
    unfold by_id. by rewrite String.eqb_refl. }
  pose proof (loginLocalUser_ok email newPassword _ ipAddress userAgent t2 (snd r1) u' Hfu
                Hen eq_refl Hne Hok) as H2. fold r2 in H2.
  rewrite H2. split; [by rewrite H0|]. split; [by rewrite H1|].
  cbn. auto.
Qed.

(** X5.  A reset token lives for 24 hours: redeemed later than that after
    it was requested, an otherwise valid token is refused with "This reset
    token has expired", and neither the password nor the token changes. *)
Theorem reset_token_expires (email token uuid newPassword salt : string) (t0 t1 : Z) w u :
  find (by_email (JS.toLowerCase email)) (users w) = Some u ->
  User.authProvider u = local ->
  find (fun t => String.eqb (ResetToken.token t) token) (passwordResetTokens w) = None ->
  t0 + 24 * 60 * 60 * 1000 < t1 ->
  let r0 := AuthService.createPasswordResetToken email token uuid t0 w in
  AuthService.resetPassword token newPassword salt t1 (snd r0)
  = (AuthService.reset_failure "This reset token has expired", snd r0).
Proof.
  intros Hf Hl Hfresh Ht r0.
  subst r0. rewrite (createPasswordResetToken_local _ _ _ _ _ _ Hf Hl).
  cbn [fst snd].
  set (t := ResetToken.mk uuid (User.id u) token (t0 + 86400000) None (Some t0)).
  unfold AuthService.resetPassword. step_handler.
  change token with (ResetToken.token t) at 1.
  rewrite (find_token_new (passwordResetTokens w) t Hfresh).
  cbn [t ResetToken.usedAt ResetToken.expiresAt JS.defined].
  destruct (Z.gtb_spec t1 (t0 + 86400000)); [reflexivity|lia].
Qed.

End ResetFlow.

Lemma forgot_reset_login_witness :
  let r0 := AuthService.createPasswordResetToken "Ann@acme.com" "c0ffee" "t-9" 10000
              Fixture.staff_with_tokens in
  let r1 := @AuthService.resetPassword Fixture.demo_bcrypt "c0ffee" "brand new secret" "s4"
              50000 (snd r0) in
  let r2 := @AuthService.loginLocalUser Fixture.demo_bcrypt "ann@acme.com"
              "brand new secret" None None 60000 (snd r1) in
  fst r1 = AuthService.reset_ok /\ success (fst r2) = true.
Proof.
  intros r0 r1 r2.
  destruct (@forgot_reset_login Fixture.demo_bcrypt "Ann@acme.com" "c0ffee" "t-9"
              "brand new secret" "s4" None None 10000 50000 60000
              Fixture.staff_with_tokens Fixture.ann eq_refl eq_refl eq_refl eq_refl)
    as (_ & H1 & H2 & _).
  - lia.
  - simpl. lia.
  - reflexivity.
  - discriminate.
  - split; [exact H1|exact H2].
Defined.

Lemma reset_token_expires_witness :
  let r0 := AuthService.createPasswordResetToken "Ann@acme.com" "c0ffee" "t-9" 10000
              Fixture.staff_with_tokens in
  fst (@AuthService.resetPassword Fixture.demo_bcrypt "c0ffee" "brand new secret" "s4"
         86410001 (snd r0))
  = AuthService.reset_failure "This reset token has expired".
Proof.
  intros r0.
  refine (f_equal fst (@reset_token_expires Fixture.demo_bcrypt "Ann@acme.com" "c0ffee"
                         "t-9" "brand new secret" "s4" 10000 86410001
                         Fixture.staff_with_tokens Fixture.ann eq_refl eq_refl eq_refl _)).
  lia.
Defined.

(** ** Administration of accounts *)

Section Administration.
Context `{Bcrypt}.
Implicit Types (w : World) (u : User.t) (userId : string).

Lemma disableUser_found userId (now : Z) w u :
  find (by_id userId) (users w) = Some u ->
  AuthService.disableUser userId now w
  = (AuthService.reset_ok,
     with_audit (authAuditLog w ++
                   [Audit.mk (Some userId) (User.email u) "user_disabled" None true None
                             None None None])
       (with_users (rewrite_account userId (AuthService.set_isDisabled true now) (users w))
                   w)).
Proof.
  intros Hf. unfold AuthService.disableUser. step_handler.
  unfold by_id in Hf. by rewrite Hf.
Qed.

Lemma enableUser_found userId (now : Z) w u :
  find (by_id userId) (users w) = Some u ->
  AuthService.enableUser userId now w
  = (AuthService.reset_ok,
     with_audit (authAuditLog w ++
                   [Audit.mk (Some userId) (User.email u) "user_enabled" None true None
                             None None None])
       (with_users (rewrite_account userId (AuthService.set_isDisabled false now) (users w))
                   w)).
Proof.
  intros Hf. unfold AuthService.enableUser. step_handler.
  unfold by_id in Hf. by rewrite Hf.
Qed.

Lemma linkMicrosoftAccount_found userId (microsoftUserId tenantId : string) (now : Z) w u :
  find (by_id userId) (users w) = Some u ->
  AuthService.linkMicrosoftAccount userId microsoftUserId tenantId now w
  = (AuthService.reset_ok,
     with_audit (authAuditLog w ++
                   [Audit.mk (Some userId) (User.email u) "microsoft_account_linked"
                             (Some microsoft) true None None None
                             (Some [("tenantId", tenantId);
                                    ("microsoftUserId", microsoftUserId)])])
       (with_users (rewrite_account userId
                      (AuthService.set_microsoft_link microsoftUserId tenantId now)
                      (users w)) w)).
Proof.
  intros Hf. unfold AuthService.linkMicrosoftAccount. step_handler.
  unfold by_id in Hf. by rewrite Hf.
Qed.

Lemma unlinkMicrosoftAccount_found userId (now : Z) w u :
  find (by_id userId) (users w) = Some u ->
  AuthService.unlinkMicrosoftAccount userId now w
  = if AuthProvider_eqb (User.authProvider u) microsoft
       && negb (JS.truthy_opt (User.passwordHash u))
    then (AuthService.reset_failure
            "Cannot unlink Microsoft account without setting a password first", w)
    else (AuthService.reset_ok,
          with_audit (authAuditLog w ++
                        [Audit.mk (Some userId) (User.email u) "microsoft_account_unlinked"
                                  (Some local) true None None None None])
            (with_users (rewrite_account userId (AuthService.clear_microsoft_link now)
                           (users w)) w)).
Proof.
  intros Hf. unfold AuthService.unlinkMicrosoftAccount. step_handler.
  unfold by_id in Hf. rewrite Hf. by destruct (_ && _).
Qed.

Lemma find_rewrite_account userId (g : User.t -> User.t) (l : list User.t) :
  (forall x, User.id (g x) = User.id x) ->
  find (by_id userId) (rewrite_account userId g l) = g <$> find (by_id userId) l.
Proof.
  intros Hg. unfold rewrite_account. induction l as [|a l IH]; simpl; [reflexivity|].
  destruct (by_id userId a) eqn:E.
  - unfold by_id in *. by rewrite Hg, E.
  - by rewrite E.
Qed.

Lemma rewrite_account_twice userId (g g' : User.t -> User.t) (l : list User.t) :
  (forall x, User.id (g x) = User.id x) ->
  rewrite_account userId g' (rewrite_account userId g l)
  = rewrite_account userId (fun x => g' (g x)) l.
Proof.
  intros Hg. unfold rewrite_account. rewrite map_map. apply map_ext. intros a.
  destruct (by_id userId a) eqn:E; [|by rewrite E].
  unfold by_id in *. by rewrite Hg, E.
Qed.

(** X6.  The four administrative operations on an id that no account has
    fail with "User not found" and write nothing, not even an audit
    event. *)
Theorem admin_ops_unknown_account userId (microsoftUserId tenantId : string) (now : Z) w :
  find (by_id userId) (users w) = None ->
  AuthService.linkMicrosoftAccount userId microsoftUserId tenantId now w
    = (AuthService.reset_failure "User not found", w)
  /\ AuthService.unlinkMicrosoftAccount userId now w
     = (AuthService.reset_failure "User not found", w)
  /\ AuthService.disableUser userId now w = (AuthService.reset_failure "User not found", w)
  /\ AuthService.enableUser userId now w = (AuthService.reset_failure "User not found", w).
Proof.
  intros Hf. unfold by_id in Hf.
  unfold AuthService.linkMicrosoftAccount, AuthService.unlinkMicrosoftAccount,
    AuthService.disableUser, AuthService.enableUser.
  step_handler. rewrite Hf. auto.
Qed.

(** X7.  Unlinking never strips a federated account of its only way in:
    whenever [unlinkMicrosoftAccount] succeeds on an account of origin
    [microsoft], that account has a password.  After a successful unlink
    every row with the id has origin [local] and no Microsoft ids, and no
    password hash has changed; a refused unlink writes nothing. *)
Theorem unlinkMicrosoftAccount_keeps_a_login_path userId (now : Z) w u :
  find (by_id userId) (users w) = Some u ->
  let r := AuthService.unlinkMicrosoftAccount userId now w in
  (fst r = AuthService.reset_ok ->
     (User.authProvider u = microsoft -> JS.truthy_opt (User.passwordHash u) = true)
     /\ Forall (fun x => User.id x = userId ->
                         User.authProvider x = local
                         /\ User.microsoftUserId x = None
                         /\ User.microsoftTenantId x = None) (users (snd r))
     /\ map User.passwordHash (users (snd r)) = map User.passwordHash (users w))
  /\ (fst r <> AuthService.reset_ok -> snd r = w).
Proof.
  intros Hf r. subst r. rewrite (unlinkMicrosoftAccount_found _ _ _ _ Hf).
  destruct (AuthProvider_eqb (User.authProvider u) microsoft
            && negb (JS.truthy_opt (User.passwordHash u))) eqn:E; cbn [fst snd].
  - split; [discriminate|reflexivity].
  - split; [|done]. intros _. split.
    + intros Hm. rewrite Hm in E. cbn in E. by destruct (JS.truthy_opt _).
    + cbn [users with_audit with_users]. unfold rewrite_account. split.
      * apply List.Forall_forall. intros x Hin. apply in_map_iff in Hin as (a & <- & _).
        destruct (by_id userId a) eqn:Ea; [by cbn|].
        intros Hx. unfold by_id in Ea. apply String.eqb_neq in Ea. contradiction.
      * rewrite map_map. apply map_ext. intros a. by destruct (by_id userId a).
Qed.

(** X8.  Linking is undone by unlinking: whenever an unlink of the account
    would succeed, linking it first and unlinking it afterwards succeeds as
    well and leaves the [users] table as the unlink alone would. *)
Theorem link_then_unlink userId (microsoftUserId tenantId : string) (now now' : Z) w :
  fst (AuthService.unlinkMicrosoftAccount userId now' w) = AuthService.reset_ok ->
  let linked := AuthService.linkMicrosoftAccount userId microsoftUserId tenantId now w in
  let r := AuthService.unlinkMicrosoftAccount userId now' (snd linked) in
  fst linked = AuthService.reset_ok
  /\ fst r = AuthService.reset_ok
  /\ users (snd r) = users (snd (AuthService.unlinkMicrosoftAccount userId now' w)).
Proof.
  intros Hok linked r.
  destruct (find (by_id userId) (users w)) as [u|] eqn:Hf.
  2:{ destruct (admin_ops_unknown_account userId microsoftUserId tenantId now' w Hf)
        as (_ & Hu & _). rewrite Hu in Hok. discriminate. }
  rewrite (unlinkMicrosoftAccount_found _ _ _ _ Hf) in Hok |- *.
  destruct (AuthProvider_eqb (User.authProvider u) microsoft
            && negb (JS.truthy_opt (User.passwordHash u))) eqn:E; [discriminate|].
  subst r linked. rewrite (linkMicrosoftAccount_found _ _ _ _ _ _ Hf).
  cbn [fst snd]. split; [reflexivity|].
  set (u' := AuthService.set_microsoft_link microsoftUserId tenantId now u).
  assert (Hf' : find (by_id userId)
                  (rewrite_account userId
                     (AuthService.set_microsoft_link microsoftUserId tenantId now) (users w))
                = Some u').
  { rewrite find_rewrite_account by reflexivity. by rewrite Hf. }
  rewrite (unlinkMicrosoftAccount_found userId now'
             (with_audit _ (with_users _ w)) u' Hf').
  cbn [u' AuthService.set_microsoft_link User.authProvider User.passwordHash].
  rewrite E. cbn [fst snd users with_audit with_users]. split; [reflexivity|].
  rewrite rewrite_account_twice by reflexivity. reflexivity.
Qed.

End Administration.

Lemma admin_ops_unknown_account_witness :
  AuthService.disableUser "u-nobody" 7000 Fixture.staff
  = (AuthService.reset_failure "User not found", Fixture.staff).
Proof.
  exact (proj1 (proj2 (proj2 (admin_ops_unknown_account "u-nobody" "g-x" "tenant-1" 7000
                                Fixture.staff eq_refl)))).
Defined.

Lemma unlinkMicrosoftAccount_keeps_a_login_path_witness :
  fst (AuthService.unlinkMicrosoftAccount "u-sam" 7000 Fixture.staff)
    <> AuthService.reset_ok
  /\ snd (AuthService.unlinkMicrosoftAccount "u-sam" 7000 Fixture.staff) = Fixture.staff.
Proof.
  assert (Hne : fst (AuthService.unlinkMicrosoftAccount "u-sam" 7000 Fixture.staff)
                <> AuthService.reset_ok) by discriminate.
  split; [exact Hne|].
  exact (proj2 (unlinkMicrosoftAccount_keeps_a_login_path "u-sam" 7000 Fixture.staff
                  Fixture.sam eq_refl) Hne).
Defined.

Lemma link_then_unlink_witness :
  let linked := AuthService.linkMicrosoftAccount "u-ann" "g-ann" "tenant-1" 7000
                  Fixture.staff in
  users (snd (AuthService.unlinkMicrosoftAccount "u-ann" 8000 (snd linked)))
  = users (snd (AuthService.unlinkMicrosoftAccount "u-ann" 8000 Fixture.staff)).
Proof.
  exact (proj2 (proj2 (link_then_unlink "u-ann" "g-ann" "tenant-1" 7000 8000
                         Fixture.staff eq_refl))).
Defined.

(** ** Disabled accounts and sessions *)

Section Lockout.
Context `{Bcrypt}.
Implicit Types (w : World) (u : User.t) (userId : string).

(** X9.  The session middleware and [isAuthenticated] follow the store: a
    request passes the gate exactly when its session names an account
    that is on file and not disabled; a session whose account is gone is
    answered 401, like a request without a session. *)
Theorem session_follows_store (sessionUserId : option string) w :
  let req := fst (Session.with_session sessionUserId w) in
  (fst (Session.isAuthenticated req) = Session.Next <->
     exists userId u, sessionUserId = Some userId
                      /\ find (by_id userId) (users w) = Some u
                      /\ User.isDisabled u = false)
  /\ ((forall userId, sessionUserId = Some userId -> find (by_id userId) (users w) = None) ->
      Session.isAuthenticated req = (Session.Status 401 "Unauthorized", req)).
Proof.
  intros req. subst req. destruct sessionUserId as [userId|]; cbn.
  - unfold Session.deserializeUser. step_handler. fold (by_id userId).
    destruct (find (by_id userId) (users w)) as [u|] eqn:Hf; cbn.
    + destruct (User.isDisabled u) eqn:Hd; cbn.
      * split; [split; [discriminate|]|].
        -- intros (? & ? & [= <-] & Hu & ?). congruence.
        -- intros Hn. specialize (Hn userId eq_refl). congruence.
      * split; [split; [intros _; by exists userId, u|done]|].
        intros Hn. specialize (Hn userId eq_refl). congruence.
    + split; [split; [discriminate|]|done].
      intros (? & ? & [= <-] & Hu & ?). congruence.
  - split; [split; [discriminate|]|done]. intros (? & ? & ? & _). discriminate.
Qed.

(** X10.  Disabling takes effect on the next request: once [disableUser]
    has succeeded for an account, a request carrying that account's
    session is answered 403 by [isAuthenticated] and its session is ended,
    and a local login to the account is refused as disabled whatever the
    password. *)
Theorem disableUser_locks_out userId (email password : string)
    (ipAddress userAgent : option string) (now now' : Z) w u :
  find (by_id userId) (users w) = Some u ->
  let w' := snd (AuthService.disableUser userId now w) in
  Session.isAuthenticated (fst (Session.with_session (Some userId) w'))
    = (Session.Status 403 "Account is disabled", Session.mkRequest None)
  /\ (forall u', find (by_email (JS.toLowerCase email)) (users w) = Some u' ->
                 User.id u' = userId ->
                 fst (AuthService.loginLocalUser email password ipAddress userAgent now' w')
                 = failure "Account is disabled. Contact your administrator.").
Proof.
  intros Hf w'. subst w'. rewrite (disableUser_found _ _ _ _ Hf). cbn [snd]. split.
  - cbn [Session.with_session]. unfold Session.deserializeUser. step_handler.
    fold (by_id userId). rewrite find_rewrite_account by reflexivity. rewrite Hf.
    reflexivity.
  - intros u' Hfe Hid. unfold AuthService.loginLocalUser. step_handler.
    fold (by_email (JS.toLowerCase email)). unfold rewrite_account.
    rewrite find_by_email_map by (intros x; by destruct (by_id userId x)).
    rewrite Hfe. cbn [fmap option_fmap option_map].
    unfold by_id. rewrite Hid, String.eqb_refl. reflexivity.
Qed.

(** X11.  Enabling undoes disabling: after [disableUser] and then
    [enableUser] on an account, a request with the account's session
    passes [isAuthenticated] again, and the [users] table is what
    [enableUser] alone would have left. *)
Theorem enableUser_after_disableUser userId (now now' : Z) w u :
  find (by_id userId) (users w) = Some u ->
  let w' := snd (AuthService.enableUser userId now'
                   (snd (AuthService.disableUser userId now w))) in
  fst (Session.isAuthenticated (fst (Session.with_session (Some userId) w'))) = Session.Next
  /\ users w' = users (snd (AuthService.enableUser userId now' w)).
Proof.
  intros Hf w'. subst w'. rewrite (disableUser_found _ _ _ _ Hf). cbn [snd].
  set (u1 := AuthService.set_isDisabled true now u).
  assert (Hf1 : find (by_id userId)
                  (rewrite_account userId (AuthService.set_isDisabled true now) (users w))
                = Some u1).
  { rewrite find_rewrite_account by reflexivity. by rewrite Hf. }
  rewrite (enableUser_found userId now' (with_audit _ (with_users _ w)) u1 Hf1).
  rewrite (enableUser_found _ _ _ _ Hf).
  cbn [snd users with_audit with_users].
  rewrite rewrite_account_twice by reflexivity. split; [|reflexivity].
  cbn [Session.with_session]. unfold Session.deserializeUser. step_handler.
  fold (by_id userId). rewrite find_rewrite_account by reflexivity. rewrite Hf.
  reflexivity.
Qed.

End Lockout.

Lemma disableUser_locks_out_witness :
  let w' := snd (AuthService.disableUser "u-ann" 7000 Fixture.staff) in
  Session.isAuthenticated (fst (Session.with_session (Some "u-ann") w'))
    = (Session.Status 403 "Account is disabled", Session.mkRequest None)
  /\ fst (@AuthService.loginLocalUser Fixture.demo_bcrypt "ann@acme.com" "correct horse"
            None None 8000 w')
     = failure "Account is disabled. Contact your administrator.".
Proof.
  intros w'.
  destruct (@disableUser_locks_out Fixture.demo_bcrypt "u-ann" "ann@acme.com"
              "correct horse" None None 7000 8000 Fixture.staff Fixture.ann eq_refl)
    as (Hs & Hl).
  split; [exact Hs|exact (Hl Fixture.ann eq_refl eq_refl)].
Defined.

Lemma enableUser_after_disableUser_witness :
  let w' := snd (AuthService.enableUser "u-dan" 8000
                   (snd (AuthService.disableUser "u-dan" 7000 Fixture.staff))) in
  fst (Session.isAuthenticated (fst (Session.with_session (Some "u-dan") w')))
  = Session.Next.
Proof.
  exact (proj1 (enableUser_after_disableUser "u-dan" 7000 8000 Fixture.staff Fixture.dan
                  eq_refl)).
Defined.

(** ** Issuing state values *)

Section IssuingStates.
Implicit Types (w : World) (state : string) (now : Z).

Lemma fresh_not_expired now : MicrosoftAuth.expired now (Pending.mk now None) = false.
Proof.
  unfold MicrosoftAuth.expired, MicrosoftAuth.STATE_EXPIRY_MS. cbn [Pending.createdAt].
  destruct (Z.gtb_spec (now - now) (10 * 60 * 1000)); [lia|reflexivity].
Qed.

Lemma expired_false now (p : Pending.t) :
  MicrosoftAuth.expired now p = false <-> now - Pending.createdAt p <= 600000.
Proof.
  unfold MicrosoftAuth.expired, MicrosoftAuth.STATE_EXPIRY_MS.
  destruct (Z.gtb_spec (now - Pending.createdAt p) (10 * 60 * 1000)); split; (done || lia).
Qed.

(** X12.  After [generateState] the table holds the new value with the
    current time (replacing an older entry of the same value), the entries
    of other values that are at most ten minutes old, and nothing else:
    every expired entry is gone. *)
Theorem generateState_table state now w (k : string) (p : Pending.t) :
  pendingStates (snd (MicrosoftAuth.generateState state now w)) !! k = Some p <->
  (k = state /\ p = Pending.mk now None)
  \/ (k <> state /\ pendingStates w !! k = Some p
      /\ now - Pending.createdAt p <= 10 * 60 * 1000).
Proof.
  unfold MicrosoftAuth.generateState, MicrosoftAuth.cleanupExpiredStates.
  step_handler. rewrite map_lookup_filter_Some. cbn [snd].
  destruct (decide (k = state)) as [->|Hne].
  - rewrite lookup_insert_eq. split.
    + intros [[= <-] _]. by left.
    + intros [[_ ->]|[? _]]; [|done]. split; [done|apply fresh_not_expired].
  - rewrite lookup_insert_ne by done. rewrite expired_false. split.
    + intros [? ?]. right. done.
    + intros [[? _]|(_ & ? & ?)]; done.
Qed.

(** X13.  A generated state value validates once within ten minutes and
    not afterwards: validated right after it was issued at [now], it is
    accepted exactly when the clock has not passed [now] by more than
    600000 ms. *)
Theorem generate_then_validate state now now' w :
  fst (MicrosoftAuth.generateState state now w) = state
  /\ (fst (MicrosoftAuth.validateState state now'
             (snd (MicrosoftAuth.generateState state now w))) = true
      <-> now' - now <= 10 * 60 * 1000).
Proof.
  split; [reflexivity|]. rewrite validateState_true.
  assert (Hl : pendingStates (snd (MicrosoftAuth.generateState state now w)) !! state
               = Some (Pending.mk now None)).
  { apply generateState_table. left. done. }
  rewrite Hl. split.
  - intros (p & [= <-] & Hp). exact Hp.
  - intros Hp. exists (Pending.mk now None). done.
Qed.

End IssuingStates.

Section AuthorizationUrl.
Variable env : Env.
Variable urlSearchParams : list (string * string) -> string.
Implicit Types (w : World) (state : string) (now : Z).

Lemma getConfig_configured :
  is_Some (MicrosoftAuth.getConfig env) <->
  JS.truthy_opt (MICROSOFT_CLIENT_ID env) = true
  /\ JS.truthy_opt (MICROSOFT_CLIENT_SECRET env) = true.
Proof.
  unfold MicrosoftAuth.getConfig.
  destruct (JS.truthy_opt (MICROSOFT_CLIENT_ID env)),
           (JS.truthy_opt (MICROSOFT_CLIENT_SECRET env)); cbn;
    (split; [intros [? ?]; done || discriminate | intros [? ?]; done || discriminate]).
Qed.

(** X14.  [getAuthorizationUrl] produces an address exactly when both the
    client id and the client secret are set and not empty.  When it does
    not, it leaves the pending-state table alone.  When it does, the
    address is the authorize endpoint of the configured tenant followed by
    the serialized parameters, among them [client_id], [redirect_uri] and,
    as [state], the value that was drawn; that very value is then pending
    with the current time, and validates within ten minutes. *)
Theorem getAuthorizationUrl_issues_state state now now' w :
  let r := MicrosoftAuth.getAuthorizationUrl env urlSearchParams state now w in
  (is_Some (fst r) <->
     JS.truthy_opt (MICROSOFT_CLIENT_ID env) = true
     /\ JS.truthy_opt (MICROSOFT_CLIENT_SECRET env) = true)
  /\ (fst r = None -> snd r = w)
  /\ (is_Some (fst r) ->
      (fst (MicrosoftAuth.validateState state now' (snd r)) = true
       <-> now' - now <= 10 * 60 * 1000))
  /\ (forall url, fst r = Some url ->
      pendingStates (snd r) !! state = Some (Pending.mk now None)
      /\ url = "https://login.microsoftonline.com/"
                 ++ JS.or_default (MICROSOFT_TENANT_ID env) "common"
                 ++ "/oauth2/v2.0/authorize?"
                 ++ urlSearchParams
                      [("client_id", default "" (MICROSOFT_CLIENT_ID env));
                       ("response_type", "code");
                       ("redirect_uri",
                        JS.or_default (APP_URL env)
                          ("https://" ++ JS.interpolate (REPL_SLUG env) ++ "."
                             ++ JS.interpolate (JS.toLowerCase <$> REPL_OWNER env)
                             ++ ".repl.co")
                          ++ "/api/auth/microsoft/callback");
                       ("response_mode", "query");
                       ("scope", "openid profile email User.Read");
                       ("state", state);
                       ("prompt", "select_account")]).
Proof.
  intros r. subst r. rewrite <- getConfig_configured.
  unfold MicrosoftAuth.getAuthorizationUrl.
  destruct (MicrosoftAuth.getConfig env) as [config|] eqn:Hcfg; cbn [ret fst snd].
  - unfold bind at 1. cbn [ret fst snd].
    split; [split; intros _; by eexists|]. split; [discriminate|].
    split; [intros _; apply generate_then_validate|].
    intros url. unfold bind. cbn [ret fst snd]. intros [= <-].
    split; [apply generateState_table; by left|].
    revert Hcfg. unfold MicrosoftAuth.getConfig.
    destruct (negb _ || negb _); [discriminate|]. by intros [= <-].
  - split; [done|]. split; [done|]. split; [intros [? ?]; discriminate|].
    intros url. discriminate.
Qed.

End AuthorizationUrl.

(** ** Callbacks that are turned away early *)

Section EarlyRejection.
Context `{JwtLib} `{IdentityProvider}.
Variable env : Env.
Implicit Types (w : World).

Lemma verifyIdToken_calls (idToken : string) (now : Z) w :
  exists l, calls (snd (MicrosoftAuth.verifyIdToken env idToken now w)) = (calls w ++ l)%list
            /\ Forall (fun c => is_verification c = true) l.
Proof.
  unfold MicrosoftAuth.verifyIdToken.
  destruct (MicrosoftAuth.getConfig env) as [config|];
    [|exists []; by rewrite app_nil_r].
  destruct (jwt_decode idToken) as [[header payload]|];
    [|exists []; by rewrite app_nil_r].
  destruct (negb _); [exists []; by rewrite app_nil_r|].
  unfold MicrosoftAuth.getSigningKey. step_handler.
  destruct (jwks_signing_key _ _) as [k|]; [|eexists [_]; split; [reflexivity|by repeat constructor]].
  destruct (JS.truthy k); cbn.
  - eexists [_; _]. rewrite <- app_assoc. split; [reflexivity|by repeat constructor].
  - eexists [_]. split; [reflexivity|by repeat constructor].
Qed.

(** X15.  A callback whose state value is unknown or too old is refused as
    a possible CSRF attack before anything else happens: no call leaves
    the process and no row of the store changes; the state entry, if there
    was one, is gone. *)
Theorem handleCallback_invalid_state (code state : string)
    (ipAddress userAgent : option string) (uuid : string) (now : Z) w :
  fst (MicrosoftAuth.validateState state now w) = false ->
  let r := MicrosoftAuth.handleCallback env code state ipAddress userAgent uuid now w in
  fst r = failure "Invalid or expired state parameter (possible CSRF attack)"
  /\ calls (snd r) = calls w
  /\ tables (snd r) = tables w
  /\ pendingStates (snd r) = delete state (pendingStates w).
Proof.
  intros Hv r. subst r. unfold MicrosoftAuth.handleCallback.
  unfold bind. rewrite Hv. cbn [negb ret fst snd].
  pose proof (validateState_tables state now w) as [Ht Hc].
  split; [reflexivity|]. split; [exact Hc|]. split; [exact Ht|].
  apply validateState_pending.
Qed.

(** X16.  An ID token that does not verify stops the login before the
    profile is fetched: the callback fails with "Invalid authentication
    token from Microsoft", no call to the Graph API is made, and no row of
    the store changes. *)
Theorem handleCallback_rejects_unverified_token (code state idToken : string)
    (ipAddress userAgent : option string) (uuid : string) (now : Z)
    (w w0 w1 : World) (tokenResponse : MicrosoftTokenResponse) :
  MicrosoftAuth.validateState state now w = (true, w0) ->
  MicrosoftAuth.exchangeCodeForToken env code w0 = (Some tokenResponse, w1) ->
  id_token tokenResponse = Some idToken -> idToken <> "" ->
  fst (MicrosoftAuth.verifyIdToken env idToken now w1) = None ->
  let r := MicrosoftAuth.handleCallback env code state ipAddress userAgent uuid now w in
  fst r = failure "Invalid authentication token from Microsoft"
  /\ tables (snd r) = tables w
  /\ (forall c, In c (calls (snd r)) -> is_graph c = true -> In c (calls w)).
Proof.
  intros Hv Hex Hid Hne Hver r.
  assert (Hr : r = (failure "Invalid authentication token from Microsoft",
                    snd (MicrosoftAuth.verifyIdToken env idToken now w1))).
  { subst r. unfold MicrosoftAuth.handleCallback.
    unfold bind at 1. rewrite Hv. cbn [fst snd negb].
    unfold bind at 1. rewrite Hex. cbn [fst snd]. rewrite Hid.
    cbn [JS.truthy_opt default from_option]. unfold id. rewrite (truthy_nonempty _ Hne).
    unfold bind at 1. rewrite Hver. reflexivity. }
  rewrite Hr. cbn [fst snd]. split; [reflexivity|].
  pose proof (validateState_tables state now w) as [Hst Hsc]. rewrite Hv in Hst, Hsc.
  cbn [snd] in Hst, Hsc.
  pose proof (exchangeCodeForToken_inv env _ _ _ _ Hex) as Hw1.
  split.
  - rewrite verifyIdToken_tables. rewrite Hw1. rewrite <- Hst. reflexivity.
  - intros c Hin Hg. destruct (verifyIdToken_calls idToken now w1) as (l & Hl & Hall).
    rewrite Hl, Hw1 in Hin. cbn [calls with_calls] in Hin. rewrite Hsc in Hin.
    apply in_app_or in Hin as [Hin|Hin].
    + apply in_app_or in Hin as [Hin|[<-|[]]]; [exact Hin|discriminate].
    + exfalso. rewrite List.Forall_forall in Hall. specialize (Hall c Hin).
      destruct c; discriminate.
Qed.

(** X17.  Without a client id or a client secret the federation code is
    inert: [verifyIdToken] accepts nothing and [handleCallback] fails for
    every input, in both cases without a call leaving the process and
    without a row of the store changing. *)
Theorem unconfigured_federation_is_inert (code state idToken : string)
    (ipAddress userAgent : option string) (uuid : string) (now : Z) w :
  MicrosoftAuth.getConfig env = None ->
  let r := MicrosoftAuth.handleCallback env code state ipAddress userAgent uuid now w in
  MicrosoftAuth.verifyIdToken env idToken now w = (None, w)
  /\ success (fst r) = false
  /\ calls (snd r) = calls w
  /\ tables (snd r) = tables w.
Proof.
  intros Hc r. split.
  { unfold MicrosoftAuth.verifyIdToken. by rewrite Hc. }
  pose proof (validateState_tables state now w) as [Ht Hcl].
  destruct (MicrosoftAuth.validateState state now w) as [valid w0] eqn:Hv.
  cbn [snd] in Ht, Hcl.
  assert (Hr : exists msg, r = (failure msg, w0)).
  { subst r. unfold MicrosoftAuth.handleCallback.
    unfold bind at 1. rewrite Hv. cbn [fst snd]. destruct valid; cbn [negb].
    - unfold bind at 1. unfold MicrosoftAuth.exchangeCodeForToken. rewrite Hc.
      by eexists.
    - by eexists. }
  destruct Hr as [msg ->]. done.
Qed.

End EarlyRejection.

Lemma handleCallback_invalid_state_witness :
  let r := @MicrosoftAuth.handleCallback Fixture.demo_jwt Fixture.demo_idp Fixture.demo_env
             "code-c" "ffff" None None "u-new" 2000 Fixture.awaiting_callback in
  fst r = failure "Invalid or expired state parameter (possible CSRF attack)"
  /\ calls (snd r) = [].
Proof.
  intros r.
  destruct (@handleCallback_invalid_state Fixture.demo_jwt Fixture.demo_idp
              Fixture.demo_env "code-c" "ffff" None None "u-new" 2000
              Fixture.awaiting_callback eq_refl) as (Hf & Hc & _).
  split; [exact Hf|exact Hc].
Defined.

Lemma handleCallback_rejects_unverified_token_witness :
  let r := @MicrosoftAuth.handleCallback Fixture.demo_jwt Fixture2.forging_idp
             Fixture.demo_env "code-f" "5f3a" None None "u-new" 2000
             Fixture.awaiting_callback in
  fst r = failure "Invalid authentication token from Microsoft"
  /\ users (snd r) = users Fixture.awaiting_callback.
Proof.
  intros r.
  destruct (@handleCallback_rejects_unverified_token Fixture.demo_jwt Fixture2.forging_idp
              Fixture.demo_env "code-f" "5f3a" "jwt-forged" None None "u-new" 2000
              Fixture.awaiting_callback
              (with_pending ∅ Fixture.awaiting_callback)
              (with_calls [CallTokenEndpoint "code-f"]
                 (with_pending ∅ Fixture.awaiting_callback))
              (mkTokenResponse "at-f" "Bearer" 3600 "openid" (Some "jwt-forged"))
              eq_refl eq_refl eq_refl ltac:(discriminate) eq_refl) as (Hf & Ht & _).
  split; [exact Hf|]. exact (f_equal (fun t => fst (fst (fst (fst t)))) Ht).
Defined.

Lemma unconfigured_federation_is_inert_witness :
  let r := @MicrosoftAuth.handleCallback Fixture.demo_jwt Fixture.demo_idp Fixture2.bare_env
             "code-c" "5f3a" None None "u-new" 2000 Fixture.awaiting_callback in
  success (fst r) = false /\ calls (snd r) = [].
Proof.
  intros r.
  destruct (@unconfigured_federation_is_inert Fixture.demo_jwt Fixture.demo_idp
              Fixture2.bare_env "code-c" "5f3a" "jwt-alice" None None "u-new" 2000
              Fixture.awaiting_callback eq_refl) as (_ & Hs & Hc & _).
  split; [exact Hs|exact Hc].
Defined.

(** ** The account binder *)

Section Binder.
Implicit Types (w : World) (profile : Profile.t) (tenantId uuid : string) (now : Z).

(** Every way [handleMicrosoftSsoCallback] can end. *)
Lemma sso_cases profile tenantId (ipAddress userAgent : option string) uuid now w :
  let r := AuthService.handleMicrosoftSsoCallback profile tenantId ipAddress userAgent
             uuid now w in
  let email := AuthService.profile_email profile in
  (success (fst r) = false
   /\ (snd r = w
       \/ exists event, snd r = with_audit (authAuditLog w ++ [event]) w
                        /\ Audit.action event = "failed_sso_login"
                        /\ Audit.success event = false))
  \/ (JS.truthy email = true
      /\ AuthService.not_allowed (head (ssoSettings w) ≫= SsoSettings.allowedTenantIds)
                                 (Some tenantId) = false
      /\ AuthService.not_allowed (head (ssoSettings w) ≫= SsoSettings.allowedEmailDomains)
                                 (nth_error (JS.split "@"%char email) 1) = false
      /\ ((exists account u0,
             find (by_email email) (users w) = Some account
             /\ User.isDisabled account = false
             /\ find (by_id (User.id account)) (users w) = Some u0
             /\ let bound := AuthService.bind_microsoft account profile tenantId now u0 in
                r = (mkLoginResult true (Some bound) None,
                     with_audit
                       (authAuditLog w ++
                          [AuthService.sso_login bound profile tenantId ipAddress userAgent])
                       (with_users
                          (rewrite_account (User.id account)
                             (AuthService.bind_microsoft account profile tenantId now)
                             (users w)) w)))
          \/ (find (by_email email) (users w) = None
              /\ default true (SsoSettings.autoProvisionUsers <$> head (ssoSettings w)) = true
              /\ let created := AuthService.provisioned uuid email profile tenantId now in
                 r = (mkLoginResult true (Some created) None,
                      with_audit
                        (authAuditLog w ++
                           [AuthService.sso_login created profile tenantId ipAddress
                                                  userAgent])
                        (with_users (users w ++ [created]) w))))).
Proof.
  intros r email.
  destruct (JS.truthy email) eqn:Hem.
  2:{ left. subst r. unfold AuthService.handleMicrosoftSsoCallback. fold email.
      rewrite Hem. cbn. auto. }
  destruct (AuthService.not_allowed (head (ssoSettings w) ≫= SsoSettings.allowedTenantIds)
                                    (Some tenantId)) eqn:Hten.
  { left. subst r. unfold AuthService.handleMicrosoftSsoCallback. fold email.
    rewrite Hem. step_handler. rewrite Hten. cbn. split; [done|]. right. by eexists. }
  destruct (AuthService.not_allowed (head (ssoSettings w) ≫= SsoSettings.allowedEmailDomains)
                                    (nth_error (JS.split "@"%char email) 1)) eqn:Hdom.
  { left. subst r. unfold AuthService.handleMicrosoftSsoCallback. fold email.
    rewrite Hem. step_handler. rewrite Hten, Hdom. cbn. split; [done|]. right. by eexists. }
  destruct (find (by_email email) (users w)) as [account|] eqn:Hf.
  - destruct (User.isDisabled account) eqn:Hd.
    + left. subst r. unfold AuthService.handleMicrosoftSsoCallback. fold email.
      rewrite Hem. step_handler. rewrite Hten, Hdom.
      unfold by_email in Hf. rewrite Hf, Hd. cbn. split; [done|]. right. by eexists.
    + right. do 3 (split; [done|]). left.
      destruct (bind_existing profile tenantId ipAddress userAgent uuid now w account
                  Hem Hten Hdom Hf Hd) as (u0 & Hu0 & Hr).
      exists account, u0. done.
  - destruct (default true (SsoSettings.autoProvisionUsers <$> head (ssoSettings w)))
      eqn:Hauto.
    + right. do 3 (split; [done|]). right. split; [done|]. split; [done|].
      exact (provision_new profile tenantId ipAddress userAgent uuid now w
               Hem Hten Hdom Hf Hauto).
    + left. subst r. unfold AuthService.handleMicrosoftSsoCallback. fold email.
      rewrite Hem. step_handler. rewrite Hten, Hdom.
      unfold by_email in Hf. rewrite Hf, Hauto. cbn. split; [done|]. right. by eexists.
Qed.

(** X18.  A federated login that fails leaves every account as it was: no
    row of [users], [crm_users], [password_reset_tokens] or [sso_settings]
    changes; at most one event is appended to the audit log, and it is a
    [failed_sso_login] event marked unsuccessful. *)
Theorem sso_failure_writes_no_account profile tenantId
    (ipAddress userAgent : option string) uuid now w :
  let r := AuthService.handleMicrosoftSsoCallback profile tenantId ipAddress userAgent
             uuid now w in
  success (fst r) = false ->
  users (snd r) = users w
  /\ crmUsers (snd r) = crmUsers w
  /\ passwordResetTokens (snd r) = passwordResetTokens w
  /\ ssoSettings (snd r) = ssoSettings w
  /\ (authAuditLog (snd r) = authAuditLog w
      \/ exists event, authAuditLog (snd r) = (authAuditLog w ++ [event])%list
                       /\ Audit.action event = "failed_sso_login"
                       /\ Audit.success event = false).
Proof.
  intros r Hfail.
  destruct (sso_cases profile tenantId ipAddress userAgent uuid now w)
    as [(_ & [Hw|(event & Hw & Ha & Hs)])|(_ & _ & _ & [(a & u0 & _ & _ & _ & Hr)|(_ & _ & Hr)])].
  - fold r in Hw. rewrite Hw. auto 6.
  - fold r in Hw. rewrite Hw. cbn. do 4 (split; [reflexivity|]). right. by exists event.
  - cbv zeta in Hr. fold r in Hr. rewrite Hr in Hfail. discriminate.
  - cbv zeta in Hr. fold r in Hr. rewrite Hr in Hfail. discriminate.
Qed.

Lemma not_allowed_false (allowList : option (list string)) (x : option string)
    (l : list string) :
  AuthService.not_allowed allowList x = false ->
  allowList = Some l -> l <> [] ->
  exists d, x = Some d /\ In d l.
Proof.
  intros Hn -> Hl. unfold AuthService.not_allowed in Hn.
  destruct l as [|a l]; [done|]. cbn [length Nat.ltb Nat.leb andb] in Hn.
  apply negb_false_iff in Hn. unfold JS.includes in Hn.
  destruct x as [d|]; [|discriminate]. exists d. split; [reflexivity|].
  apply existsb_exists in Hn as (y & Hy & Heq). apply String.eqb_eq in Heq. by subst y.
Qed.

(** X19.  No federated login gets past the policy: whenever
    [handleMicrosoftSsoCallback] succeeds, the tenant is a member of the
    tenant allow-list if that list is not empty, the domain of the
    address (the part between the first and the second "@") is a member of
    the domain allow-list if that list is not empty, an account that was
    not on file was only created with auto-provisioning on, and the
    account returned is in the [users] table and carries the Microsoft id
    of the profile and the tenant. *)
Theorem sso_success_respects_policy profile tenantId
    (ipAddress userAgent : option string) uuid now w :
  let r := AuthService.handleMicrosoftSsoCallback profile tenantId ipAddress userAgent
             uuid now w in
  let email := AuthService.profile_email profile in
  success (fst r) = true ->
  (forall settings l, head (ssoSettings w) = Some settings ->
     SsoSettings.allowedTenantIds settings = Some l -> l <> [] -> In tenantId l)
  /\ (forall settings l, head (ssoSettings w) = Some settings ->
        SsoSettings.allowedEmailDomains settings = Some l -> l <> [] ->
        exists domain, nth_error (JS.split "@"%char email) 1 = Some domain /\ In domain l)
  /\ (forall settings, head (ssoSettings w) = Some settings ->
        find (by_email email) (users w) = None ->
        SsoSettings.autoProvisionUsers settings = true)
  /\ exists account,
       user (fst r) = Some account
       /\ In account (users (snd r))
       /\ User.microsoftUserId account = Some (Profile.id profile)
       /\ User.microsoftTenantId account = Some tenantId.
Proof.
  intros r email Hok.
  destruct (sso_cases profile tenantId ipAddress userAgent uuid now w)
    as [(Hfail & _)|(Hem & Hten & Hdom & Hcase)].
  { fold r in Hfail. congruence. }
  fold email in Hdom, Hcase.
  split.
  { intros settings l Hs Hl Hne. rewrite Hs in Hten. cbn in Hten.
    destruct (not_allowed_false _ _ l Hten Hl Hne) as (d & [= <-] & Hin). exact Hin. }
  split.
  { intros settings l Hs Hl Hne. rewrite Hs in Hdom. cbn in Hdom.
    exact (not_allowed_false _ _ l Hdom Hl Hne). }
  destruct Hcase as [(a & u0 & Hf & _ & Hu0 & Hr)|(Hf & Hauto & Hr)];
    cbv zeta in Hr; fold r in Hr.
  - split; [intros ? _ ?; congruence|].
    eexists. rewrite Hr. cbn [fst snd user users with_audit with_users].
    split; [reflexivity|]. split; [|by cbn].
    unfold rewrite_account. apply in_map_iff. exists u0.
    pose proof (find_some _ _ Hu0) as [Hin Hid]. rewrite Hid. done.
  - split.
    { intros settings Hs _. rewrite Hs in Hauto. exact Hauto. }
    eexists. rewrite Hr. cbn [fst snd user users with_audit with_users].
    split; [reflexivity|]. split; [|by cbn].
    apply in_or_app. right. by left.
Qed.

End Binder.

Lemma sso_failure_writes_no_account_witness :
  users (snd (AuthService.handleMicrosoftSsoCallback Fixture.bob "tenant-1" None None
                "u-new" 7000 Fixture.governed))
  = users Fixture.governed.
Proof.
  exact (proj1 (sso_failure_writes_no_account Fixture.bob "tenant-1" None None "u-new"
                  7000 Fixture.governed eq_refl)).
Defined.

Lemma sso_success_respects_policy_witness :
  exists domain,
    nth_error (JS.split "@"%char (AuthService.profile_email Fixture.alice)) 1 = Some domain
    /\ In domain ["acme.com"].
Proof.
  exact (proj1 (proj2 (sso_success_respects_policy Fixture.alice "tenant-1" None None
                         "u-new" 7000 Fixture.governed eq_refl))
           Fixture.acme_policy ["acme.com"] eq_refl eq_refl ltac:(discriminate)).
Defined.

(** ** CRM profiles *)

Section CrmProfiles.
Implicit Types (w : World) (account : User.t) (uuid : string).

Lemma find_crm_new (l : list CrmUser.t) (c : CrmUser.t) :
  find (by_auth_id (CrmUser.authUserId c)) (l ++ [c]) <> None.
Proof.
  induction l as [|a l IH]; simpl.
  - unfold by_auth_id. by rewrite String.eqb_refl.
  - by destruct (by_auth_id _ a).
Qed.

(** X20.  The role a new CRM profile gets: [sales] for an account of
    origin [local], whatever the policy says; for any other origin the
    policy's [defaultRoleForSso] if it is set and not empty, else [sales].
    If that label is not a role of the CRM the insert is refused and
    nothing is written. *)
Theorem ensureCrmUser_role account uuid w :
  find (by_auth_id (User.id account)) (crmUsers w) = None ->
  let r := Session.ensureCrmUser account uuid w in
  let label := JS.or_default (head (ssoSettings w) ≫= SsoSettings.defaultRoleForSso)
                             "sales" in
  let created role :=
    r = (Some tt,
         with_crm (crmUsers w ++
                     [CrmUser.mk uuid (User.id account) role (User.firstName account)
                                 (User.lastName account) (User.email account)]) w) in
  (User.authProvider account = local -> created sales)
  /\ (User.authProvider account <> local ->
      forall role, parse_role label = Some role -> created role)
  /\ (User.authProvider account <> local -> parse_role label = None -> r = (None, w)).
Proof.
  intros Hnone r label created. subst r created. unfold Session.ensureCrmUser.
  step_handler. unfold by_auth_id in Hnone. rewrite Hnone. fold label.
  split; [|split].
  - intros ->. reflexivity.
  - intros Hp role Hrole.
    replace (AuthProvider_eqb (User.authProvider account) local) with false
      by (by destruct (User.authProvider account)).
    by rewrite Hrole.
  - intros Hp Hrole.
    replace (AuthProvider_eqb (User.authProvider account) local) with false
      by (by destruct (User.authProvider account)).
    by rewrite Hrole.
Qed.

(** X21.  [ensureCrmUser] never touches a profile that exists: with a
    profile on file it writes nothing, so once it has succeeded for an
    account every later call for that account (whatever the policy has
    become) succeeds and leaves the store alone; and a call that creates a
    profile only appends to [crm_users]. *)
Theorem ensureCrmUser_idempotent account uuid uuid' w :
  let r := Session.ensureCrmUser account uuid w in
  (is_Some (find (by_auth_id (User.id account)) (crmUsers w)) -> r = (Some tt, w))
  /\ (fst r = Some tt ->
      is_Some (find (by_auth_id (User.id account)) (crmUsers (snd r)))
      /\ forall w', crmUsers w' = crmUsers (snd r) ->
                    Session.ensureCrmUser account uuid' w' = (Some tt, w'))
  /\ (exists l, crmUsers (snd r) = (crmUsers w ++ l)%list)
  /\ users (snd r) = users w.
Proof.
  intros r.
  assert (Hex : forall w0 u0, is_Some (find (by_auth_id (User.id account)) (crmUsers w0)) ->
                              Session.ensureCrmUser account u0 w0 = (Some tt, w0)).
  { intros w0 u0 [c Hc]. unfold Session.ensureCrmUser. step_handler.
    unfold by_auth_id in Hc. by rewrite Hc. }
  split; [apply Hex|].
  subst r. unfold Session.ensureCrmUser. step_handler.
  fold (by_auth_id (User.id account)).
  destruct (find (by_auth_id (User.id account)) (crmUsers w)) as [c|] eqn:Hf.
  - cbn. split; [|split; [exists []; by rewrite app_nil_r|done]].
    intros _. split; [by rewrite Hf|]. intros w' Hw'. apply Hex. by rewrite Hw', Hf.
  - destruct (parse_role _) as [role|]; cbn.
    + split; [|split; [by eexists|done]]. intros _.
      set (c := CrmUser.mk uuid (User.id account) role (User.firstName account)
                           (User.lastName account) (User.email account)).
      assert (Hsome : is_Some (find (by_auth_id (User.id account)) (crmUsers w ++ [c]))).
      { pose proof (find_crm_new (crmUsers w) c) as Hn. cbn [c CrmUser.authUserId] in Hn.
        destruct (find _ (crmUsers w ++ [c])); [by eexists|done]. }
      split; [exact Hsome|]. intros w' Hw'. apply Hex. by rewrite Hw'.
    + split; [discriminate|]. split; [exists []; by rewrite app_nil_r|done].
Qed.

End CrmProfiles.

Lemma ensureCrmUser_role_witness :
  Session.ensureCrmUser Fixture.sam "c-sam" Fixture2.misgoverned
  = (None, Fixture2.misgoverned).
Proof.
  refine (proj2 (proj2 (ensureCrmUser_role Fixture.sam "c-sam" Fixture2.misgoverned
                          eq_refl)) _ eq_refl).
  discriminate.
Defined.

(** ** The callback as a whole *)

Section WholeCallback.
Context `{JwtLib} `{IdentityProvider}.
Variable env : Env.
Implicit Types (w : World).

(** [handleCallback] either fails on its own, without touching the store,
    or ends as [handleMicrosoftSsoCallback] run on an unchanged store. *)
Lemma handleCallback_cases (code state : string) (ipAddress userAgent : option string)
    (uuid : string) (now : Z) w (r : LoginResult * World) :
  r = MicrosoftAuth.handleCallback env code state ipAddress userAgent uuid now w ->
  (exists msg w', r = (failure msg, w') /\ tables w' = tables w)
  \/ (exists profile tenant w3,
        tables w3 = tables w
        /\ r = AuthService.handleMicrosoftSsoCallback profile tenant ipAddress userAgent
                 uuid now w3).
Proof.
  intros Hr. unfold MicrosoftAuth.handleCallback in Hr.
  pose proof (validateState_tables state now w) as [Ht0 _].
  destruct (MicrosoftAuth.validateState state now w) as [valid w0] eqn:Hv.
  cbn [snd] in Ht0. unfold bind at 1 in Hr. rewrite Hv in Hr. cbn [fst snd] in Hr.
  destruct valid; cbn [negb] in Hr; [|left; by eexists _, _].
  destruct (MicrosoftAuth.exchangeCodeForToken env code w0) as [tr w1] eqn:Hex.
  assert (Ht1 : tables w1 = tables w).
  { revert Hex. unfold MicrosoftAuth.exchangeCodeForToken.
    destruct (MicrosoftAuth.getConfig env); step_handler; intros [= _ <-]; exact Ht0. }
  unfold bind at 1 in Hr. rewrite Hex in Hr. cbn [fst snd] in Hr.
  destruct tr as [tr|]; [|left; by eexists _, _].
  set (verification := if JS.truthy_opt (id_token tr)
                       then MicrosoftAuth.verifyIdToken env (default "" (id_token tr)) now
                       else ret None) in Hr.
  destruct (verification w1) as [claims w2] eqn:Hver.
  assert (Ht2 : tables w2 = tables w).
  { revert Hver. subst verification. destruct (JS.truthy_opt (id_token tr)).
    - intros Hver. pose proof (verifyIdToken_tables env (default "" (id_token tr)) now w1)
        as Hvt. rewrite Hver in Hvt. cbn [snd] in Hvt. congruence.
    - intros [= _ <-]. exact Ht1. }
  unfold bind at 1 in Hr. rewrite Hver in Hr. cbn [fst snd] in Hr.
  destruct (JS.truthy_opt (id_token tr) && negb (JS.defined claims));
    [left; by eexists _, _|].
  unfold MicrosoftAuth.getUserProfile in Hr.
  cbv beta iota delta [bind ret modify record_call fst snd] in Hr.
  set (w3 := with_calls _ w2) in Hr.
  destruct (graph_me (access_token tr)) as [profile|]; [|left; by eexists _, _].
  assert (Ht4 : tables (snd (MicrosoftAuth.resolveTenantId env claims (access_token tr) w3))
                = tables w).
  { rewrite resolveTenantId_tables. exact Ht2. }
  destruct (MicrosoftAuth.resolveTenantId env claims (access_token tr) w3)
    as [tenant w4] eqn:Hres. cbn [snd] in Ht4.
  destruct (MicrosoftAuth.email_mismatch claims profile); [left; by eexists _, _|].
  right. by exists profile, tenant, w4.
Qed.

End WholeCallback.

(** ** The callback route *)

Section CallbackRoute.
Context `{JwtLib} `{IdentityProvider}.
Variable env : Env.
Variable encodeURIComponent : string -> string.
Implicit Types (w : World) (req : Session.Request).

(** X22.  The callback route signs a browser in only together with an
    account and a CRM profile: whenever it redirects to "/", the session
    it leaves belongs to an account that is in the [users] table and has
    a row in [crm_users]; every other answer leaves the session of the
    request as it was; and a callback that carries an [error] parameter
    changes nothing at all (the pending state is not even consumed). *)
Theorem microsoftCallback_session (q_code q_state q_error q_error_description : option string)
    (ipAddress userAgent : option string) (uuid crmUuid : string) (now : Z) req w :
  let out := Routes.microsoftCallback env encodeURIComponent q_code q_state q_error
               q_error_description ipAddress userAgent uuid crmUuid now req w in
  let reply := fst (fst out) in
  let req' := snd (fst out) in
  let w' := snd out in
  (reply = Routes.Redirect "/" ->
     exists account,
       Session.req_user req' = Some (Session.authUser_of account)
       /\ In account (users w')
       /\ is_Some (find (by_auth_id (User.id account)) (crmUsers w')))
  /\ (reply <> Routes.Redirect "/" -> req' = req)
  /\ (JS.truthy_opt q_error = true -> w' = w).
Proof.
  intros out reply req' w'.
  assert (Hout : out = Routes.microsoftCallback env encodeURIComponent q_code q_state q_error
               q_error_description ipAddress userAgent uuid crmUuid now req w)
    by reflexivity.
  clearbody out. unfold Routes.microsoftCallback in Hout.
  assert (Herr : forall x, Routes.Redirect ("/login?error=" ++ x) <> Routes.Redirect "/")
    by (intros x; cbn; discriminate).
  destruct (JS.truthy_opt q_error).
  { subst reply req' w'. rewrite Hout. cbn [ret fst snd].
    split; [intros E; by apply Herr in E|done]. }
  destruct (negb (JS.truthy_opt q_code) || negb (JS.truthy_opt q_state)).
  { subst reply req' w'. rewrite Hout. cbn [ret fst snd].
    split; [discriminate|]. split; [done|discriminate]. }
  remember (MicrosoftAuth.handleCallback env (default "" q_code) (default "" q_state)
              ipAddress userAgent uuid now w) as r eqn:Hr.
  unfold bind at 1 in Hout. rewrite <- Hr in Hout.
  destruct (user (fst r)) as [account|] eqn:Hu.
  2:{ subst reply req' w'. rewrite Hout. cbn [ret fst snd].
      split; [intros E; by apply Herr in E|]. split; [done|discriminate]. }
  destruct (success (fst r)) eqn:Hs; cbn [negb] in Hout.
  2:{ subst reply req' w'. rewrite Hout. cbn [ret fst snd].
      split; [intros E; by apply Herr in E|]. split; [done|discriminate]. }
  assert (Hin : In account (users (snd r))).
  { destruct (handleCallback_cases env _ _ _ _ _ _ _ r Hr)
      as [(msg & w0 & -> & _)|(profile & tenant & w3 & _ & Hsso)]; [discriminate|].
    rewrite Hsso in Hs, Hu |- *.
    destruct (sso_success_respects_policy profile tenant ipAddress userAgent uuid now w3 Hs)
      as (_ & _ & _ & a & Ha & Hina & _).
    rewrite Hu in Ha. injection Ha as <-. exact Hina. }
  destruct (ensureCrmUser_idempotent account crmUuid crmUuid (snd r))
    as (_ & Hens & _ & Husers).
  unfold bind at 1 in Hout.
  destruct (fst (Session.ensureCrmUser account crmUuid (snd r))) as [[]|] eqn:He.
  - subst reply req' w'. rewrite Hout. cbn [ret fst snd Routes.req_login Session.req_user].
    split; [|split; [done|discriminate]]. intros _. exists account.
    split; [reflexivity|]. split; [by rewrite Husers|]. exact (proj1 (Hens eq_refl)).
  - subst reply req' w'. rewrite Hout. cbn [ret fst snd].
    split; [discriminate|]. split; [done|discriminate].
Qed.

End CallbackRoute.

(** ** Histories of the account store *)

Section StoreSteps.
Implicit Types (w : World) (l : list User.t) (strict : bool).

Lemma users_step_refl strict l : users_step strict l l.
Proof.
  exists (fun u => u), []. rewrite map_id, app_nil_r. split; [reflexivity|].
  split; [done|by left].
Qed.

Lemma users_step_rewrite strict (userId : string) (g : User.t -> User.t) l :
  (forall x, User.id (g x) = User.id x
             /\ User.email (g x) = User.email x
             /\ (strict = true -> User.passwordHash (g x) = User.passwordHash x)) ->
  users_step strict l (rewrite_account userId g l).
Proof.
  intros Hg. exists (fun x => if by_id userId x then g x else x), [].
  unfold rewrite_account. rewrite app_nil_r. split; [reflexivity|].
  split; [|by left]. intros u. destruct (by_id userId u); [apply Hg|done].
Qed.

Lemma users_step_append strict l (n : User.t) (e : string) :
  User.email n = Some e -> find (by_email e) l = None ->
  users_step strict l (l ++ [n]).
Proof.
  intros He Hf. exists (fun u => u), [n]. rewrite map_id. split; [reflexivity|].
  split; [done|]. right. by exists n, e.
Qed.

Lemma store_step_same strict w w' :
  users w' = users w -> authAuditLog w' = authAuditLog w -> store_step strict w w'.
Proof.
  intros Hu Ha. split; [rewrite Hu; apply users_step_refl|].
  exists []. by rewrite app_nil_r.
Qed.

End StoreSteps.

(** Closes a [store_step] goal about a world written with [with_audit]
    and [with_users]. *)
Ltac store_step_done :=
  first
    [ by apply store_step_same
    | split;
      [ cbn [users with_audit with_users with_tokens with_crm];
        first [ apply users_step_refl
              | apply users_step_rewrite; intros ?; by cbn
              | eapply users_step_append; [reflexivity|eassumption] ]
      | cbn [authAuditLog with_audit with_users with_tokens with_crm];
        first [ by eexists | exists []; by rewrite app_nil_r ] ] ].

Section ServiceSteps.
Context `{Bcrypt} `{JwtLib} `{IdentityProvider}.
Variable env : Env.
Implicit Types (w : World).

Lemma sso_store_step (profile : Profile.t) (tenantId : string)
    (ipAddress userAgent : option string) (uuid : string) (now : Z) w :
  store_step true w
    (snd (AuthService.handleMicrosoftSsoCallback profile tenantId ipAddress userAgent
            uuid now w)).
Proof.
  destruct (sso_cases profile tenantId ipAddress userAgent uuid now w)
    as [(_ & [Hw|(event & Hw & _)])
       |(_ & _ & _ & [(a & u0 & _ & _ & _ & Hr)|(Hf & _ & Hr)])].
  - rewrite Hw. store_step_done.
  - rewrite Hw. store_step_done.
  - cbv zeta in Hr. rewrite Hr. cbn [snd]. store_step_done.
  - cbv zeta in Hr. rewrite Hr. cbn [snd]. store_step_done.
Qed.

(** Every operation of the service makes one [store_step], and only
    [resetPassword] may change a password hash on the way. *)
Lemma service_op_step (op : ServiceOp) w :
  store_step (negb (is_reset op)) w (snd (run_service_op env op w)).
Proof.
  destruct op; cbn [run_service_op is_reset negb]; unfold bind at 1; cbn [ret snd].
  - unfold AuthService.registerLocalUser. step_handler.
    fold (by_email (JS.toLowerCase email)).
    destruct (find (by_email (JS.toLowerCase email)) (users w)) eqn:Hf; cbn [JS.defined];
      [store_step_done|].
    destruct (_ <? _)%nat; cbn [snd]; store_step_done.
  - unfold AuthService.loginLocalUser. step_handler.
    destruct (find _ (users w)) as [u|]; [|store_step_done].
    destruct (User.isDisabled u); [store_step_done|].
    destruct (JS.truthy_opt _); [|store_step_done].
    destruct (AuthService.verifyPassword _ _); cbn [snd]; store_step_done.
  - unfold AuthService.createPasswordResetToken, AuthService.insert_token. step_handler.
    destruct (find _ (users w)) as [u|]; [|store_step_done].
    destruct (AuthProvider_eqb _ _); cbn [snd]; store_step_done.
  - unfold AuthService.resetPassword. step_handler.
    destruct (find _ (passwordResetTokens w)) as [t|]; [|store_step_done].
    destruct (JS.defined _); [store_step_done|].
    destruct (_ >? _); [store_step_done|].
    destruct (_ <? _)%nat; cbn [snd]; store_step_done.
  - apply sso_store_step.
  - unfold AuthService.linkMicrosoftAccount. step_handler.
    destruct (find _ (users w)) as [u|]; cbn [snd]; store_step_done.
  - unfold AuthService.unlinkMicrosoftAccount. step_handler.
    destruct (find _ (users w)) as [u|]; [|store_step_done].
    destruct (_ && _); cbn [snd]; store_step_done.
  - unfold AuthService.disableUser. step_handler.
    destruct (find _ (users w)) as [u|]; cbn [snd]; store_step_done.
  - unfold AuthService.enableUser. step_handler.
    destruct (find _ (users w)) as [u|]; cbn [snd]; store_step_done.
  - destruct (ensureCrmUser_idempotent account uuid uuid w) as (_ & _ & _ & Hu).
    split; [rewrite Hu; apply users_step_refl|].
    exists []. rewrite app_nil_r. unfold Session.ensureCrmUser. step_handler.
    destruct (find _ (crmUsers w)); [done|]. by destruct (parse_role _).
  - destruct (handleCallback_cases env code state ipAddress userAgent uuid now w _ eq_refl)
      as [(msg & w' & -> & Ht)|(profile & tenant & w3 & Ht & ->)].
    + unfold tables in Ht. injection Ht as Hu _ _ Ha _. by apply store_step_same.
    + pose proof (sso_store_step profile tenant ipAddress userAgent uuid now w3) as [Hs Ha].
      unfold tables in Ht. injection Ht as Hu _ _ Hl _.
      split; [by rewrite <- Hu|]. by rewrite <- Hl.
Qed.

End ServiceSteps.

Section UsersSteps.
Implicit Types (l : list User.t) (strict : bool).

Lemma users_step_keys strict l l' :
  users_step strict l l' ->
  exists k, map (fun u => (User.id u, User.email u)) l'
            = (map (fun u => (User.id u, User.email u)) l ++ k)%list.
Proof.
  intros (f & extra & -> & Hf & _). rewrite map_app, map_map. eexists.
  f_equal. apply map_ext. intros u. destruct (Hf u) as (-> & -> & _). reflexivity.
Qed.

Lemma users_step_hashes l l' :
  users_step true l l' ->
  exists k, map User.passwordHash l' = (map User.passwordHash l ++ k)%list.
Proof.
  intros (f & extra & -> & Hf & _). rewrite map_app, map_map. eexists.
  f_equal. apply map_ext. intros u. destruct (Hf u) as (_ & _ & Hh). by apply Hh.
Qed.

Lemma omap_email_map (f : User.t -> User.t) l :
  (forall u, User.email (f u) = User.email u) ->
  omap User.email (map f l) = omap User.email l.
Proof.
  intros Hf. induction l as [|a l IH]; [reflexivity|].
  cbn. rewrite Hf. change (omap User.email (map f l)) with (omap User.email (map f l)).
  destruct (User.email a); by rewrite <- IH.
Qed.

Lemma find_by_email_none l (e : string) :
  find (by_email e) l = None -> e ∉ omap User.email l.
Proof.
  induction l as [|a l IH]; cbn; [intros _; apply not_elem_of_nil|].
  unfold by_email at 1, opt_eqb. destruct (User.email a) as [e'|] eqn:Ea.
  - destruct (String.eqb_spec e' e); [discriminate|].
    intros Hf. apply not_elem_of_cons. split; [congruence|by apply IH].
  - exact IH.
Qed.

Lemma users_step_emails strict l l' :
  users_step strict l l' ->
  NoDup (omap User.email l) -> NoDup (omap User.email l').
Proof.
  intros (f & extra & -> & Hf & Hextra) Hnd.
  rewrite omap_app, omap_email_map by (intros u; apply Hf).
  destruct Hextra as [->|(n & e & -> & He & Hnone)].
  - by rewrite app_nil_r.
  - cbn. rewrite He. apply NoDup_app. split; [exact Hnd|]. split.
    + intros x Hx Hin. apply list_elem_of_singleton in Hin. subst x.
      by apply (find_by_email_none l e).
    + apply NoDup_singleton.
Qed.

End UsersSteps.

Section ServiceHistories.
Context `{Bcrypt} `{JwtLib} `{IdentityProvider}.
Variable env : Env.
Implicit Types (w : World) (ops : list ServiceOp).

Lemma run_service_cons (op : ServiceOp) ops w :
  snd (run_service env (op :: ops) w)
  = snd (run_service env ops (snd (run_service_op env op w))).
Proof. reflexivity. Qed.

(** X23.  The store only grows: over any sequence of service operations
    (registrations, logins, reset requests and redemptions, federated
    logins and callbacks, links, unlinks, disabling, enabling, profile
    bootstraps), the audit log keeps every event it had, in order, and the
    [users] table keeps every account it had, in order, with its id and
    its address; both only gain entries at the end. *)
Theorem store_only_grows ops w :
  let w' := snd (run_service env ops w) in
  (exists events, authAuditLog w' = (authAuditLog w ++ events)%list)
  /\ (exists accounts, account_keys w' = (account_keys w ++ accounts)%list).
Proof.
  revert w. induction ops as [|op rest IH]; intros w; cbv zeta.
  - cbn. split; exists []; by rewrite app_nil_r.
  - rewrite run_service_cons.
    destruct (service_op_step env op w) as [Hu [l1 Hl1]].
    destruct (users_step_keys _ _ _ Hu) as [k1 Hk1].
    destruct (IH (snd (run_service_op env op w))) as [[l2 Hl2] [k2 Hk2]].
    cbn zeta in Hl2, Hk2. split.
    + exists (l1 ++ l2)%list. by rewrite Hl2, Hl1, app_assoc.
    + exists (k1 ++ k2)%list. rewrite Hk2. unfold account_keys at 1.
      rewrite Hk1. by rewrite app_assoc.
Qed.

(** X24.  Addresses stay unique: if no two accounts on file share an
    e-mail address, no sequence of service operations makes two accounts
    share one. *)
Theorem emails_stay_unique ops w :
  NoDup (emails w) -> NoDup (emails (snd (run_service env ops w))).
Proof.
  revert w. induction ops as [|op rest IH]; intros w Hnd.
  - exact Hnd.
  - rewrite run_service_cons. apply IH.
    destruct (service_op_step env op w) as [Hu _].
    exact (users_step_emails _ _ _ Hu Hnd).
Qed.

(** X25.  Password hashes change through [resetPassword] only: over any
    sequence of service operations that contains no password reset, every
    account that was on file keeps the password hash it had. *)
Theorem hashes_change_only_by_reset ops w :
  forallb (fun op => negb (is_reset op)) ops = true ->
  exists added,
    map User.passwordHash (users (snd (run_service env ops w)))
    = (map User.passwordHash (users w) ++ added)%list.
Proof.
  revert w. induction ops as [|op rest IH]; intros w Hall.
  - exists []. by rewrite app_nil_r.
  - cbn [forallb] in Hall. apply andb_true_iff in Hall as [Hop Hrest].
    rewrite run_service_cons.
    destruct (service_op_step env op w) as [Hu _]. rewrite Hop in Hu.
    destruct (users_step_hashes _ _ Hu) as [k1 Hk1].
    destruct (IH (snd (run_service_op env op w)) Hrest) as [k2 Hk2].
    exists (k1 ++ k2)%list. by rewrite Hk2, Hk1, app_assoc.
Qed.

End ServiceHistories.

Lemma emails_stay_unique_witness :
  NoDup (emails Fixture.awaiting_callback)
  /\ NoDup (emails (snd (@run_service Fixture.demo_bcrypt Fixture.demo_jwt Fixture.demo_idp
                           Fixture.demo_env Fixture2.busy_day Fixture.awaiting_callback))).
Proof.
  assert (Hnd : NoDup (emails Fixture.awaiting_callback)).
  { apply (bool_decide_unpack _). vm_compute. reflexivity. }
  split; [exact Hnd|].
  exact (@emails_stay_unique Fixture.demo_bcrypt Fixture.demo_jwt Fixture.demo_idp
           Fixture.demo_env Fixture2.busy_day Fixture.awaiting_callback Hnd).
Defined.

Lemma hashes_change_only_by_reset_witness :
  exists added,
    map User.passwordHash
        (users (snd (@run_service Fixture.demo_bcrypt Fixture.demo_jwt Fixture.demo_idp
                       Fixture.demo_env Fixture2.busy_day Fixture.awaiting_callback)))
    = (map User.passwordHash (users Fixture.awaiting_callback) ++ added)%list.
Proof.
  exact (@hashes_change_only_by_reset Fixture.demo_bcrypt Fixture.demo_jwt Fixture.demo_idp
           Fixture.demo_env Fixture2.busy_day Fixture.awaiting_callback eq_refl).
Defined.

(** ** Credentials on file *)

Section CredentialRows.
Implicit Types (us : list User.t) (ts : list ResetToken.t) (w : World).

Lemma is_local_true (u : User.t) : is_local u = true <-> User.authProvider u = local.
Proof. unfold is_local. destruct (User.authProvider u); cbn; split; done. Qed.

Lemma existsb_by_id us (i : string) :
  existsb (by_id i) us = true <-> In i (map User.id us).
Proof.
  rewrite existsb_exists, in_map_iff. unfold by_id.
  split; intros (u & A & B).
  - apply String.eqb_eq in B. by exists u.
  - exists u. split; [done|]. by apply String.eqb_eq.
Qed.

Lemma unique_ids_NoDup us : unique_ids us = true <-> NoDup (map User.id us).
Proof.
  induction us as [|u us IH]; cbn [unique_ids map].
  - split; [intros _; constructor|done].
  - rewrite andb_true_iff, negb_true_iff, IH, NoDup_cons, list_elem_of_In.
    rewrite <- not_true_iff_false, existsb_by_id. done.
Qed.

Lemma unique_ids_inj us (x y : User.t) :
  NoDup (map User.id us) -> In x us -> In y us -> User.id x = User.id y -> x = y.
Proof.
  induction us as [|u us IH]; cbn [map]; [done|].
  intros Hnd Hx Hy Hid. apply NoDup_cons in Hnd as [Hn Hnd].
  rewrite list_elem_of_In in Hn.
  destruct Hx as [->|Hx], Hy as [Hy|Hy].
  - done.
  - exfalso. apply Hn. rewrite Hid. by apply in_map.
  - subst y. exfalso. apply Hn. rewrite <- Hid. by apply in_map.
  - by apply IH.
Qed.

Lemma credentials_consistent_rows w :
  credentials_consistent w = true <-> consistent_rows (users w) (passwordResetTokens w).
Proof.
  unfold credentials_consistent, consistent_rows.
  rewrite !andb_true_iff, unique_ids_NoDup, !forallb_forall. split.
  - intros ((Hnd & Hpw) & Htok). split; [exact Hnd|]. split.
    + intros u Hin Hnl. specialize (Hpw u Hin). apply orb_true_iff in Hpw as [Hl|Hp].
      * by apply is_local_true in Hl.
      * by destruct (User.passwordHash u).
    + intros t Ht. apply Htok, existsb_exists in Ht as (u & Hu & Hb).
      apply andb_true_iff in Hb as [Hid Hl]. exists u. split; [exact Hu|].
      split; [by apply String.eqb_eq|by apply is_local_true].
  - intros (Hnd & Hpw & Htok). split; [split; [exact Hnd|]|].
    + intros u Hin. destruct (is_local u) eqn:Hl; [done|]. cbn [orb].
      rewrite Hpw; [done|exact Hin|]. intros Hl'. apply is_local_true in Hl'. congruence.
    + intros t Ht. destruct (Htok t Ht) as (u & Hu & Hid & Hl).
      apply existsb_exists. exists u. split; [exact Hu|].
      apply andb_true_iff. split; [by apply String.eqb_eq|by apply is_local_true].
Qed.

Lemma consistent_tables w w' :
  tables w' = tables w -> credentials_consistent w' = credentials_consistent w.
Proof.
  unfold tables, credentials_consistent. intros [= Hu Ht _ _ _]. by rewrite Hu, Ht.
Qed.

(** An update of the rows of one id keeps the rows consistent if it keeps
    the id, keeps an origin [local], and leaves no hash on a row of
    another origin. *)
Lemma consistent_rewrite (userId : string) (g : User.t -> User.t) us ts :
  consistent_rows us ts ->
  (forall x, User.id (g x) = User.id x) ->
  (forall x, In x us -> User.id x = userId ->
     (User.authProvider x = local -> User.authProvider (g x) = local)
     /\ (User.authProvider (g x) <> local -> User.passwordHash (g x) = None)) ->
  consistent_rows (rewrite_account userId g us) ts.
Proof.
  intros (Hnd & Hpw & Htok) Hid Hg. unfold rewrite_account. split; [|split].
  - rewrite map_map, (List.map_ext _ User.id); [exact Hnd|].
    intros x. destruct (by_id userId x); [apply Hid|done].
  - intros u Hin Hnl. apply in_map_iff in Hin as (x & <- & Hx).
    unfold by_id in *. destruct (String.eqb_spec (User.id x) userId) as [E|E].
    + by apply (Hg x Hx E).
    + by apply Hpw.
  - intros t Ht. destruct (Htok t Ht) as (u & Hu & Hid' & Hl).
    exists (if by_id userId u then g u else u). split; [|split].
    + apply in_map_iff. by exists u.
    + destruct (by_id userId u); [by rewrite Hid|done].
    + unfold by_id. destruct (String.eqb_spec (User.id u) userId) as [E|E]; [|done].
      by apply (Hg u Hu E).
Qed.

Lemma consistent_rewrite_keep (userId : string) (g : User.t -> User.t) us ts :
  consistent_rows us ts ->
  (forall x, User.id (g x) = User.id x
             /\ User.authProvider (g x) = User.authProvider x
             /\ User.passwordHash (g x) = User.passwordHash x) ->
  consistent_rows (rewrite_account userId g us) ts.
Proof.
  intros Hc Hg. apply consistent_rewrite; [exact Hc|intros x; apply Hg|].
  intros x Hx _. destruct (Hg x) as (_ & -> & ->). split; [done|].
  by apply Hc.
Qed.

Lemma consistent_append_user (n : User.t) us ts :
  consistent_rows us ts ->
  existsb (by_id (User.id n)) us = false ->
  (User.authProvider n <> local -> User.passwordHash n = None) ->
  consistent_rows (us ++ [n]) ts.
Proof.
  intros (Hnd & Hpw & Htok) Hfresh Hn. split; [|split].
  - apply unique_ids_NoDup. apply unique_ids_NoDup in Hnd.
    revert Hnd Hfresh. clear. induction us as [|u us IH]; cbn [unique_ids app existsb].
    + done.
    + intros [Hu Hnd]%andb_true_iff [Hne Hfresh]%orb_false_iff.
      apply andb_true_iff. split; [|by apply IH].
      rewrite existsb_app. cbn [existsb]. apply negb_true_iff in Hu. rewrite Hu.
      cbn [orb]. rewrite orb_false_r. apply negb_true_iff. unfold by_id in *.
      by rewrite String.eqb_sym.
  - intros u Hin Hnl. apply in_app_iff in Hin as [Hin|[<-|[]]]; [by apply Hpw|by apply Hn].
  - intros t Ht. destruct (Htok t Ht) as (u & Hu & ? & ?).
    exists u. split; [apply in_app_iff; by left|done].
Qed.

Lemma consistent_append_token (t : ResetToken.t) (u : User.t) us ts :
  consistent_rows us ts -> In u us -> User.id u = ResetToken.userId t ->
  User.authProvider u = local -> consistent_rows us (ts ++ [t]).
Proof.
  intros (Hnd & Hpw & Htok) Hu Hid Hl. split; [done|split; [done|]].
  intros t' [Ht|[<-|[]]]%in_app_iff; [by apply Htok|by exists u].
Qed.

Lemma consistent_update_tokens (i : string) (f : ResetToken.t -> ResetToken.t) us ts :
  consistent_rows us ts ->
  (forall t, ResetToken.userId (f t) = ResetToken.userId t) ->
  consistent_rows us (map (fun r => if String.eqb (ResetToken.id r) i then f r else r) ts).
Proof.
  intros (Hnd & Hpw & Htok) Hf. split; [done|split; [done|]].
  intros t' (t & <- & Ht)%in_map_iff. destruct (Htok t Ht) as (u & Hu & Hid & Hl).
  exists u. split; [done|]. split; [|done].
  destruct (String.eqb _ i); [by rewrite Hf|done].
Qed.

End CredentialRows.

(** Turns a goal about [credentials_consistent] of a world written with
    the [with_] functions into a goal about its two tables. *)
Ltac consistent_goal :=
  apply credentials_consistent_rows;
  cbn [users passwordResetTokens with_audit with_users with_tokens with_crm with_calls
       with_pending].

Section CredentialSteps.
Context `{Bcrypt} `{JwtLib} `{IdentityProvider}.
Variable env : Env.
Implicit Types (w : World).

Lemma sso_consistent (profile : Profile.t) (tenantId : string)
    (ipAddress userAgent : option string) (uuid : string) (now : Z) w :
  credentials_consistent w = true ->
  existsb (by_id uuid) (users w) = false ->
  credentials_consistent
    (snd (AuthService.handleMicrosoftSsoCallback profile tenantId ipAddress userAgent
            uuid now w)) = true.
Proof.
  intros Hc Hfresh. pose proof (proj1 (credentials_consistent_rows w) Hc) as Hrows.
  destruct (sso_cases profile tenantId ipAddress userAgent uuid now w)
    as [(_ & [Hw|(event & Hw & _)])
       |(_ & _ & _ & [(a & u0 & Hf & _ & _ & Hr)|(Hf & _ & Hr)])].
  - by rewrite Hw.
  - rewrite Hw. exact Hc.
  - cbv zeta in Hr. rewrite Hr. cbn [snd]. consistent_goal.
    apply consistent_rewrite; [exact Hrows|done|].
    intros x Hx Hid.
    assert (x = a) as ->.
    { apply (unique_ids_inj (users w)); [apply Hrows|exact Hx| |exact Hid].
      exact (proj1 (find_some _ _ Hf)). }
    cbn [AuthService.bind_microsoft User.authProvider User.passwordHash].
    destruct (User.authProvider a) eqn:Ea; cbn [AuthProvider_eqb]; (split; [done|]).
    + intros Hn. by destruct Hn.
    + intros _. apply Hrows; [exact Hx|congruence].
    + intros _. apply Hrows; [exact Hx|congruence].
  - cbv zeta in Hr. rewrite Hr. cbn [snd]. consistent_goal.
    apply consistent_append_user; [exact Hrows|exact Hfresh|done].
Qed.

(** Every operation of the service keeps the credentials on file
    consistent, the id of an inserted row being new. *)
Lemma service_op_consistent (op : ServiceOp) w :
  credentials_consistent w = true ->
  inserts_fresh_id op w = true ->
  credentials_consistent (snd (run_service_op env op w)) = true.
Proof.
  intros Hc Hfresh. pose proof (proj1 (credentials_consistent_rows w) Hc) as Hrows.
  destruct op; cbn [run_service_op inserts_fresh_id] in *; unfold bind at 1; cbn [ret snd].
  - apply negb_true_iff in Hfresh.
    unfold AuthService.registerLocalUser. step_handler.
    destruct (find _ (users w)); cbn [JS.defined]; [exact Hc|].
    destruct (_ <? _)%nat; cbn [snd]; [exact Hc|]. consistent_goal.
    apply consistent_append_user; [exact Hrows|exact Hfresh|done].
  - unfold AuthService.loginLocalUser. step_handler.
    destruct (find _ (users w)) as [u|]; [|exact Hc].
    destruct (User.isDisabled u); [exact Hc|].
    destruct (JS.truthy_opt _); [|exact Hc].
    destruct (AuthService.verifyPassword _ _); cbn [snd]; [|exact Hc].
    consistent_goal.
    apply (consistent_rewrite_keep (User.id u) (AuthService.set_lastLoginAt now));
      [exact Hrows|done].
  - unfold AuthService.createPasswordResetToken, AuthService.insert_token. step_handler.
    destruct (find _ (users w)) as [u|] eqn:Hf; [|exact Hc].
    destruct (AuthProvider_eqb (User.authProvider u) local) eqn:Hl; cbn [snd];
      [|exact Hc].
    consistent_goal.
    apply (consistent_append_token _ u); [exact Hrows| |done|by apply is_local_true].
    exact (proj1 (find_some _ _ Hf)).
  - unfold AuthService.resetPassword. step_handler.
    destruct (find _ (passwordResetTokens w)) as [t|] eqn:Hf; [|exact Hc].
    destruct (JS.defined _); [exact Hc|].
    destruct (_ >? _); [exact Hc|].
    destruct (_ <? _)%nat; cbn [snd]; [exact Hc|]. consistent_goal.
    apply consistent_update_tokens; [|done].
    apply (consistent_rewrite (ResetToken.userId t)
             (AuthService.set_password (AuthService.hashPassword salt newPassword) now));
      [exact Hrows|done|].
    intros x Hx Hid.
    destruct Hrows as (Hnd & _ & Htok).
    destruct (Htok t (proj1 (find_some _ _ Hf))) as (u & Hu & Hid' & Hl).
    assert (x = u) as -> by (apply (unique_ids_inj (users w)); congruence).
    split; [done|]. intros Hn. by destruct Hn.
  - apply negb_true_iff in Hfresh. by apply sso_consistent.
  - unfold AuthService.linkMicrosoftAccount. step_handler.
    destruct (find _ (users w)) as [u|]; cbn [snd]; [|exact Hc].
    consistent_goal.
    apply (consistent_rewrite_keep userId
             (AuthService.set_microsoft_link microsoftUserId _ now));
      [exact Hrows|done].
  - unfold AuthService.unlinkMicrosoftAccount. step_handler.
    destruct (find _ (users w)) as [u|]; [|exact Hc].
    destruct (_ && _); cbn [snd]; [exact Hc|]. consistent_goal.
    apply (consistent_rewrite userId (AuthService.clear_microsoft_link now));
      [exact Hrows|done|].
    intros x _ _. split; [done|]. intros Hn. by destruct Hn.
  - unfold AuthService.disableUser. step_handler.
    destruct (find _ (users w)) as [u|]; cbn [snd]; [|exact Hc].
    consistent_goal.
    apply (consistent_rewrite_keep userId (AuthService.set_isDisabled true now));
      [exact Hrows|done].
  - unfold AuthService.enableUser. step_handler.
    destruct (find _ (users w)) as [u|]; cbn [snd]; [|exact Hc].
    consistent_goal.
    apply (consistent_rewrite_keep userId (AuthService.set_isDisabled false now));
      [exact Hrows|done].
  - unfold Session.ensureCrmUser. step_handler.
    destruct (find _ (crmUsers w)); [exact Hc|]. destruct (parse_role _); exact Hc.
  - apply negb_true_iff in Hfresh.
    destruct (handleCallback_cases env code state ipAddress userAgent uuid now w _ eq_refl)
      as [(msg & w' & -> & Ht)|(profile & tenant & w3 & Ht & ->)].
    + cbn [snd]. by rewrite (consistent_tables _ _ Ht).
    + apply sso_consistent.
      * by rewrite (consistent_tables _ _ Ht).
      * unfold tables in Ht. injection Ht as Hu _ _ _ _. by rewrite Hu.
Qed.

(** So does every history of operations. *)
Lemma run_service_consistent (ops : list ServiceOp) : forall w,
  credentials_consistent w = true ->
  fresh_ids env ops w = true ->
  credentials_consistent (snd (run_service env ops w)) = true.
Proof.
  induction ops as [|op ops IH]; intros w Hc Hf; [exact Hc|].
  cbn [fresh_ids] in Hf. apply andb_true_iff in Hf as [Hf1 Hf2].
  change (snd (run_service env (op :: ops) w))
    with (snd (run_service env ops (snd (run_service_op env op w)))).
  apply IH; [by apply service_op_consistent|exact Hf2].
Qed.

End CredentialSteps.

(** ** The origin of an account under federation *)

Section Origin.
Context `{Bcrypt} `{JwtLib} `{IdentityProvider}.
Variable env : Env.

(** C8.  Take a store on which the credentials on file are consistent (the
    empty store is one), and any history of operations of the service on
    it, every inserted row getting an id of its own.  When a federated
    login then binds to an existing enabled account, the login succeeds
    and returns the account, with the password hash it had.  If the
    account has a password hash, its origin was [local] and is [local]
    afterwards.  The origin written differs from the origin the account
    had only if the account has no password hash at all, and is then
    [microsoft].  The credentials on file are consistent afterwards as
    well. *)
Theorem sso_binding_keeps_local_origin (ops : list ServiceOp) (w0 : World)
    (profile : Profile.t) (tenantId : string) (ipAddress userAgent : option string)
    (uuid : string) (now : Z) (account : User.t) :
  let w := snd (run_service env ops w0) in
  credentials_consistent w0 = true ->
  fresh_ids env ops w0 = true ->
  JS.truthy (AuthService.profile_email profile) = true ->
  AuthService.not_allowed (head (ssoSettings w) ≫= SsoSettings.allowedTenantIds)
                          (Some tenantId) = false ->
  AuthService.not_allowed (head (ssoSettings w) ≫= SsoSettings.allowedEmailDomains)
                          (nth_error (JS.split "@"%char (AuthService.profile_email profile)) 1)
    = false ->
  find (by_email (AuthService.profile_email profile)) (users w) = Some account ->
  User.isDisabled account = false ->
  let r := AuthService.handleMicrosoftSsoCallback profile tenantId ipAddress userAgent
             uuid now w in
  success (fst r) = true
  /\ (exists bound,
        user (fst r) = Some bound
        /\ In bound (users (snd r))
        /\ User.id bound = User.id account
        /\ User.passwordHash bound = User.passwordHash account
        /\ User.authProvider bound
           = match User.authProvider account with local => local | _ => microsoft end
        /\ (User.passwordHash account <> None ->
            User.authProvider account = local /\ User.authProvider bound = local)
        /\ (User.authProvider bound <> User.authProvider account ->
            User.authProvider bound = microsoft /\ User.passwordHash account = None))
  /\ credentials_consistent (snd r) = true.
Proof.
  intros w Hc0 Hfresh Hem Hten Hdom Hfind Hen r.
  assert (Hc : credentials_consistent w = true) by by apply run_service_consistent.
  pose proof (proj1 (credentials_consistent_rows w) Hc) as (Hnd & Hpw & _).
  pose proof (proj1 (find_some _ _ Hfind)) as Hin.
  destruct (bind_existing profile tenantId ipAddress userAgent uuid now w account
              Hem Hten Hdom Hfind Hen) as (u0 & Hu0 & Hr).
  pose proof (find_some _ _ Hu0) as [Hin0 Hid0].
  unfold by_id in Hid0. apply String.eqb_eq in Hid0.
  assert (u0 = account) as -> by by apply (unique_ids_inj (users w)).
  assert (Hafter : credentials_consistent (snd r) = true).
  { subst r. rewrite Hr. cbn [snd]. consistent_goal.
    apply (consistent_rewrite (User.id account)
             (AuthService.bind_microsoft account profile tenantId now));
      [by apply credentials_consistent_rows|done|].
    intros x Hx Hid. assert (x = account) as -> by by apply (unique_ids_inj (users w)).
    cbn [AuthService.bind_microsoft User.authProvider User.passwordHash].
    destruct (User.authProvider account) eqn:Ea; cbn [AuthProvider_eqb]; (split; [done|]).
    - intros Hn. by destruct Hn.
    - intros _. apply Hpw; [exact Hin|congruence].
    - intros _. apply Hpw; [exact Hin|congruence]. }
  split; [subst r; by rewrite Hr|]. split; [|exact Hafter].
  exists (AuthService.bind_microsoft account profile tenantId now account).
  split; [subst r; by rewrite Hr|]. split.
  { subst r. rewrite Hr. cbn [snd users with_audit with_users].
    apply in_map_iff. exists account. split; [|exact Hin].
    unfold by_id. by rewrite String.eqb_refl. }
  cbn [AuthService.bind_microsoft User.id User.authProvider User.passwordHash].
  split; [reflexivity|]. split; [reflexivity|].
  destruct (User.authProvider account) eqn:Ea; cbn [AuthProvider_eqb].
  - split; [reflexivity|]. split; [done|]. intros Hn. by destruct Hn.
  - split; [reflexivity|]. split.
    + intros Hp. destruct Hp. apply Hpw; [exact Hin|congruence].
    + intros Hn. by destruct Hn.
  - split; [reflexivity|]. split.
    + intros Hp. destruct Hp. apply Hpw; [exact Hin|congruence].
    + intros _. split; [reflexivity|]. apply Hpw; [exact Hin|congruence].
Qed.

End Origin.

Lemma sso_binding_keeps_local_origin_witness :
  let w := snd (@run_service Fixture.demo_bcrypt Fixture.demo_jwt Fixture.demo_idp
                  Fixture.demo_env Fixture2.first_week Fixture2.imported) in
  let ann := AuthService.handleMicrosoftSsoCallback
               (Fixture.graph_profile "g-ann" "Ann@acme.com" "Ann") "tenant-1"
               None None "fresh" 7000 w in
  let rob := AuthService.handleMicrosoftSsoCallback
               (Fixture.graph_profile "g-rob" "Rob@acme.com" "Rob") "tenant-1"
               None None "fresh" 7000 w in
  (success (fst ann) = true
   /\ (User.passwordHash <$> user (fst ann)) = Some (Some "s1:battery staple")
   /\ (User.authProvider <$> user (fst ann)) = Some local)
  /\ (success (fst rob) = true
      /\ User.authProvider Fixture2.rob = replit
      /\ (User.passwordHash <$> user (fst rob)) = Some None
      /\ (User.authProvider <$> user (fst rob)) = Some microsoft).
Proof.
  intros w ann rob. split.
  - destruct (@sso_binding_keeps_local_origin Fixture.demo_bcrypt Fixture.demo_jwt
                Fixture.demo_idp Fixture.demo_env Fixture2.first_week Fixture2.imported
                (Fixture.graph_profile "g-ann" "Ann@acme.com" "Ann") "tenant-1"
                None None "fresh" 7000
                (AuthService.set_password "s1:battery staple" 3000
                   (AuthService.registered "u-ann" "ann@acme.com" "s0:correct horse"
                      None None 1000))
                eq_refl eq_refl eq_refl eq_refl eq_refl eq_refl eq_refl)
      as (Hs & (bound & Hu & _ & _ & Hp & _ & Hl & _) & _).
    split; [exact Hs|]. fold w ann in Hu. rewrite Hu. cbn [fmap option_fmap option_map].
    rewrite Hp. split; [reflexivity|]. f_equal. by apply Hl.
  - destruct (@sso_binding_keeps_local_origin Fixture.demo_bcrypt Fixture.demo_jwt
                Fixture.demo_idp Fixture.demo_env Fixture2.first_week Fixture2.imported
                (Fixture.graph_profile "g-rob" "Rob@acme.com" "Rob") "tenant-1"
                None None "fresh" 7000 Fixture2.rob
                eq_refl eq_refl eq_refl eq_refl eq_refl eq_refl eq_refl)
      as (Hs & (bound & Hu & _ & _ & Hp & Ha & _ & _) & _).
    split; [exact Hs|]. split; [reflexivity|].
    fold w rob in Hu. rewrite Hu. cbn [fmap option_fmap option_map].
    rewrite Hp, Ha. split; reflexivity.
Defined.
